(** * Atlas ingest scripts: a shallow embedding and its properties

    The development follows four scripts of the repository:
    - [scripts/ingest/ingest_airtable_trapping_requests.py]
      (module [Trapping]),
    - [archive/cockpit_snapshot/scripts/ingest_clinichq_upcoming_appointments.py]
      (module [Clinichq]),
    - [archive/cockpit_snapshot/scripts/ingest_airtable_appointment_requests.py]
      (module [AirtableAppt]),
    - [archive/cockpit_snapshot/scripts/generate_people_match_candidates.py]
      (module [PeopleMatch]).

    Conventions.  Python [str] is [string]; the text is taken to be ASCII
    (the character classes of [str.strip], [str.lower] and [re] are the
    ASCII parts of Python's).  A [dict] or a table with a unique key is a
    [gmap], a [set] a [gset].  SQL [NULL] and Python [None] are [None].
    PostgreSQL is modelled by what each statement of the scripts does to
    the table it names. *)

From Stdlib Require Import String Ascii List ZArith QArith Qround Qminmax Lqa Bool Lia
  DecimalString DecimalZ DecimalPos Sorted.
From stdpp Require Import base gmap strings list fin_maps.

Local Open Scope string_scope.
Local Open Scope list_scope.

(** ** Python string primitives *)

Module PyStr.

Definition chars (s : string) : list ascii := list_ascii_of_string s.
Definition text (l : list ascii) : string := string_of_list_ascii l.

(** [str.isspace] on ASCII, which is also [\s] of [re]:
    TAB..CR, FS..US and the space. *)
Definition is_space (a : ascii) : bool :=
  let n := nat_of_ascii a in
  ((9 <=? n)%nat && (n <=? 13)%nat) || ((28 <=? n)%nat && (n <=? 32)%nat).

Definition is_digit (a : ascii) : bool :=
  let n := nat_of_ascii a in (48 <=? n)%nat && (n <=? 57)%nat.

Definition is_upper (a : ascii) : bool :=
  let n := nat_of_ascii a in (65 <=? n)%nat && (n <=? 90)%nat.

Definition is_lower (a : ascii) : bool :=
  let n := nat_of_ascii a in (97 <=? n)%nat && (n <=? 122)%nat.

(** [\w] of [re] on ASCII. *)
Definition is_word (a : ascii) : bool :=
  is_digit a || is_upper a || is_lower a || Ascii.eqb a "_"%char.

Fixpoint drop_while (p : ascii -> bool) (l : list ascii) : list ascii :=
  match l with
  | [] => []
  | a :: l' => if p a then drop_while p l' else l
  end.

(** [s.strip(chars)] for a character class [p]. *)
Definition strip_class (p : ascii -> bool) (s : string) : string :=
  text (rev (drop_while p (rev (drop_while p (chars s))))).

(** [s.strip()] *)
Definition strip (s : string) : string := strip_class is_space s.

Definition lower_char (a : ascii) : ascii :=
  if is_upper a then ascii_of_nat (nat_of_ascii a + 32) else a.

(** [s.lower()] *)
Definition lower (s : string) : string := text (map lower_char (chars s)).

(** [re.sub(C+, r, s)] for a character class [C]: every maximal run of
    [C] characters becomes one [r]. *)
Fixpoint sub_runs_from (p : ascii -> bool) (r : list ascii) (in_run : bool)
    (l : list ascii) : list ascii :=
  match l with
  | [] => []
  | a :: l' =>
      if p a then (if in_run then [] else r) ++ sub_runs_from p r true l'
      else a :: sub_runs_from p r false l'
  end.

Definition sub_runs (p : ascii -> bool) (r : string) (s : string) : string :=
  text (sub_runs_from p (chars r) false (chars s)).

(** [re.sub(C, "", s)] and [re.sub(C+, "", s)]: the characters outside [C]. *)
Definition delete_class (p : ascii -> bool) (s : string) : string :=
  text (List.filter (fun a => negb (p a)) (chars s)).

(** [re.sub(r"\s+", " ", s)] *)
Definition collapse_ws (s : string) : string := sub_runs is_space " " s.

(** Truth value of a [str]. *)
Definition truthy (s : string) : bool := negb (String.eqb s "").

(** [s or None] *)
Definition or_none (s : string) : option string :=
  if truthy s then Some s else None.

(** [x or None] for an optional [str]. *)
Definition opt_or_none (o : option string) : option string :=
  match o with Some s => or_none s | None => None end.

(** [",".join(l)] for a separator [sep]. *)
Fixpoint join (sep : string) (l : list string) : string :=
  match l with
  | [] => ""
  | [x] => x
  | x :: l' => x +:+ sep +:+ join sep l'
  end.

(** The first maximal run of digits, [re.search(r"\d+", s)]. *)
Fixpoint take_while (p : ascii -> bool) (l : list ascii) : list ascii :=
  match l with
  | [] => []
  | a :: l' => if p a then a :: take_while p l' else []
  end.

Definition first_digits (s : string) : option (list ascii) :=
  match drop_while (fun a => negb (is_digit a)) (chars s) with
  | [] => None
  | l => Some (take_while is_digit l)
  end.

(** [int(ds)] for a run of ASCII digits. *)
Definition int_of_digits (ds : list ascii) : Z :=
  fold_left (fun acc a => (10 * acc + (Z.of_nat (nat_of_ascii a) - 48))%Z) ds 0%Z.

(** [str(n)] for an [int]. *)
Definition str_of_int (n : Z) : string :=
  NilZero.string_of_int (Z.to_int n).

End PyStr.


(** ** Errors

    A failed SQL statement or HTTP call raises; no script catches it in
    the paths modelled with this monad, so the run stops there. *)

Inductive exn : Type := SqlError | HttpError.

Inductive result (A : Type) : Type :=
| Ok (a : A)
| Raise (e : exn).
Arguments Ok {A} a.
Arguments Raise {A} e.

#[global] Instance result_ret : MRet result := fun A a => Ok a.

#[global] Instance result_bind : MBind result := fun A B k c =>
  match c with
  | Ok a => k a
  | Raise e => Raise e
  end.

(** SQL [coalesce(a, b)]. *)
Definition coalesce {A : Type} (a b : option A) : option A :=
  match a with Some _ => a | None => b end.

(** [name in cols] for the set [table_columns] returns. *)
Definition has_col (cols : gset string) (name : string) : bool :=
  bool_decide (name ∈ cols).

(** The closure [add(col, val)] of every upsert lists a column only when
    the table has it; [add] gives the value the INSERT proposes for the
    column, [NULL] when the column is not listed. *)
Definition add {A : Type} (cols : gset string) (col : string) (val : option A)
    : option A :=
  if has_col cols col then val else None.

(** ** Rows of [csv.DictReader] *)

Module Csv.

(** A cell: a text, or [None] where the line was shorter than the header. *)
Definition cell : Type := option string.

(** [str(v)] *)
Definition py_str (c : cell) : string :=
  match c with Some s => s | None => "None" end.

Abbreviation row := (gmap string cell).

End Csv.

(** ** scripts/ingest/ingest_airtable_trapping_requests.py *)

Module Trapping.
Import PyStr Csv.

Record csv_file : Type := {
  fieldnames : list string;
  rows : list row
}.

Definition norm_ws (s : string) : string := strip (collapse_ws s).

Definition normalize_text (s : string) : string :=
  let s := lower (strip s) in
  let s := delete_class
             (fun a => negb (is_word a || is_space a || Ascii.eqb a "#"
                         || Ascii.eqb a "/" || Ascii.eqb a "-")) s in
  norm_ws s.

Definition normalize_phone (s : string) : string :=
  let digits := delete_class (fun a => negb (is_digit a)) s in
  match digits with
  | String "1" rest => if (String.length digits =? 11)%nat then rest else digits
  | _ => digits
  end.

Definition normalize_csv_headers (fieldnames : list string) : gmap string string :=
  fold_left (fun mapping orig => <[strip orig := orig]> mapping) fieldnames ∅.

(** [str(row[k]).strip()] when [k in row], the empty text otherwise. *)
Definition cell_text (r : row) (k : string) : string :=
  match r !! k with
  | Some v => strip (py_str v)
  | None => ""
  end.

Fixpoint get_field (r : row) (header_map : gmap string string)
    (keys : list string) : string :=
  match keys with
  | [] => ""
  | k :: keys' =>
      if truthy (cell_text r k) then cell_text r k
      else
        let via :=
          match header_map !! k with
          | Some orig => cell_text r orig
          | None => ""
          end in
        if truthy via then via else get_field r header_map keys'
  end.

Definition status_mapping : gmap string string :=
  list_to_map
    [ ("new", "new");
      ("requested", "new");
      ("needs attention", "needs_review");
      ("need to re-book", "needs_review");
      ("need to re book", "needs_review");
      ("in progress", "in_progress");
      ("partially complete", "in_progress");
      ("revisit", "active");
      ("complete/closed", "closed");
      ("complete / closed", "closed");
      ("complete", "closed");
      ("closed", "closed");
      ("hold", "paused");
      ("referred elsewhere", "resolved");
      ("duplicate request", "closed");
      ("duplicate", "closed");
      ("denied", "closed") ].

Definition allowed_status : list string :=
  ["new"; "needs_review"; "active"; "scheduled"; "in_progress"; "paused";
   "resolved"; "closed"].

Definition mem (s : string) (l : list string) : bool :=
  existsb (String.eqb s) l.

Definition coerce_request_status (raw : string) : option string :=
  let s := strip raw in
  if negb (truthy s) then None
  else
    let s0 := strip (collapse_ws (lower s)) in
    match status_mapping !! s0 with
    | Some v => Some v
    | None =>
        let candidate :=
          strip_class (Ascii.eqb "_")
            (sub_runs (fun a => negb (is_lower a || is_digit a)) "_" s0) in
        if mem candidate allowed_status then Some candidate else None
    end.

Definition word_map : gmap string Z :=
  list_to_map
    [("low", 1%Z); ("medium", 2%Z); ("med", 2%Z); ("high", 3%Z);
     ("urgent", 4%Z); ("critical", 5%Z)].

Definition coerce_priority_smallint (raw : string) : option Z :=
  let s := strip raw in
  if negb (truthy s) then None
  else
    match first_digits s with
    | Some ds => Some (int_of_digits ds)
    | None => word_map !! strip (collapse_ws (lower s))
    end.

(** [" ".join(s.split())] is the text with its whitespace runs collapsed
    and its ends stripped. *)
Definition coerce_archive_reason (raw_status : string) : option string :=
  let s := lower (strip raw_status) in
  if negb (truthy s) then None
  else
    let s := strip (collapse_ws s) in
    if mem s ["duplicate request"; "duplicate"; "dup"] then Some "duplicate"
    else if mem s ["denied"] then Some "denied"
    else if mem s ["referred elsewhere"; "referred"; "refer elsewhere"]
         then Some "referred_elsewhere"
    else None.

Definition is_blank_row (r : row) : bool :=
  forallb (fun kv => String.eqb (strip (py_str (snd kv))) "") (map_to_list r).

(** The pre-scan: [mapping[rid] = case_num] for every row that has both. *)
Definition rid_keys : list string := ["Record ID"; "record_id"; "Airtable Record ID"].
Definition case_number_keys : list string :=
  ["Case Number"; "case_number"; "Case #"; "CaseNumber"].

Definition build_rid_to_case_number_map (f : csv_file) : gmap string string :=
  match fieldnames f with
  | [] => ∅
  | _ =>
      let header_map := normalize_csv_headers (fieldnames f) in
      fold_left
        (fun mapping r =>
           let rid := get_field r header_map rid_keys in
           let case_num := get_field r header_map case_number_keys in
           if truthy rid && truthy case_num then <[rid := case_num]> mapping
           else mapping)
        (rows f) ∅
  end.
(** *** The store

    One record per table row; a table with a unique key is a map from
    that key.  [id] columns are filled by the database: [next_id] is the
    next value it hands out. *)

(** A Python [float]: the scripts carry latitudes and longitudes and
    never compute with them. *)
Inductive pyfloat : Type :=
| Finite (q : Q)
| Infinite (negative : bool)
| NaN.

Record address_row : Type := {
  address_id : N;
  raw_address : option string;
  formatted_address : option string;
  latitude : option pyfloat;
  longitude : option pyfloat;
  geom : option (pyfloat * pyfloat)
}.

Record place_row : Type := {
  place_id : N;
  display_name : option string;
  place_address_id : option N
}.

Record person_row : Type := {
  person_id : N;
  first_name : option string;
  last_name : option string;
  email : option string;
  phone : option string;
  phone_normalized : option string
}.

Record request_row : Type := {
  request_id : N;
  source_record_id : option string;
  primary_place_id : option N;
  primary_contact_person_id : option N;
  status : option string;
  priority : option Z;
  priority_label : option string;
  notes : option string;
  archive_reason : option string;
  merged_into_case_number : option string;
  merged_into_source_record_id : option string;
  archived_at : option N
}.

Record note_row : Type := {
  note_request_id : N;
  note_kind : string;
  note_body : string;
  note_source_system : string;
  note_created_at : N;
  note_updated_at : option N
}.

Record database : Type := {
  addresses : gmap string address_row;          (* by address_key *)
  places : gmap string place_row;               (* by place_key *)
  people : gmap string person_row;              (* by person_key *)
  requests : gmap string request_row;           (* by case_number *)
  request_parties : gset (N * N * option string);
  request_notes : gmap string note_row;         (* by note_key *)
  next_id : N
}.

Definition with_addresses (d : database) (m : gmap string address_row) : database :=
  {| addresses := m; places := places d; people := people d;
     requests := requests d; request_parties := request_parties d;
     request_notes := request_notes d; next_id := next_id d |}.

Definition with_places (d : database) (m : gmap string place_row) : database :=
  {| addresses := addresses d; places := m; people := people d;
     requests := requests d; request_parties := request_parties d;
     request_notes := request_notes d; next_id := next_id d |}.

Definition with_people (d : database) (m : gmap string person_row) : database :=
  {| addresses := addresses d; places := places d; people := m;
     requests := requests d; request_parties := request_parties d;
     request_notes := request_notes d; next_id := next_id d |}.

Definition with_requests (d : database) (m : gmap string request_row) : database :=
  {| addresses := addresses d; places := places d; people := people d;
     requests := m; request_parties := request_parties d;
     request_notes := request_notes d; next_id := next_id d |}.

Definition with_request_parties (d : database)
    (m : gset (N * N * option string)) : database :=
  {| addresses := addresses d; places := places d; people := people d;
     requests := requests d; request_parties := m;
     request_notes := request_notes d; next_id := next_id d |}.

Definition with_request_notes (d : database) (m : gmap string note_row) : database :=
  {| addresses := addresses d; places := places d; people := people d;
     requests := requests d; request_parties := request_parties d;
     request_notes := m; next_id := next_id d |}.

(** The database hands out an id for an inserted row. *)
Definition fresh_id (d : database) : N * database :=
  (next_id d,
   {| addresses := addresses d; places := places d; people := people d;
      requests := requests d; request_parties := request_parties d;
      request_notes := request_notes d; next_id := N.succ (next_id d) |}).

(** What a run is given from outside the script. *)
Record environment : Type := {
  table_columns : string -> gset string;    (* information_schema, by table *)
  float_of_text : string -> option pyfloat; (* [float(s)], [None] when it raises *)
  geocode_enabled : bool;
  geocode_address :
    string -> result (option pyfloat * option pyfloat * option string);
  sql_normalize_phone : string -> option string;  (* {schema}.normalize_phone *)
  now : N                                   (* now() of the transaction *)
}.

Section Run.

Variable env : environment.

(** A statement that names a column the table lacks is rejected. *)
Definition columns_exist (cols : gset string) (names : list string) : bool :=
  forallb (has_col cols) names.

Definition lookup_case_number_by_source_record_id (d : database)
    (rid : string) : option string :=
  if negb (truthy rid) then None
  else
    fst <$> List.find
      (fun kv => bool_decide (source_record_id (snd kv) = Some rid))
      (map_to_list (requests d)).

Definition upsert_address (d : database) (raw_addr : string)
    (lat lng : option pyfloat) (formatted : option string)
    : result (database * option N * bool) :=
  if negb (truthy raw_addr) then Ok (d, None, false)
  else
    let cols := table_columns env "addresses" in
    let address_key := "addr:" +:+ normalize_text raw_addr in
    let point :=
      match lat, lng with
      | Some la, Some ln =>
          if has_col cols "geom" || has_col cols "geog" then Some (ln, la) else None
      | _, _ => None
      end in
    let fields :=
      List.filter (has_col cols)
        ["address_key"; "raw_address"; "formatted_address"; "latitude"; "longitude"] in
    if bool_decide (fields = []) && negb (bool_decide (is_Some point)) then Ok (d, None, false)
    else if negb (columns_exist cols
                    ["address_key"; "raw_address"; "formatted_address";
                     "latitude"; "longitude"])
    then Raise SqlError
    else
      match addresses d !! address_key with
      | Some old =>
          let new :=
            {| address_id := address_id old;
               raw_address := Some raw_addr;
               formatted_address :=
                 coalesce (opt_or_none formatted) (formatted_address old);
               latitude := coalesce lat (latitude old);
               longitude := coalesce lng (longitude old);
               geom := geom old |} in
          Ok (with_addresses d (<[address_key := new]> (addresses d)),
              Some (address_id old), false)
      | None =>
          let '(i, d) := fresh_id d in
          let new :=
            {| address_id := i;
               raw_address := Some raw_addr;
               formatted_address := opt_or_none formatted;
               latitude := lat;
               longitude := lng;
               geom := point |} in
          Ok (with_addresses d (<[address_key := new]> (addresses d)), Some i, true)
      end.

Definition upsert_place (d : database) (address_id : option N)
    (place_name raw_addr : string) : result (database * option N * bool) :=
  let cols := table_columns env "places" in
  if negb (truthy raw_addr) && negb (truthy place_name) then Ok (d, None, false)
  else
    let base_key :=
      if truthy raw_addr then "addr:" +:+ normalize_text raw_addr else "addr:unknown" in
    let pname := if truthy place_name then normalize_text place_name else "" in
    let place_key :=
      "place:" +:+ (if truthy pname then pname +:+ "|" +:+ base_key else base_key) in
    let name := if truthy place_name then place_name else raw_addr in
    if negb (columns_exist cols ["place_key"; "display_name"; "address_id"])
    then Raise SqlError
    else
      match places d !! place_key with
      | Some old =>
          let new :=
            {| place_id := place_id old;
               display_name := Some name;
               place_address_id := coalesce address_id (place_address_id old) |} in
          Ok (with_places d (<[place_key := new]> (places d)),
              Some (place_id old), false)
      | None =>
          let '(i, d) := fresh_id d in
          let new :=
            {| place_id := i;
               display_name := Some name;
               place_address_id := address_id |} in
          Ok (with_places d (<[place_key := new]> (places d)), Some i, true)
      end.

Definition upsert_person (d : database) (first last email_in phone_in : string)
    : result (database * option N * bool) :=
  let cols := table_columns env "people" in
  let email_n := lower (strip email_in) in
  let phone_n := normalize_phone phone_in in
  let phone_raw := strip phone_in in
  let person_key :=
    if truthy email_n then Some ("email:" +:+ email_n)
    else if truthy phone_n then Some ("phone:" +:+ phone_n)
    else
      let name_n := normalize_text (first +:+ " " +:+ last) in
      if negb (truthy name_n) then None else Some ("name:" +:+ name_n) in
  match person_key with
  | None => Ok (d, None, false)
  | Some person_key =>
      let excluded :=
        {| person_id := 0%N;
           first_name := add cols "first_name" (or_none first);
           last_name := add cols "last_name" (or_none last);
           email := add cols "email" (or_none email_n);
           phone := add cols "phone" (or_none phone_n);
           phone_normalized :=
             if has_col cols "phone_normalized" && truthy phone_raw
             then sql_normalize_phone env phone_raw else None |} in
      if negb (columns_exist cols
                 ["person_key"; "first_name"; "last_name"; "email"; "phone"])
      then Raise SqlError
      else
        match people d !! person_key with
        | Some old =>
            let new :=
              {| person_id := person_id old;
                 first_name := coalesce (first_name excluded) (first_name old);
                 last_name := coalesce (last_name excluded) (last_name old);
                 email := coalesce (email excluded) (email old);
                 phone := coalesce (phone excluded) (phone old);
                 phone_normalized :=
                   if has_col cols "phone_normalized"
                   then coalesce (phone_normalized excluded) (phone_normalized old)
                   else phone_normalized old |} in
            Ok (with_people d (<[person_key := new]> (people d)),
                Some (person_id old), false)
        | None =>
            let '(i, d) := fresh_id d in
            let new :=
              {| person_id := i;
                 first_name := first_name excluded;
                 last_name := last_name excluded;
                 email := email excluded;
                 phone := phone excluded;
                 phone_normalized := phone_normalized excluded |} in
            Ok (with_people d (<[person_key := new]> (people d)), Some i, true)
        end
  end.

(** Truth value of an optional [str]. *)
Definition truthy_opt (o : option string) : bool :=
  match o with Some s => truthy s | None => false end.

(** [priority or None] for an optional [int]: zero is false. *)
Definition int_or_none (p : option Z) : option Z :=
  match p with
  | Some 0%Z => None
  | _ => p
  end.

Definition upsert_request (d : database) (case_number srid : string)
    (place person : option N) (status_in : option string) (priority_in : option Z)
    (priority_label_in : option string) (notes_in : string)
    (archive_reason_in merged_case_in merged_rid_in : option string)
    : result (database * option N * bool) :=
  let cols := table_columns env "requests" in
  let excluded :=
    {| request_id := 0%N;
       source_record_id := add cols "source_record_id" (or_none srid);
       primary_place_id := add cols "primary_place_id" place;
       primary_contact_person_id := add cols "primary_contact_person_id" person;
       status := add cols "status" (opt_or_none status_in);
       priority := add cols "priority" (int_or_none priority_in);
       priority_label := add cols "priority_label" (opt_or_none priority_label_in);
       notes := add cols "notes" (or_none notes_in);
       archive_reason := add cols "archive_reason" (opt_or_none archive_reason_in);
       merged_into_case_number :=
         add cols "merged_into_case_number" (opt_or_none merged_case_in);
       merged_into_source_record_id :=
         add cols "merged_into_source_record_id" (opt_or_none merged_rid_in);
       archived_at :=
         if truthy_opt archive_reason_in && has_col cols "archived_at"
         then Some (now env) else None |} in
  if negb (columns_exist cols
             ["case_number"; "source_record_id"; "primary_place_id";
              "primary_contact_person_id"; "status"; "priority";
              "priority_label"; "notes"]
           && (negb (has_col cols "archived_at") || has_col cols "archive_reason"))
  then Raise SqlError
  else
    match requests d !! case_number with
    | Some old =>
        let new :=
          {| request_id := request_id old;
             source_record_id :=
               coalesce (source_record_id excluded) (source_record_id old);
             primary_place_id :=
               coalesce (primary_place_id excluded) (primary_place_id old);
             primary_contact_person_id :=
               coalesce (primary_contact_person_id excluded)
                        (primary_contact_person_id old);
             status := coalesce (status excluded) (status old);
             priority := coalesce (priority excluded) (priority old);
             priority_label := coalesce (priority_label excluded) (priority_label old);
             notes := coalesce (notes excluded) (notes old);
             archive_reason :=
               if has_col cols "archive_reason"
               then coalesce (archive_reason excluded) (archive_reason old)
               else archive_reason old;
             merged_into_case_number :=
               if has_col cols "merged_into_case_number"
               then coalesce (merged_into_case_number excluded)
                             (merged_into_case_number old)
               else merged_into_case_number old;
             merged_into_source_record_id :=
               if has_col cols "merged_into_source_record_id"
               then coalesce (merged_into_source_record_id excluded)
                             (merged_into_source_record_id old)
               else merged_into_source_record_id old;
             archived_at :=
               if has_col cols "archived_at"
               then coalesce (archived_at old)
                      (match archive_reason excluded with
                       | Some _ => Some (now env)
                       | None => None
                       end)
               else archived_at old |} in
        Ok (with_requests d (<[case_number := new]> (requests d)),
            Some (request_id old), false)
    | None =>
        let '(i, d) := fresh_id d in
        let new :=
          {| request_id := i;
             source_record_id := source_record_id excluded;
             primary_place_id := primary_place_id excluded;
             primary_contact_person_id := primary_contact_person_id excluded;
             status := status excluded;
             priority := priority excluded;
             priority_label := priority_label excluded;
             notes := notes excluded;
             archive_reason := archive_reason excluded;
             merged_into_case_number := merged_into_case_number excluded;
             merged_into_source_record_id := merged_into_source_record_id excluded;
             archived_at := archived_at excluded |} in
        Ok (with_requests d (<[case_number := new]> (requests d)), Some i, true)
    end.

(** Ids reach the script as [str(id)], never empty, so the guard
    [if not (request_id and person_id)] never fires. *)
Definition upsert_request_party (d : database) (req person : N) (role : string)
    : result (database * bool) :=
  let cols := table_columns env "request_parties" in
  if negb (has_col cols "request_id" && has_col cols "person_id") then Ok (d, false)
  else
    let link := (req, person, if has_col cols "role" then Some role else None) in
    if bool_decide (link ∈ request_parties d) then Ok (d, false)
    else Ok (with_request_parties d ({[link]} ∪ request_parties d), true).

Definition upsert_request_note (d : database) (req : N)
    (case_number kind body : string) : result (database * bool * bool) :=
  if negb (truthy body) then Ok (d, false, false)
  else
    let body := strip body in
    if negb (truthy body) then Ok (d, false, false)
    else
      let cols := table_columns env "request_notes" in
      if negb (has_col cols "note_key") then Ok (d, false, false)
      else
        let note_key :=
          "airtable_trapping_requests::" +:+ case_number +:+ "::" +:+ kind in
        if negb (columns_exist cols
                   ["request_id"; "note_kind"; "note_body"; "source_system";
                    "created_at"; "updated_at"])
        then Raise SqlError
        else
          match request_notes d !! note_key with
          | Some old =>
              let new :=
                {| note_request_id := note_request_id old;
                   note_kind := note_kind old;
                   note_body := body;
                   note_source_system := note_source_system old;
                   note_created_at := note_created_at old;
                   note_updated_at := Some (now env) |} in
              Ok (with_request_notes d (<[note_key := new]> (request_notes d)),
                  false, true)
          | None =>
              let new :=
                {| note_request_id := req;
                   note_kind := kind;
                   note_body := body;
                   note_source_system := "airtable";
                   note_created_at := now env;
                   note_updated_at := None |} in
              Ok (with_request_notes d (<[note_key := new]> (request_notes d)),
                  true, false)
          end.

Record Counters : Type := mkCounters {
  addresses_inserted : nat;
  places_inserted : nat;
  people_inserted : nat;
  requests_inserted : nat;
  requests_updated : nat;
  request_parties_inserted : nat;
  notes_inserted : nat;
  notes_updated : nat;
  skipped_blank_rows : nat;
  skipped_missing_case_number : nat;
  skipped_dupe_case_in_file : nat;
  merged_links_set : nat;
  merged_case_resolved : nat;
  merged_case_unresolved : nat
}.

Definition no_counters : Counters :=
  mkCounters 0 0 0 0 0 0 0 0 0 0 0 0 0 0.

(** [counters.f += 1], one definition per field. *)
Definition inc_addresses_inserted (c : Counters) : Counters :=
  let 'mkCounters c0 c1 c2 c3 c4 c5 c6 c7 c8 c9 c10 c11 c12 c13 := c in
  mkCounters (S c0) c1 c2 c3 c4 c5 c6 c7 c8 c9 c10 c11 c12 c13.

Definition inc_places_inserted (c : Counters) : Counters :=
  let 'mkCounters c0 c1 c2 c3 c4 c5 c6 c7 c8 c9 c10 c11 c12 c13 := c in
  mkCounters c0 (S c1) c2 c3 c4 c5 c6 c7 c8 c9 c10 c11 c12 c13.

Definition inc_people_inserted (c : Counters) : Counters :=
  let 'mkCounters c0 c1 c2 c3 c4 c5 c6 c7 c8 c9 c10 c11 c12 c13 := c in
  mkCounters c0 c1 (S c2) c3 c4 c5 c6 c7 c8 c9 c10 c11 c12 c13.

Definition inc_requests_inserted (c : Counters) : Counters :=
  let 'mkCounters c0 c1 c2 c3 c4 c5 c6 c7 c8 c9 c10 c11 c12 c13 := c in
  mkCounters c0 c1 c2 (S c3) c4 c5 c6 c7 c8 c9 c10 c11 c12 c13.

Definition inc_requests_updated (c : Counters) : Counters :=
  let 'mkCounters c0 c1 c2 c3 c4 c5 c6 c7 c8 c9 c10 c11 c12 c13 := c in
  mkCounters c0 c1 c2 c3 (S c4) c5 c6 c7 c8 c9 c10 c11 c12 c13.

Definition inc_request_parties_inserted (c : Counters) : Counters :=
  let 'mkCounters c0 c1 c2 c3 c4 c5 c6 c7 c8 c9 c10 c11 c12 c13 := c in
  mkCounters c0 c1 c2 c3 c4 (S c5) c6 c7 c8 c9 c10 c11 c12 c13.

Definition inc_notes_inserted (c : Counters) : Counters :=
  let 'mkCounters c0 c1 c2 c3 c4 c5 c6 c7 c8 c9 c10 c11 c12 c13 := c in
  mkCounters c0 c1 c2 c3 c4 c5 (S c6) c7 c8 c9 c10 c11 c12 c13.

Definition inc_notes_updated (c : Counters) : Counters :=
  let 'mkCounters c0 c1 c2 c3 c4 c5 c6 c7 c8 c9 c10 c11 c12 c13 := c in
  mkCounters c0 c1 c2 c3 c4 c5 c6 (S c7) c8 c9 c10 c11 c12 c13.

Definition inc_skipped_blank_rows (c : Counters) : Counters :=
  let 'mkCounters c0 c1 c2 c3 c4 c5 c6 c7 c8 c9 c10 c11 c12 c13 := c in
  mkCounters c0 c1 c2 c3 c4 c5 c6 c7 (S c8) c9 c10 c11 c12 c13.

Definition inc_skipped_missing_case_number (c : Counters) : Counters :=
  let 'mkCounters c0 c1 c2 c3 c4 c5 c6 c7 c8 c9 c10 c11 c12 c13 := c in
  mkCounters c0 c1 c2 c3 c4 c5 c6 c7 c8 (S c9) c10 c11 c12 c13.

Definition inc_skipped_dupe_case_in_file (c : Counters) : Counters :=
  let 'mkCounters c0 c1 c2 c3 c4 c5 c6 c7 c8 c9 c10 c11 c12 c13 := c in
  mkCounters c0 c1 c2 c3 c4 c5 c6 c7 c8 c9 (S c10) c11 c12 c13.

Definition inc_merged_links_set (c : Counters) : Counters :=
  let 'mkCounters c0 c1 c2 c3 c4 c5 c6 c7 c8 c9 c10 c11 c12 c13 := c in
  mkCounters c0 c1 c2 c3 c4 c5 c6 c7 c8 c9 c10 (S c11) c12 c13.

Definition inc_merged_case_resolved (c : Counters) : Counters :=
  let 'mkCounters c0 c1 c2 c3 c4 c5 c6 c7 c8 c9 c10 c11 c12 c13 := c in
  mkCounters c0 c1 c2 c3 c4 c5 c6 c7 c8 c9 c10 c11 (S c12) c13.

Definition inc_merged_case_unresolved (c : Counters) : Counters :=
  let 'mkCounters c0 c1 c2 c3 c4 c5 c6 c7 c8 c9 c10 c11 c12 c13 := c in
  mkCounters c0 c1 c2 c3 c4 c5 c6 c7 c8 c9 c10 c11 c12 (S c13).

(** What the script prints while it runs (the warnings). *)
Inductive message : Type :=
| WarnMergeTargetNotFound (rid case_number : string)
| WarnUnmappedStatus (raw_status case_number : string)
| WarnNonNumericPriority (raw_priority case_number : string).

(** The state of [main] between two rows.  [db_lookups] lists the
    record ids [lookup_case_number_by_source_record_id] was called with. *)
Record run_state : Type := {
  db : database;
  counters : Counters;
  seen_case_numbers : gset string;
  stdout : list message;
  db_lookups : list string
}.

Definition with_db (s : run_state) (d : database) : run_state :=
  {| db := d; counters := counters s; seen_case_numbers := seen_case_numbers s;
     stdout := stdout s; db_lookups := db_lookups s |}.

Definition count (f : Counters -> Counters) (s : run_state) : run_state :=
  {| db := db s; counters := f (counters s);
     seen_case_numbers := seen_case_numbers s;
     stdout := stdout s; db_lookups := db_lookups s |}.

Definition count_if (b : bool) (f : Counters -> Counters) (s : run_state)
    : run_state :=
  if b then count f s else s.

Definition see (case_number : string) (s : run_state) : run_state :=
  {| db := db s; counters := counters s;
     seen_case_numbers := {[case_number]} ∪ seen_case_numbers s;
     stdout := stdout s; db_lookups := db_lookups s |}.

Definition print (m : message) (s : run_state) : run_state :=
  {| db := db s; counters := counters s; seen_case_numbers := seen_case_numbers s;
     stdout := stdout s ++ [m]; db_lookups := db_lookups s |}.

Definition looked_up (rid : string) (s : run_state) : run_state :=
  {| db := db s; counters := counters s; seen_case_numbers := seen_case_numbers s;
     stdout := stdout s; db_lookups := db_lookups s ++ [rid] |}.

Definition parse_float (s : string) : option pyfloat :=
  let s := strip s in
  if negb (truthy s) then None else float_of_text env s.

Definition merge_target_keys : list string :=
  ["LookupRecordIDPrimaryReq"; "Lookup Record ID Primary Req";
   "Primary Request Record ID"; "MergedIntoRecordID"].

(** Lines 625-652 of [main]: the merge target of a row, the lock-it-in
    rule and the resolution of the target's case number.  Given the
    status and archive reason coerced from the row's status text, it
    returns those to write and [merged_into_case_number]. *)
Definition resolve_merge_target (rid_to_case_number : gmap string string)
    (case_number : string) (merged_into_source_record_id : option string)
    (status_in archive_reason_in : option string) (s : run_state)
    : option string * option string * option string * run_state :=
  match merged_into_source_record_id with
  | Some target =>
      let s := count inc_merged_links_set s in
      match rid_to_case_number !! target with
      | Some c =>
          (Some "closed", Some "duplicate", Some c, count inc_merged_case_resolved s)
      | None =>
          let db_case := lookup_case_number_by_source_record_id (db s) target in
          let s := looked_up target s in
          if truthy_opt db_case
          then (Some "closed", Some "duplicate", db_case,
                count inc_merged_case_resolved s)
          else (Some "closed", Some "duplicate", None,
                print (WarnMergeTargetNotFound target case_number)
                  (count inc_merged_case_unresolved s))
      end
  | None => (status_in, archive_reason_in, None, s)
  end.

(** The fields of one row that [main] hands to [upsert_request], besides
    the ids of the place and of the person. *)
Record request_values : Type := {
  v_case_number : string;
  v_source_record_id : string;
  v_status : option string;
  v_priority : option Z;
  v_priority_label : option string;
  v_notes : string;
  v_archive_reason : option string;
  v_merged_into_case_number : option string;
  v_merged_into_source_record_id : option string
}.

(** Lines 610-673 of [main], for a row that was not skipped. *)
Definition read_request (rid_to_case_number : gmap string string)
    (header_map : gmap string string) (case_number : string) (r : row)
    (s : run_state) : request_values * run_state :=
  let source_record_id :=
    get_field r header_map
      ["Record ID"; "record_id"; "Airtable Record ID"; "source_record_id"] in
  let raw_status := get_field r header_map ["Case Status"; "Status"; "status"] in
  let status := coerce_request_status raw_status in
  let archive_reason := coerce_archive_reason raw_status in
  let merged_target_rid := get_field r header_map merge_target_keys in
  let merged_into_source_record_id := or_none merged_target_rid in
  let '(status, archive_reason, merged_into_case_number, s) :=
    resolve_merge_target rid_to_case_number case_number
      merged_into_source_record_id status archive_reason s in
  let status :=
    if truthy_opt archive_reason && negb (truthy_opt status) then
      match archive_reason with
      | Some a =>
          if mem a ["duplicate"; "denied"] then Some "closed"
          else if String.eqb a "referred_elsewhere" then Some "resolved"
          else status
      | None => status
      end
    else status in
  let s :=
    if truthy raw_status && negb (truthy_opt status)
    then print (WarnUnmappedStatus raw_status case_number) s else s in
  let raw_priority :=
    get_field r header_map
      ["Priority (Final Shown)"; "Priority"; "priority"; "Intake Priority"] in
  let priority := coerce_priority_smallint raw_priority in
  let priority_label := or_none raw_priority in
  let s :=
    if truthy raw_priority && negb (bool_decide (is_Some priority))
    then print (WarnNonNumericPriority raw_priority case_number) s else s in
  let notes :=
    get_field r header_map ["Internal Notes"; "Notes"; "notes"; "internal_notes"] in
  ({| v_case_number := case_number;
      v_source_record_id := source_record_id;
      v_status := status;
      v_priority := priority;
      v_priority_label := priority_label;
      v_notes := notes;
      v_archive_reason := archive_reason;
      v_merged_into_case_number := merged_into_case_number;
      v_merged_into_source_record_id := merged_into_source_record_id |}, s).

(** Lines 689-731 of [main]: the writes of one row. *)
Definition write_row (header_map : gmap string string) (r : row)
    (v : request_values) (s : run_state) : result run_state :=
  let raw_addr :=
    get_field r header_map ["Address"; "Primary Address"; "address"; "primary_address"] in
  let place_name :=
    get_field r header_map
      ["Request Place Name"; "Place Name"; "place_name"; "Location Name"; "Colony Name"] in
  let first := get_field r header_map ["First Name"; "first_name"] in
  let last := get_field r header_map ["Last Name"; "last_name"] in
  let email :=
    get_field r header_map ["Clean Email"; "Email"; "email"; "Client Email (LK)"] in
  let phone :=
    get_field r header_map
      ["Clean Phone"; "Client Phone (LK)"; "Business Phone"; "Phone"; "phone"] in
  let case_info_text := get_field r header_map ["Case Info"] in
  let internal_notes_text := get_field r header_map ["Internal Notes"] in
  let lat := parse_float (get_field r header_map ["Latitude"; "lat"; "latitude"]) in
  let lng := parse_float (get_field r header_map ["Longitude"; "lng"; "longitude"]) in
  '(lat, lng, formatted) ←
    (if truthy raw_addr
        && (negb (bool_decide (is_Some lat)) || negb (bool_decide (is_Some lng)))
        && geocode_enabled env
     then
       '(glat, glng, gfmt) ← geocode_address env raw_addr;
       Ok (coalesce lat glat, coalesce lng glng, gfmt)
     else Ok (lat, lng, None));
  '(d, addr_id, addr_inserted) ← upsert_address (db s) raw_addr lat lng formatted;
  let s := count_if addr_inserted inc_addresses_inserted (with_db s d) in
  '(d, place_id, place_inserted) ← upsert_place (db s) addr_id place_name raw_addr;
  let s := count_if place_inserted inc_places_inserted (with_db s d) in
  '(d, person_id, person_inserted) ← upsert_person (db s) first last email phone;
  let s := count_if person_inserted inc_people_inserted (with_db s d) in
  '(d, req_id, req_inserted) ←
    upsert_request (db s) (v_case_number v) (v_source_record_id v)
      place_id person_id (v_status v) (v_priority v) (v_priority_label v)
      (v_notes v) (v_archive_reason v) (v_merged_into_case_number v)
      (v_merged_into_source_record_id v);
  let s :=
    count_if req_inserted inc_requests_inserted
      (count_if (negb req_inserted) inc_requests_updated (with_db s d)) in
  s ← match req_id, person_id with
      | Some rq, Some ps =>
          '(d, linked) ← upsert_request_party (db s) rq ps "reporter";
          Ok (count_if linked inc_request_parties_inserted (with_db s d))
      | _, _ => Ok s
      end;
  match req_id with
  | Some rq =>
      s ← (if truthy case_info_text then
             '(d, inserted, updated) ←
               upsert_request_note (db s) rq (v_case_number v) "case_info"
                 case_info_text;
             Ok (count_if (negb inserted && updated) inc_notes_updated
                   (count_if inserted inc_notes_inserted (with_db s d)))
           else Ok s);
      if truthy internal_notes_text then
        '(d, inserted, updated) ←
          upsert_request_note (db s) rq (v_case_number v) "internal"
            internal_notes_text;
        Ok (count_if (negb inserted && updated) inc_notes_updated
              (count_if inserted inc_notes_inserted (with_db s d)))
      else Ok s
  | None => Ok s
  end.

(** The body of the loop of [main] over the rows of the file. *)
Definition process_row (rid_to_case_number : gmap string string)
    (header_map : gmap string string) (s : run_state) (r : row)
    : result run_state :=
  if is_blank_row r then Ok (count inc_skipped_blank_rows s)
  else
    let case_number := get_field r header_map case_number_keys in
    if negb (truthy case_number) then Ok (count inc_skipped_missing_case_number s)
    else
      let case_number := strip case_number in
      if bool_decide (case_number ∈ seen_case_numbers s)
      then Ok (count inc_skipped_dupe_case_in_file s)
      else
        let s := see case_number s in
        let '(v, s) := read_request rid_to_case_number header_map case_number r s in
        write_row header_map r v s.

(** The case number [main] keys a row by, and the rows that reach the
    upserts: those the three guards at the top of the loop let through. *)
Definition case_number_of (header_map : gmap string string) (r : row) : string :=
  strip (get_field r header_map case_number_keys).

Definition has_case_number (header_map : gmap string string) (r : row) : Prop :=
  is_blank_row r = false /\ truthy (get_field r header_map case_number_keys) = true.

Definition reaches_upserts (header_map : gmap string string) (s : run_state)
    (r : row) : Prop :=
  has_case_number header_map r
  /\ case_number_of header_map r ∉ seen_case_numbers s.

Fixpoint process_rows (rid_to_case_number : gmap string string)
    (header_map : gmap string string) (s : run_state) (rs : list row)
    : result run_state :=
  match rs with
  | [] => Ok s
  | r :: rs' =>
      s' ← process_row rid_to_case_number header_map s r;
      process_rows rid_to_case_number header_map s' rs'
  end.

Definition start (d : database) : run_state :=
  {| db := d; counters := no_counters; seen_case_numbers := ∅;
     stdout := []; db_lookups := [] |}.

(** How a run ends: [sys.exit(2)] on a file without header, an uncaught
    exception (the connection block rolls the transaction back), or the
    commit of everything the rows wrote. *)
Inductive outcome : Type :=
| Exit2
| Aborted (e : exn) (unchanged : database)
| Committed (s : run_state).

Definition main (f : csv_file) (d : database) : outcome :=
  let rid_to_case_number := build_rid_to_case_number_map f in
  match fieldnames f with
  | [] => Exit2
  | _ =>
      let header_map := normalize_csv_headers (fieldnames f) in
      match process_rows rid_to_case_number header_map (start d) (rows f) with
      | Ok s => Committed s
      | Raise e => Aborted e d
      end
  end.



End Run.


End Trapping.

(** ** archive/cockpit_snapshot/scripts/ingest_clinichq_upcoming_appointments.py *)

Module Clinichq.
Import PyStr.

(** A [datetime.date]; dates compare by year, then month, then day. *)
Record date : Type := { year : Z; month : Z; day : Z }.

Definition date_leb (a b : date) : bool :=
  (year a <? year b)%Z
  || ((year a =? year b)%Z
      && ((month a <? month b)%Z
          || ((month a =? month b)%Z && (day a <=? day b)%Z))).

Definition date_ltb (a b : date) : bool := negb (date_leb b a).

(** [norm_ws]: [None] gives the empty text. *)
Definition norm_ws (s : option string) : string :=
  match s with
  | None => ""
  | Some s => strip (collapse_ws s)
  end.

Definition normalize_phone (val : option string) : option string :=
  match val with
  | None => None
  | Some v =>
      let digits := delete_class (fun a => negb (is_digit a)) v in
      let digits :=
        match digits with
        | String "1" rest => if (String.length digits =? 11)%nat then rest else digits
        | _ => digits
        end in
      or_none digits
  end.

(** The dict [normalized] that [upsert_appointment] builds and hashes. *)
Record normalized : Type := {
  n_appt_date : option string;        (* ISO text *)
  n_appt_number : option Z;
  n_client_first_name : string;
  n_client_last_name : string;
  n_client_address : string;
  n_animal_name : string;
  n_client_email : string;
  n_client_cell_phone : option string;
  n_client_phone : option string
}.

(** [str(v)] of an optional text and of an optional [int]. *)
Definition str_opt (o : option string) : string :=
  match o with Some s => s | None => "None" end.

Definition str_opt_int (o : option Z) : string :=
  match o with Some n => str_of_int n | None => "None" end.

(** [s[:32]] *)
Definition first32 (s : string) : string := String.substring 0 32 s.

Section Hash.

(** [hashlib.sha256(s.encode()).hexdigest()] *)
Variable sha256_hexdigest : string -> string.

Definition compute_source_pk (r : normalized) : string :=
  let fallback :=
    let client_name :=
      lower (norm_ws (Some (n_client_first_name r)) +:+ " "
             +:+ norm_ws (Some (n_client_last_name r))) in
    let address := lower (norm_ws (Some (n_client_address r))) in
    let animal := lower (norm_ws (Some (n_animal_name r))) in
    "hash:" +:+ first32 (sha256_hexdigest
      (str_opt (n_appt_date r) +:+ "|" +:+ client_name +:+ "|" +:+ address
       +:+ "|" +:+ animal)) in
  match n_appt_number r with
  | Some n => if (0 <? n)%Z then str_of_int n else fallback
  | None => fallback
  end.

Definition content_fields (r : normalized) : list string :=
  [ str_opt (n_appt_date r);
    str_opt_int (n_appt_number r);
    norm_ws (Some (n_client_first_name r));
    norm_ws (Some (n_client_last_name r));
    norm_ws (Some (n_client_address r));
    norm_ws (Some (n_animal_name r));
    norm_ws (Some (n_client_email r));
    str_opt (n_client_cell_phone r);
    str_opt (n_client_phone r) ].

Definition compute_row_hash (r : normalized) : string :=
  let content_string := join "|" (content_fields r) in
  first32 (sha256_hexdigest content_string).

End Hash.

(** A row of [clinichq_upcoming_appointments]; the table is keyed by
    [(source_system, source_pk)]. *)
Record appointment : Type := {
  source_file : string;
  source_row_hash : string;
  appt_date : option date;
  appt_number : option Z;
  client_first_name : option string;
  client_last_name : option string;
  client_address : option string;
  client_cell_phone : option string;
  client_phone : option string;
  client_email : option string;
  client_type : option string;
  animal_name : option string;
  ownership_type : option string;
  first_seen_at : N;
  last_seen_at : N;
  last_seen_run_id : option string;
  is_current : option bool;
  stale_at : option N;
  updated_at : option N
}.

Abbreviation appointments := (gmap (string * string) appointment).

(** The WHERE clause of the UPDATE of [mark_stale_in_window]; a
    comparison with [NULL] does not select the row. *)
Definition stale_candidate (run_id : string) (coverage_start coverage_end : date)
    (a : appointment) : bool :=
  bool_decide (is_current a = Some true)
  && match appt_date a with
     | Some d => date_leb coverage_start d && date_leb d coverage_end
     | None => false
     end
  && match last_seen_run_id a with
     | None => true
     | Some r => negb (String.eqb r run_id)
     end.

Definition set_stale (now : N) (a : appointment) : appointment :=
  {| source_file := source_file a;
     source_row_hash := source_row_hash a;
     appt_date := appt_date a;
     appt_number := appt_number a;
     client_first_name := client_first_name a;
     client_last_name := client_last_name a;
     client_address := client_address a;
     client_cell_phone := client_cell_phone a;
     client_phone := client_phone a;
     client_email := client_email a;
     client_type := client_type a;
     animal_name := animal_name a;
     ownership_type := ownership_type a;
     first_seen_at := first_seen_at a;
     last_seen_at := last_seen_at a;
     last_seen_run_id := last_seen_run_id a;
     is_current := Some false;
     stale_at := Some now;
     updated_at := updated_at a |}.

(** The UPDATE and its [rowcount]. *)
Definition mark_stale_in_window (now : N) (t : appointments) (run_id : string)
    (coverage_start coverage_end : date) : appointments * nat :=
  ((fun a => if stale_candidate run_id coverage_start coverage_end a
             then set_stale now a else a) <$> t,
   size (filter (fun kv => stale_candidate run_id coverage_start coverage_end (snd kv) = true) t)).

(** Lines 486-499 of [main]: the window falls back, bound by bound, to
    the least and greatest date among the rows of the run. *)
Definition track_dates (acc : option date * option date) (row_date : option date)
    : option date * option date :=
  match row_date with
  | None => acc
  | Some d =>
      (match fst acc with
       | None => Some d
       | Some lo => if date_ltb d lo then Some d else Some lo
       end,
       match snd acc with
       | None => Some d
       | Some hi => if date_ltb hi d then Some d else Some hi
       end)
  end.

Definition final_coverage_window (from_filename : option date * option date)
    (row_dates : list (option date)) : option date * option date :=
  let '(data_min_date, data_max_date) := fold_left track_dates row_dates (None, None) in
  (match fst from_filename with None => data_min_date | Some d => Some d end,
   match snd from_filename with None => data_max_date | Some d => Some d end).

(** Lines 504-509 of [main]: the staleness pass of a run; it returns the
    table and [counters.rows_staled]. *)
Definition staleness_pass (now : N) (has_windowed_columns : bool)
    (coverage : option date * option date) (run_id : string) (t : appointments)
    : appointments * nat :=
  match coverage with
  | (Some coverage_start, Some coverage_end) =>
      if has_windowed_columns
      then mark_stale_in_window now t run_id coverage_start coverage_end
      else (t, 0%nat)
  | _ => (t, 0%nat)
  end.

End Clinichq.

(** ** archive/cockpit_snapshot/scripts/ingest_airtable_appointment_requests.py *)

Module AirtableAppt.
Import PyStr Csv.

Fixpoint first_present (r : row) (keys : list string) : string :=
  match keys with
  | [] => ""
  | k :: keys' =>
      match r !! k with
      | Some v =>
          if negb (String.eqb (strip (py_str v)) "") then strip (py_str v)
          else first_present r keys'
      | None => first_present r keys'
      end
  end.

Definition norm_ws (s : string) : string := strip (collapse_ws s).

(** The header names each hashed field is read from, in order. *)
Definition content_keys : list (list string) :=
  [ ["New Submitted"; "New Submitted / Former Created Date"; "Former Created Date"];
    ["Name"; "name"];
    ["First Name"; "first_name"];
    ["Last Name"; "last_name"];
    ["Email"; "email"];
    ["Best phone number to reach you"; "Phone"; "phone"];
    ["Street address where cats are located"; "cats_address"];
    ["Clean Address (Cats)"; "Clean Address"];
    ["Notes"; "notes"];
    ["Submission Status"; "Status"];
    ["Appointment Date"; "appointment_date"] ].

Definition content_fields (r : row) : list string :=
  map (first_present r) content_keys.

Section Hash.

Variable sha256_hexdigest : string -> string.

Definition compute_source_pk (r : row) : string :=
  let record_id := first_present r ["Record ID"; "record_id"; "Airtable Record ID"] in
  if truthy record_id then record_id
  else
    let submitted :=
      first_present r
        ["New Submitted"; "New Submitted / Former Created Date";
         "Former Created Date"; "submitted_at"] in
    let email := lower (first_present r ["Email"; "email"]) in
    let phone :=
      delete_class (fun a => negb (is_digit a))
        (first_present r ["Best phone number to reach you"; "Phone"; "phone"]) in
    let address :=
      lower (norm_ws (first_present r
        ["Street address where cats are located"; "cats_address";
         "Clean Address (Cats)"])) in
    "hash:" +:+ Clinichq.first32 (sha256_hexdigest
      (submitted +:+ "|" +:+ email +:+ "|" +:+ phone +:+ "|" +:+ address)).

Definition compute_row_hash (r : row) : string :=
  let content_string := join "|" (content_fields r) in
  Clinichq.first32 (sha256_hexdigest content_string).

End Hash.

End AirtableAppt.

(** ** archive/cockpit_snapshot/scripts/generate_people_match_candidates.py

    Confidence and similarity are Python floats in the script; here they
    are exact rationals, so [0.85 + name_sim * 0.1] is the number it
    denotes.  [round(x, 3)] is rounding to the nearest thousandth. *)

Module PeopleMatch.
Import PyStr.
Local Open Scope Q_scope.

Definition MAX_CANDIDATES_PER_SOURCE : nat := 5.
Definition MIN_NAME_LENGTH : nat := 2.

Definition normalize_phone (phone : string) : string :=
  if negb (truthy phone) then ""
  else
    let digits := delete_class (fun a => negb (is_digit a)) phone in
    match digits with
    | String "1" rest => if (String.length digits =? 11)%nat then rest else digits
    | _ => digits
    end.

Definition normalize_name (name : string) : string :=
  if negb (truthy name) then "" else collapse_ws (strip (lower name)).

(** One pass of the inner loop: [prev] is [previous_row[j:]] and [left]
    is [current_row[j]]; the result is [current_row[j+1:]]. *)
Fixpoint levenshtein_row (c1 : ascii) (s2 : list ascii) (prev : list nat)
    (left : nat) : list nat :=
  match s2, prev with
  | c2 :: s2', p :: ((p1 :: _) as prev') =>
      let insertions := (p1 + 1)%nat in
      let deletions := (left + 1)%nat in
      let substitutions := (p + (if Ascii.eqb c1 c2 then 0 else 1))%nat in
      let v := Nat.min (Nat.min insertions deletions) substitutions in
      v :: levenshtein_row c1 s2' prev' v
  | _, _ => []
  end.

Fixpoint levenshtein_rows (s1 : list ascii) (i : nat) (s2 : list ascii)
    (previous_row : list nat) : list nat :=
  match s1 with
  | [] => previous_row
  | c1 :: s1' =>
      let current_row := S i :: levenshtein_row c1 s2 previous_row (S i) in
      levenshtein_rows s1' (S i) s2 current_row
  end.

Definition levenshtein_distance (s1 s2 : string) : nat :=
  let '(s1, s2) :=
    if (String.length s1 <? String.length s2)%nat then (s2, s1) else (s1, s2) in
  if (String.length s2 =? 0)%nat then String.length s1
  else
    List.last (levenshtein_rows (chars s1) 0 (chars s2) (seq 0 (S (String.length s2)))) 0%nat.

Definition Qmax (a b : Q) : Q := if Qle_bool b a then a else b.

Definition name_similarity (name1 name2 : string) : Q :=
  let n1 := normalize_name name1 in
  let n2 := normalize_name name2 in
  if negb (truthy n1) || negb (truthy n2) then 0
  else
    let max_len := Nat.max (String.length n1) (String.length n2) in
    if (max_len =? 0)%nat then 0
    else
      let distance := levenshtein_distance n1 n2 in
      Qmax 0 (1 - (inject_Z (Z.of_nat distance) / inject_Z (Z.of_nat max_len))).

(** [round(x, 3)]: the nearest multiple of 1/1000, a tie going to the
    even one. *)
Definition round_half_even (q : Q) : Z :=
  let f := Qfloor q in
  match Qcompare (q - inject_Z f) (1 # 2) with
  | Lt => f
  | Gt => (f + 1)%Z
  | Eq => if Z.even f then f else (f + 1)%Z
  end.

Definition round3 (q : Q) : Q := inject_Z (round_half_even (q * 1000)) / 1000.

Record SourceRecord : Type := {
  source_system : string;
  source_record_id : string;
  display_name : string;
  email : option string;
  phone : option string;
  phone_normalized : option string;
  address_display : option string
}.

Record CanonicalPerson : Type := {
  person_id : string;
  person_display_name : string;
  person_email : option string;
  person_phone : option string;
  person_phone_normalized : option string
}.

(** The dict [evidence]. *)
Record Evidence : Type := {
  matched_on : list string;
  phone_match : bool;
  email_match : bool;
  ev_name_similarity : Q;
  tier : nat;
  source_name : string;
  source_email : option string;
  source_phone : option string
}.

Record MatchCandidate : Type := {
  c_source_system : string;
  c_source_record_id : string;
  candidate_person_id : string;
  confidence : Q;
  evidence : Evidence
}.

(** Truth value of an optional [str]. *)
Definition present (o : option string) : bool :=
  match o with Some s => truthy s | None => false end.

Definition text_of (o : option string) : string :=
  match o with Some s => s | None => "" end.

(** [s[:3]] *)
Definition first3 (s : string) : string := String.substring 0 3 s.

(** The three signals [calculate_match] tests. *)
Definition exact_phone (source : SourceRecord) (person : CanonicalPerson) : bool :=
  present (phone_normalized source) && present (person_phone_normalized person)
  && String.eqb (text_of (phone_normalized source))
                (text_of (person_phone_normalized person))
  && (10 <=? String.length (text_of (phone_normalized source)))%nat.

Definition exact_email (source : SourceRecord) (person : CanonicalPerson) : bool :=
  present (email source) && present (person_email person)
  && String.eqb (strip (lower (text_of (email source))))
                (strip (lower (text_of (person_email person)))).

Definition area_code (source : SourceRecord) (person : CanonicalPerson) : bool :=
  present (phone_normalized source) && present (person_phone_normalized person)
  && (3 <=? String.length (text_of (phone_normalized source)))%nat
  && (3 <=? String.length (text_of (person_phone_normalized person)))%nat
  && String.eqb (first3 (text_of (phone_normalized source)))
                (first3 (text_of (person_phone_normalized person))).

(** The variables [matched_on] and [confidence] of [calculate_match]
    where it tests them (line 170). *)
Definition match_signals (source : SourceRecord) (person : CanonicalPerson)
    : list string * Q :=
  let matched_on := [] in
  let confidence := 0 in
  let '(matched_on, confidence) :=
    if exact_phone source person
    then (matched_on ++ ["phone_normalized"], Qmax confidence 1)
    else (matched_on, confidence) in
  let '(matched_on, confidence) :=
    if exact_email source person
    then (matched_on ++ ["email"], Qmax confidence 0.98)
    else (matched_on, confidence) in
  let name_sim := name_similarity (display_name source) (person_display_name person) in
  if Qle_bool 0.7 name_sim then
    let matched_on := matched_on ++ ["name_fuzzy"] in
    if area_code source person
    then (matched_on ++ ["area_code"], Qmax confidence (0.85 + name_sim * 0.1))
    else (matched_on, Qmax confidence (0.50 + name_sim * 0.3))
  else (matched_on, confidence).

(** The conditional expression of the ["tier"] entry. *)
Definition tier_of (confidence : Q) : nat :=
  if Qle_bool 0.95 confidence then 0
  else if Qle_bool 0.80 confidence then 1
  else if Qle_bool 0.50 confidence then 2
  else 3.

Definition calculate_match (source : SourceRecord) (person : CanonicalPerson)
    : option MatchCandidate :=
  let '(matched_on, confidence) := match_signals source person in
  let name_sim := name_similarity (display_name source) (person_display_name person) in
  if bool_decide (matched_on = []) || negb (Qle_bool 0.40 confidence) then None
  else
    Some {| c_source_system := source_system source;
            c_source_record_id := source_record_id source;
            candidate_person_id := person_id person;
            confidence := round3 confidence;
            evidence :=
              {| matched_on := matched_on;
                 phone_match := existsb (String.eqb "phone_normalized") matched_on;
                 email_match := existsb (String.eqb "email") matched_on;
                 ev_name_similarity := round3 name_sim;
                 tier := tier_of confidence;
                 source_name := display_name source;
                 source_email := email source;
                 source_phone := phone source |} |}.

(** [list.sort(key=confidence, reverse=True)]: stable, greatest first. *)
Fixpoint insert_by_confidence (c : MatchCandidate) (l : list MatchCandidate)
    : list MatchCandidate :=
  match l with
  | [] => [c]
  | x :: l' =>
      if Qle_bool (confidence c) (confidence x) then x :: insert_by_confidence c l'
      else c :: l
  end.

Definition sort_by_confidence (l : list MatchCandidate) : list MatchCandidate :=
  fold_left (fun acc c => insert_by_confidence c acc) l [].

Definition generate_candidates_for_source (source : SourceRecord)
    (canonical_people : list CanonicalPerson) (max_candidates : nat)
    : list MatchCandidate :=
  let candidates :=
    omap (fun person => calculate_match source person) canonical_people in
  take max_candidates (sort_by_confidence candidates).

(** A row of [person_match_candidates]; the table is keyed by
    [(source_system, source_record_id, candidate_person_id)]. *)
Record candidate_row : Type := {
  row_confidence : Q;
  row_evidence : Evidence;
  row_status : string
}.

Abbreviation candidates_table := (gmap (string * string * string) candidate_row).

(** The connection: the table, and whether the open transaction has
    failed (PostgreSQL then rejects every later statement). *)
Record connection : Type := {
  person_match_candidates : candidates_table;
  failed : bool
}.

(** SQL [GREATEST] of two values that are not [NULL]. *)
Definition GREATEST (a b : Q) : Q := if Qle_bool a b then b else a.

Section Upsert.

(** The statements the database rejects (a constraint, a lost connection). *)
Variable rejects : MatchCandidate -> bool.

(** [cur.execute(sql, ...)] and [cur.fetchone()] for one candidate: the
    table after the statement and the [inserted] column it returns. *)
Definition execute_upsert (conn : connection) (c : MatchCandidate)
    : result (connection * bool) :=
  if failed conn || rejects c then Raise SqlError
  else
    let key := (c_source_system c, c_source_record_id c, candidate_person_id c) in
    match person_match_candidates conn !! key with
    | Some old =>
        let new :=
          {| row_confidence := GREATEST (row_confidence old) (confidence c);
             row_evidence := evidence c;
             row_status := row_status old |} in
        Ok ({| person_match_candidates := <[key := new]> (person_match_candidates conn);
               failed := false |}, false)
    | None =>
        let new :=
          {| row_confidence := confidence c;
             row_evidence := evidence c;
             row_status := "open" |} in
        Ok ({| person_match_candidates := <[key := new]> (person_match_candidates conn);
               failed := false |}, true)
    end.

(** The loop of [upsert_candidates], with its counters. *)
Fixpoint upsert_loop (conn : connection) (candidates : list MatchCandidate)
    (inserted skipped : nat) : connection * nat * nat :=
  match candidates with
  | [] => (conn, inserted, skipped)
  | c :: rest =>
      match execute_upsert conn c with
      | Ok (conn', true) => upsert_loop conn' rest (S inserted) skipped
      | Ok (conn', false) => upsert_loop conn' rest inserted (S skipped)
      | Raise _ =>
          upsert_loop {| person_match_candidates := person_match_candidates conn;
                         failed := true |} rest inserted (S skipped)
      end
  end.

Definition upsert_candidates (conn : connection) (candidates : list MatchCandidate)
    (dry_run : bool) : connection * nat * nat :=
  if dry_run then (conn, length candidates, 0%nat)
  else upsert_loop conn candidates 0 0.

End Upsert.

(** The tier [main] counts a candidate in (lines 429-434). *)
Definition counted_tier (c : MatchCandidate) : nat :=
  if Qle_bool 0.95 (confidence c) then 0
  else if Qle_bool 0.80 (confidence c) then 1
  else if Qle_bool 0.50 (confidence c) then 2
  else 3.

End PeopleMatch.

(** ** What a run keeps *)

Module Invariants.
Import Trapping.

(** [d'] holds every row of [d]: under the same key, with the same id
    (for a note, the same request and creation time), and every link
    between a request and a person. *)
Definition keeps_rows (d d' : database) : Prop :=
  (forall k x, addresses d !! k = Some x ->
     exists x', addresses d' !! k = Some x' /\ address_id x' = address_id x)
  /\ (forall k x, places d !! k = Some x ->
        exists x', places d' !! k = Some x' /\ place_id x' = place_id x)
  /\ (forall k x, people d !! k = Some x ->
        exists x', people d' !! k = Some x' /\ person_id x' = person_id x)
  /\ (forall k x, requests d !! k = Some x ->
        exists x', requests d' !! k = Some x' /\ request_id x' = request_id x)
  /\ request_parties d ⊆ request_parties d'
  /\ (forall k x, request_notes d !! k = Some x ->
        exists x', request_notes d' !! k = Some x'
                   /\ note_request_id x' = note_request_id x
                   /\ note_created_at x' = note_created_at x).

End Invariants.

(** ** generate_people_match_candidates.py: the loop of [main] *)

Module PeopleMatchMain.
Import PyStr PeopleMatch.

Record Stats : Type := mkStats {
  sources_processed : nat;
  candidates_generated : nat;
  candidates_inserted : nat;
  candidates_skipped : nat;
  tier0_count : nat;
  tier1_count : nat;
  tier2_count : nat
}.

Definition no_stats : Stats := mkStats 0 0 0 0 0 0 0.

(** Lines 425-434: a candidate is appended to [all_candidates] and
    counted, in the tier of its stored confidence. *)
Definition count_candidate (acc : list MatchCandidate * Stats) (c : MatchCandidate)
    : list MatchCandidate * Stats :=
  let '(all_candidates, mkStats sp cg ci cs t0 t1 t2) := acc in
  (all_candidates ++ [c],
   match counted_tier c with
   | 0 => mkStats sp (S cg) ci cs (S t0) t1 t2
   | 1 => mkStats sp (S cg) ci cs t0 (S t1) t2
   | 2 => mkStats sp (S cg) ci cs t0 t1 (S t2)
   | _ => mkStats sp (S cg) ci cs t0 t1 t2
   end).

(** Lines 417-434: the body of the loop over the source records. *)
Definition process_source (canonical_people : list CanonicalPerson)
    (acc : list MatchCandidate * Stats) (source : SourceRecord)
    : list MatchCandidate * Stats :=
  if (String.length (display_name source) <? MIN_NAME_LENGTH)%nat then acc
  else
    let candidates :=
      generate_candidates_for_source source canonical_people
        MAX_CANDIDATES_PER_SOURCE in
    let '(all_candidates, mkStats sp cg ci cs t0 t1 t2) := acc in
    fold_left count_candidate candidates
      (all_candidates, mkStats (S sp) cg ci cs t0 t1 t2).

(** What the loop over the source records keeps true of the candidates
    collected and of the statistics. *)
Definition tallied (acc : list MatchCandidate * Stats) : Prop :=
  length (fst acc) = candidates_generated (snd acc)
  /\ (tier0_count (snd acc) + tier1_count (snd acc) + tier2_count (snd acc)
      = candidates_generated (snd acc))%nat
  /\ candidates_inserted (snd acc) = 0%nat /\ candidates_skipped (snd acc) = 0%nat.

(** The distance between the prefixes of lengths [i] and [j] of one
    text. *)
Definition apart (i j : nat) : nat := ((i - j) + (j - i))%nat.

(** [a] comes before [b] in a list sorted by confidence, greatest first. *)
Definition outranks (a b : MatchCandidate) : Prop :=
  (confidence b <= confidence a)%Q.

Section Run.

Variable rejects : MatchCandidate -> bool.

(** Lines 411-442: one source system, from the records loaded to the
    statistics printed; the connection is returned as the upserts leave
    it, before the commit. *)
Definition process_source_system (conn : connection)
    (canonical_people : list CanonicalPerson) (sources : list SourceRecord)
    (dry_run : bool) : connection * Stats :=
  let '(all_candidates, mkStats sp cg _ _ t0 t1 t2) :=
    fold_left (process_source canonical_people) sources ([], no_stats) in
  let '(conn, inserted, skipped) :=
    upsert_candidates rejects conn all_candidates dry_run in
  (conn, mkStats sp cg inserted skipped t0 t1 t2).

End Run.

End PeopleMatchMain.

(** ** ingest_clinichq_upcoming_appointments.py: what the summary counts *)

Module ClinichqSummary.
Import Clinichq.

(** The rows of the table that are current. *)
Definition current_rows (t : gmap (string * string) appointment) : nat :=
  size (filter (fun kv => is_current (snd kv) = Some true) t).

(** What [track_dates] has found after the dates [ds]. *)
Definition spans (acc : option date * option date) (ds : list (option date)) : Prop :=
  match acc with
  | (Some lo, Some hi) =>
      Some lo ∈ ds /\ Some hi ∈ ds
      /\ forall d, Some d ∈ ds -> date_leb lo d = true /\ date_leb d hi = true
  | (None, None) => forall d, Some d ∉ ds
  | _ => False
  end.

End ClinichqSummary.

(** ** Sample data *)

Module Examples.
Import PyStr Csv.

Definition all_columns : gset string :=
  list_to_set
    ["address_key"; "raw_address"; "formatted_address"; "latitude"; "longitude";
     "geom"; "place_key"; "display_name"; "address_id"; "person_key";
     "first_name"; "last_name"; "email"; "phone"; "phone_normalized";
     "case_number"; "source_record_id"; "primary_place_id";
     "primary_contact_person_id"; "status"; "priority"; "priority_label";
     "notes"; "archive_reason"; "merged_into_case_number";
     "merged_into_source_record_id"; "archived_at"; "request_id"; "person_id";
     "role"; "note_key"; "note_kind"; "note_body"; "source_system";
     "created_at"; "updated_at"].

(** A database with the whole schema, no geocoding. *)
Definition env0 : Trapping.environment :=
  {| Trapping.table_columns := fun _ => all_columns;
     Trapping.float_of_text := fun _ => None;
     Trapping.geocode_enabled := false;
     Trapping.geocode_address := fun _ => Raise HttpError;
     Trapping.sql_normalize_phone := fun s => Some (Trapping.normalize_phone s);
     Trapping.now := 1700000000%N |}.

Definition empty_database : Trapping.database :=
  {| Trapping.addresses := ∅; Trapping.places := ∅; Trapping.people := ∅;
     Trapping.requests := ∅; Trapping.request_parties := ∅;
     Trapping.request_notes := ∅; Trapping.next_id := 1%N |}.

Definition text_row (cells : list (string * string)) : row :=
  list_to_map (map (fun kv => (fst kv, Some (snd kv))) cells).

Definition header : list string :=
  ["Case Number"; "Record ID "; "LookupRecordIDPrimaryReq"; "Case Status";
   "First Name"; "Email"].

(** Row 1 names R9 as its merge target; R9 comes later in the file. *)
Definition row_1 : row :=
  text_row [("Case Number", "CASE-001"); ("Record ID ", "R1");
            ("LookupRecordIDPrimaryReq", "R9"); ("Case Status", "In Progress");
            ("First Name", "Ann"); ("Email", "ann@example.org")].

Definition row_9 : row :=
  text_row [("Case Number", "CASE-042"); ("Record ID ", "R9");
            ("LookupRecordIDPrimaryReq", ""); ("Case Status", "Hold");
            ("First Name", "Bo"); ("Email", "")].

Definition forward_file : Trapping.csv_file :=
  {| Trapping.fieldnames := header; Trapping.rows := [row_1; row_9] |}.




(** The case number of row 1 again, with other contents. *)
Definition row_1_again : row :=
  text_row [("Case Number", " CASE-001 "); ("Record ID ", "R1b");
            ("LookupRecordIDPrimaryReq", ""); ("Case Status", "Complete");
            ("First Name", "Eve"); ("Email", "eve@example.org")].

Definition header_map : gmap string string := Trapping.normalize_csv_headers header.

Definition state_of (c : result Trapping.run_state) : Trapping.run_state :=
  match c with
  | Ok s => s
  | Raise _ => Trapping.start empty_database
  end.


Definition rid_map : gmap string string :=
  Trapping.build_rid_to_case_number_map forward_file.

Definition s0 : Trapping.run_state := Trapping.start empty_database.

(** The state after the two rows of [forward_file]. *)
Definition s2 : Trapping.run_state :=
  state_of (Trapping.process_rows env0 rid_map header_map s0 [row_1; row_9]).

(** Ann is stored with a name, an email and a phone; the same person
    arrives again with an email and nothing else. *)
Definition ann : Trapping.person_row :=
  {| Trapping.person_id := 1; Trapping.first_name := Some "Ann"; Trapping.last_name := Some "Lee";
     Trapping.email := Some "ann@example.org"; Trapping.phone := Some "7075551234";
     Trapping.phone_normalized := Some "7075551234" |}.

Definition ann_request : Trapping.request_row :=
  {| Trapping.request_id := 2; Trapping.source_record_id := Some "R1"; Trapping.primary_place_id := Some 3%N;
     Trapping.primary_contact_person_id := Some 1%N; Trapping.status := Some "in_progress";
     Trapping.priority := Some 2%Z; Trapping.priority_label := Some "2 - Medium";
     Trapping.notes := Some "key under the mat"; Trapping.archive_reason := None;
     Trapping.merged_into_case_number := None; Trapping.merged_into_source_record_id := None;
     Trapping.archived_at := None |}.

Definition oak_address : Trapping.address_row :=
  {| Trapping.address_id := 4; Trapping.raw_address := Some "12 Oak St";
     Trapping.formatted_address := Some "12 Oak St, Santa Rosa, CA";
     Trapping.latitude := Some (Trapping.Finite 38.4%Q); Trapping.longitude := Some (Trapping.Finite (-122.7)%Q);
     Trapping.geom := None |}.

Definition oak_place : Trapping.place_row :=
  {| Trapping.place_id := 3; Trapping.display_name := Some "Oak colony"; Trapping.place_address_id := Some 4%N |}.

Definition stored : Trapping.database :=
  {| Trapping.addresses := {[ "addr:12 oak st" := oak_address ]};
     Trapping.places := {[ "place:oak colony|addr:12 oak st" := oak_place ]};
     Trapping.people := {[ "email:ann@example.org" := ann ]};
     Trapping.requests := {[ "CASE-001" := ann_request ]};
     Trapping.request_parties := ∅; Trapping.request_notes := ∅; Trapping.next_id := 5 |}.

Definition database_of (c : result (Trapping.database * option N * bool))
    : Trapping.database :=
  match c with
  | Ok (d, _, _) => d
  | Raise _ => stored
  end.

(** A source record and a canonical person with the same name and the
    same area code, and different phone numbers. *)
Definition jane_source : PeopleMatch.SourceRecord :=
  {| PeopleMatch.source_system := "clinichq";
     PeopleMatch.source_record_id := "17";
     PeopleMatch.display_name := "Jane Doe";
     PeopleMatch.email := None;
     PeopleMatch.phone := Some "707-555-1234";
     PeopleMatch.phone_normalized := Some "7075551234";
     PeopleMatch.address_display := Some "12 Oak St" |}.

Definition jane_person : PeopleMatch.CanonicalPerson :=
  {| PeopleMatch.person_id := "p-1";
     PeopleMatch.person_display_name := "Jane Doe";
     PeopleMatch.person_email := None;
     PeopleMatch.person_phone := None;
     PeopleMatch.person_phone_normalized := Some "7075559999" |}.

(** One letter apart, same area code. *)
Definition jon_source : PeopleMatch.SourceRecord :=
  {| PeopleMatch.source_system := "clinichq";
     PeopleMatch.source_record_id := "18";
     PeopleMatch.display_name := "Jon Smith";
     PeopleMatch.email := None;
     PeopleMatch.phone := None;
     PeopleMatch.phone_normalized := Some "7075550000";
     PeopleMatch.address_display := None |}.

Definition john_person : PeopleMatch.CanonicalPerson :=
  {| PeopleMatch.person_id := "p-2";
     PeopleMatch.person_display_name := "John Smith";
     PeopleMatch.person_email := None;
     PeopleMatch.person_phone := None;
     PeopleMatch.person_phone_normalized := Some "7075551111" |}.




Definition some_evidence : PeopleMatch.Evidence :=
  {| PeopleMatch.matched_on := ["name_fuzzy"];
     PeopleMatch.phone_match := false;
     PeopleMatch.email_match := false;
     PeopleMatch.ev_name_similarity := 0.9%Q;
     PeopleMatch.tier := 2;
     PeopleMatch.source_name := "Jon Smith";
     PeopleMatch.source_email := None;
     PeopleMatch.source_phone := None |}.

(** A candidate stored with confidence 0.94, generated again with 0.77. *)
Definition stored_candidate : PeopleMatch.candidate_row :=
  {| PeopleMatch.row_confidence := 0.94%Q;
     PeopleMatch.row_evidence :=
       {| PeopleMatch.matched_on := ["name_fuzzy"; "area_code"];
          PeopleMatch.phone_match := false;
          PeopleMatch.email_match := false;
          PeopleMatch.ev_name_similarity := 0.9%Q;
          PeopleMatch.tier := 1;
          PeopleMatch.source_name := "Jon Smith";
          PeopleMatch.source_email := None;
          PeopleMatch.source_phone := None |};
     PeopleMatch.row_status := "open" |}.

Definition weaker_candidate : PeopleMatch.MatchCandidate :=
  {| PeopleMatch.c_source_system := "clinichq";
     PeopleMatch.c_source_record_id := "18";
     PeopleMatch.candidate_person_id := "p-2";
     PeopleMatch.confidence := 0.77%Q;
     PeopleMatch.evidence := some_evidence |}.

Definition connection_0 : PeopleMatch.connection :=
  {| PeopleMatch.person_match_candidates :=
       {[ ("clinichq", "18", "p-2") := stored_candidate ]};
     PeopleMatch.failed := false |}.

(** An appointment of January 2024, current, seen by no run, and a run
    that covers the first half of August 2025. *)
Definition old_appointment : Clinichq.appointment :=
  {| Clinichq.source_file := "clinichq_appts_2024-01-01_2024-01-31.xlsx";
     Clinichq.source_row_hash := "0123456789abcdef0123456789abcdef";
     Clinichq.appt_date := Some {| Clinichq.year := 2024; Clinichq.month := 1;
                                   Clinichq.day := 5 |};
     Clinichq.appt_number := Some 123%Z;
     Clinichq.client_first_name := Some "Ann";
     Clinichq.client_last_name := Some "Lee";
     Clinichq.client_address := None;
     Clinichq.client_cell_phone := None;
     Clinichq.client_phone := None;
     Clinichq.client_email := None;
     Clinichq.client_type := None;
     Clinichq.animal_name := Some "Tab";
     Clinichq.ownership_type := None;
     Clinichq.first_seen_at := 1%N;
     Clinichq.last_seen_at := 1%N;
     Clinichq.last_seen_run_id := None;
     Clinichq.is_current := Some true;
     Clinichq.stale_at := None;
     Clinichq.updated_at := None |}.

Definition august_start : Clinichq.date :=
  {| Clinichq.year := 2025; Clinichq.month := 8; Clinichq.day := 1 |}.
Definition august_end : Clinichq.date :=
  {| Clinichq.year := 2025; Clinichq.month := 8; Clinichq.day := 14 |}.

Definition stored_appointments : gmap (string * string) Clinichq.appointment :=
  {[ ("clinichq", "123") := old_appointment ]}.

(** Two rows whose hashed fields differ and whose joined content is the
    same text. *)
Definition pipe_row_a : row := text_row [("Name", "x|y"); ("First Name", "z")].

(** The first row again, with a column the hash does not read. *)
Definition pipe_row_a_county : row :=
  text_row [("Name", "x|y"); ("First Name", "z"); ("County", "Sonoma")].

Definition pipe_normalized (first last : string) : Clinichq.normalized :=
  {| Clinichq.n_appt_date := Some "2025-08-01";
     Clinichq.n_appt_number := Some 7%Z;
     Clinichq.n_client_first_name := first;
     Clinichq.n_client_last_name := last;
     Clinichq.n_client_address := "";
     Clinichq.n_animal_name := "Tab";
     Clinichq.n_client_email := "";
     Clinichq.n_client_cell_phone := None;
     Clinichq.n_client_phone := None |}.

(** A stand-in for SHA-256 where a concrete digest is needed. *)
Definition toy_digest (s : string) : string := s.

End Examples.

(** ** More sample data *)

Module Samples.
Import PyStr Csv Examples.

(** A line of spaces and empty cells. *)
Definition blank_row : row :=
  text_row [("Case Number", "  "); ("Record ID ", ""); ("Email", "")].

(** A status text the script does not know. *)
Definition unmapped_row : row :=
  text_row [("Case Number", "CASE-060"); ("Record ID ", "R60");
            ("LookupRecordIDPrimaryReq", ""); ("Case Status", "Pending vet");
            ("First Name", "Flo"); ("Email", "")].

(** A status text that names an archive reason and maps to no status. *)
Definition dup_row : row :=
  text_row [("Case Number", "CASE-070"); ("Record ID ", "R70");
            ("LookupRecordIDPrimaryReq", ""); ("Case Status", "Dup");
            ("First Name", "Gil"); ("Email", "")].

(** A row whose merge target R1 is the record id of a stored request. *)
Definition late_row : row :=
  text_row [("Case Number", "CASE-080"); ("Record ID ", "R80");
            ("LookupRecordIDPrimaryReq", "R1"); ("Case Status", "New");
            ("First Name", "Hal"); ("Email", "")].

(** A row without a case number. *)
Definition no_case_row : row :=
  text_row [("Case Number", ""); ("Record ID ", "R90");
            ("LookupRecordIDPrimaryReq", ""); ("Case Status", "New");
            ("First Name", "Ida"); ("Email", "")].

(** Five rows: two written, one blank, one repeated, one without a
    case number. *)
Definition mixed_file : Trapping.csv_file :=
  {| Trapping.fieldnames := header;
     Trapping.rows := [row_1; blank_row; row_9; row_1_again; no_case_row] |}.

Definition committed (o : Trapping.outcome) : Trapping.run_state :=
  match o with
  | Trapping.Committed s => s
  | _ => Trapping.start empty_database
  end.

Definition mixed_run : Trapping.run_state :=
  committed (Trapping.main env0 mixed_file empty_database).

(** The same database a day later. *)
Definition env1 : Trapping.environment :=
  {| Trapping.table_columns := fun _ => all_columns;
     Trapping.float_of_text := fun _ => None;
     Trapping.geocode_enabled := false;
     Trapping.geocode_address := fun _ => Raise HttpError;
     Trapping.sql_normalize_phone := fun s => Some (Trapping.normalize_phone s);
     Trapping.now := 1700086400%N |}.

(** A canonical person with the phone of [jane_source] and another name. *)
Definition lee_person : PeopleMatch.CanonicalPerson :=
  {| PeopleMatch.person_id := "p-4";
     PeopleMatch.person_display_name := "Robin Lee";
     PeopleMatch.person_email := Some "robin@example.org";
     PeopleMatch.person_phone := Some "(707) 555-1234";
     PeopleMatch.person_phone_normalized := Some "7075551234" |}.

(** A source record and a person with the same email, spelled
    differently, and no phone. *)
Definition mail_source : PeopleMatch.SourceRecord :=
  {| PeopleMatch.source_system := "jotform";
     PeopleMatch.source_record_id := "20";
     PeopleMatch.display_name := "K. Moss";
     PeopleMatch.email := Some " Kim@Example.org";
     PeopleMatch.phone := None;
     PeopleMatch.phone_normalized := None;
     PeopleMatch.address_display := None |}.

Definition mail_person : PeopleMatch.CanonicalPerson :=
  {| PeopleMatch.person_id := "p-5";
     PeopleMatch.person_display_name := "Kimberly Moss";
     PeopleMatch.person_email := Some "kim@example.org";
     PeopleMatch.person_phone := None;
     PeopleMatch.person_phone_normalized := None |}.


Definition accepts_all (c : PeopleMatch.MatchCandidate) : bool := false.

End Samples.

(** * Properties *)

(** ** The trapping-request import *)

Module TrappingFacts.
Import PyStr Csv Trapping.

(** A field whose cells are all blank in the file reaches the upserts
    as the empty text. *)
Lemma get_field_blank (r : row) (hm : gmap string string) keys :
  (forall k, k ∈ keys ->
     cell_text r k = ""
     /\ forall orig, hm !! k = Some orig -> cell_text r orig = "") ->
  get_field r hm keys = "".
Proof.
  induction keys as [|k keys IH]; intros H; [reflexivity|].
  cbn [get_field].
  destruct (H k) as [Hk Horig]; [apply elem_of_cons; by left|].
  rewrite Hk. cbn [truthy String.eqb negb].
  destruct (hm !! k) as [orig|]; [rewrite (Horig orig eq_refl)|];
    cbn [truthy String.eqb negb]; apply IH; intros k' Hk';
    apply H, elem_of_cons; by right.
Qed.

(** Case analysis on the head of an equation [e = Ok x], where [e] is
    a chain of tests and matches ending in [Ok] or [Raise]. *)
Ltac head_case H :=
  lazymatch type of H with
  | (if ?b then _ else _) = _ => destruct b eqn:?
  | (match ?x with _ => _ end) = _ => destruct x eqn:?
  end.

Ltac leaf H :=
  lazymatch type of H with
  | Ok _ = Ok _ => injection H as <-; intros; subst
  | Raise _ = Ok _ => discriminate H
  end.

Ltac walk H := repeat (first [leaf H | head_case H]).

Create Rewrite HintDb run_state.

Section Facts.

Variable env : environment.

#[local] Opaque get_field.

Lemma upsert_address_requests d a lat lng f d' i b :
  upsert_address env d a lat lng f = Ok (d', i, b) -> requests d' = requests d.
Proof. unfold upsert_address, fresh_id. cbv zeta. intros H. walk H; reflexivity. Qed.

Lemma upsert_place_requests d a n r d' i b :
  upsert_place env d a n r = Ok (d', i, b) -> requests d' = requests d.
Proof. unfold upsert_place, fresh_id. cbv zeta. intros H. walk H; reflexivity. Qed.

Lemma upsert_person_requests d a n r p d' i b :
  upsert_person env d a n r p = Ok (d', i, b) -> requests d' = requests d.
Proof. unfold upsert_person, fresh_id. cbv zeta. intros H. walk H; reflexivity. Qed.

Lemma upsert_request_party_requests d a n r d' b :
  upsert_request_party env d a n r = Ok (d', b) -> requests d' = requests d.
Proof. unfold upsert_request_party. cbv zeta. intros H. walk H; reflexivity. Qed.

Lemma upsert_request_note_requests d a c k body d' b b' :
  upsert_request_note env d a c k body = Ok (d', b, b') -> requests d' = requests d.
Proof. unfold upsert_request_note. cbv zeta. intros H. walk H; reflexivity. Qed.

Lemma add_present {A} cols col (v : option A) :
  has_col cols col = true -> add cols col v = v.
Proof. unfold add. intros ->. reflexivity. Qed.

Lemma truthy_opt_or_none o :
  truthy_opt o = true <-> is_Some (opt_or_none o).
Proof.
  destruct o as [s|]; simpl; unfold or_none; [destruct (truthy s)|];
    split; intros H; try done; try (by destruct H); by eexists.
Qed.

Lemma coalesce_None_r {A} (x : option A) : coalesce x None = x.
Proof. destruct x; reflexivity. Qed.

Lemma match_opt_or_none {A} (o : option string) (x y : A) :
  match opt_or_none o with Some _ => x | None => y end
  = if truthy_opt o then x else y.
Proof. destruct o as [s|]; simpl; [unfold or_none; destruct (truthy s)|]; reflexivity. Qed.

Lemma upsert_request_spec d c srid pl pe st pr prl nt ar mc mr d' i ins :
  upsert_request env d c srid pl pe st pr prl nt ar mc mr = Ok (d', i, ins) ->
  let cols := table_columns env "requests" in
  exists rq,
    requests d' = <[c := rq]> (requests d)
    /\ i = Some (request_id rq)
    /\ source_record_id rq = coalesce (or_none srid) (requests d !! c ≫= source_record_id)
    /\ primary_place_id rq = coalesce pl (requests d !! c ≫= primary_place_id)
    /\ primary_contact_person_id rq = coalesce pe (requests d !! c ≫= primary_contact_person_id)
    /\ status rq = coalesce (opt_or_none st) (requests d !! c ≫= status)
    /\ priority rq = coalesce (int_or_none pr) (requests d !! c ≫= priority)
    /\ priority_label rq = coalesce (opt_or_none prl) (requests d !! c ≫= priority_label)
    /\ notes rq = coalesce (or_none nt) (requests d !! c ≫= notes)
    /\ archive_reason rq =
         (if has_col cols "archive_reason"
          then coalesce (opt_or_none ar) (requests d !! c ≫= archive_reason)
          else requests d !! c ≫= archive_reason)
    /\ merged_into_case_number rq =
         (if has_col cols "merged_into_case_number"
          then coalesce (opt_or_none mc) (requests d !! c ≫= merged_into_case_number)
          else requests d !! c ≫= merged_into_case_number)
    /\ merged_into_source_record_id rq =
         (if has_col cols "merged_into_source_record_id"
          then coalesce (opt_or_none mr) (requests d !! c ≫= merged_into_source_record_id)
          else requests d !! c ≫= merged_into_source_record_id)
    /\ archived_at rq =
         (if has_col cols "archived_at"
          then coalesce (requests d !! c ≫= archived_at)
                 (if truthy_opt ar then Some (now env) else None)
          else requests d !! c ≫= archived_at).
Proof.
  unfold upsert_request, fresh_id. cbv zeta. intros H.
  head_case H; [discriminate|].
  apply negb_false_iff, andb_true_iff in Heqb as [Hc Ha].
  cbn [columns_exist forallb] in Hc.
  repeat (apply andb_true_iff in Hc as [? Hc]).
  head_case H; leaf H; eexists; (split; [reflexivity|]); cbn [requests request_id source_record_id
    primary_place_id primary_contact_person_id status priority priority_label notes
    archive_reason merged_into_case_number merged_into_source_record_id archived_at
    with_requests mbind option_bind];
    rewrite ?add_present by assumption.
  all: rewrite ?coalesce_None_r.
  all: repeat (split; [reflexivity|]).
  all: unfold add.
  all: destruct (has_col _ "archived_at") eqn:Hat; cbn [negb orb] in Ha;
       rewrite ?Ha;
       repeat match goal with
              | |- context [has_col ?cs ?n] => destruct (has_col cs n) eqn:?
              end;
       rewrite ?match_opt_or_none, ?coalesce_None_r, ?andb_true_r, ?andb_false_r;
       repeat split; try reflexivity; try discriminate;
       try (destruct (truthy_opt ar); reflexivity).
Qed.

Lemma bind_Ok {A B} (c : result A) (k : A -> result B) y :
  c ≫= k = Ok y -> exists x, c = Ok x /\ k x = Ok y.
Proof. destruct c as [a|e]; [|discriminate]. intros H. by exists a. Qed.

Lemma count_db f s : db (count f s) = db s.
Proof. reflexivity. Qed.
Lemma count_if_db b f s : db (count_if b f s) = db s.
Proof. by destruct b. Qed.
Lemma count_if_stdout b f s : stdout (count_if b f s) = stdout s.
Proof. by destruct b. Qed.
Lemma count_if_db_lookups b f s : db_lookups (count_if b f s) = db_lookups s.
Proof. by destruct b. Qed.
Lemma count_if_seen b f s : seen_case_numbers (count_if b f s) = seen_case_numbers s.
Proof. by destruct b. Qed.
Lemma with_db_db s d : db (with_db s d) = d.
Proof. reflexivity. Qed.

(** What a row's writes leave alone. *)
Definition same_trace (s s' : run_state) : Prop :=
  stdout s' = stdout s /\ db_lookups s' = db_lookups s
  /\ seen_case_numbers s' = seen_case_numbers s.

Lemma same_trace_refl s : same_trace s s.
Proof. by repeat split. Qed.

Lemma with_db_stdout s d : stdout (with_db s d) = stdout s.
Proof. reflexivity. Qed.
Lemma with_db_db_lookups s d : db_lookups (with_db s d) = db_lookups s.
Proof. reflexivity. Qed.
Lemma with_db_seen s d : seen_case_numbers (with_db s d) = seen_case_numbers s.
Proof. reflexivity. Qed.

#[local] Hint Rewrite count_if_db count_if_stdout count_if_db_lookups count_if_seen
  with_db_db with_db_stdout with_db_db_lookups with_db_seen : run_state.

Ltac solve_trace := unfold same_trace; autorewrite with run_state; done.

Lemma same_trace_trans s1 s2 s3 : same_trace s1 s2 -> same_trace s2 s3 -> same_trace s1 s3.
Proof. intros (?&?&?) (?&?&?). repeat split; congruence. Qed.

Lemma write_notes_frame rq cn kind body s s' :
  (if truthy body then
     '(d, inserted, updated) ← upsert_request_note env (db s) rq cn kind body;
     Ok (count_if (negb inserted && updated) inc_notes_updated
           (count_if inserted inc_notes_inserted (with_db s d)))
   else Ok s) = Ok s' ->
  requests (db s') = requests (db s) /\ same_trace s s'.
Proof.
  destruct (truthy body).
  - intros H. apply bind_Ok in H as ([[d ins] upd] & Hn & H).
    injection H as <-. rewrite !count_if_db, with_db_db. split.
    + eapply upsert_request_note_requests, Hn.
    + solve_trace.
  - intros [= <-]. split; [done|apply same_trace_refl].
Qed.

Lemma write_row_requests hm r v s s' :
  write_row env hm r v s = Ok s' ->
  exists d1 d2 pl pe i ins,
    requests d1 = requests (db s)
    /\ upsert_request env d1 (v_case_number v) (v_source_record_id v) pl pe
         (v_status v) (v_priority v) (v_priority_label v) (v_notes v)
         (v_archive_reason v) (v_merged_into_case_number v)
         (v_merged_into_source_record_id v) = Ok (d2, i, ins)
    /\ requests (db s') = requests d2
    /\ same_trace s s'.
Proof.
  unfold write_row. cbv zeta. intros H.
  apply bind_Ok in H as ([[lat lng] fmt] & _ & H).
  apply bind_Ok in H as ([[d1 a] ai] & Ha & H).
  apply bind_Ok in H as ([[d2 p] pi] & Hp & H).
  apply bind_Ok in H as ([[d3 q] qi] & Hq & H).
  apply bind_Ok in H as ([[d4 i] ins] & Hr & H).
  apply bind_Ok in H as (s5 & Hparty & H).
  rewrite !count_if_db, !with_db_db in *.
  exists d3, d4, p, q, i, ins. split; [|split; [exact Hr|]].
  { rewrite (upsert_person_requests _ _ _ _ _ _ _ _ Hq),
      (upsert_place_requests _ _ _ _ _ _ _ Hp).
    eapply upsert_address_requests, Ha. }
  set (s4 := count_if ins _ _) in *.
  assert (Hs4 : requests (db s4) = requests d4 /\ same_trace s s4).
  { subst s4. rewrite !count_if_db, with_db_db. split; [done|]. solve_trace. }
  clearbody s4. destruct Hs4 as [Hs4 Ht4].
  assert (Hs5 : requests (db s5) = requests d4 /\ same_trace s s5).
  { destruct i as [rq|], q as [ps|]; try (injection Hparty as <-; by split).
    apply bind_Ok in Hparty as ([d5 linked] & Hl & Hparty).
    injection Hparty as <-. rewrite count_if_db, with_db_db. split.
    - eapply upsert_request_party_requests, Hl.
    - eapply same_trace_trans; [exact Ht4|]. solve_trace. }
  destruct Hs5 as [Hs5 Ht5].
  destruct i as [rq|]; [|injection H as <-; by split].
  apply bind_Ok in H as (s6 & Hn1 & Hn2).
  apply write_notes_frame in Hn1 as [Hn1 Hn1t], Hn2 as [Hn2 Hn2t].
  split; [congruence|].
  eauto using same_trace_trans.
Qed.

Lemma read_request_frame rid hm c r s v s' :
  read_request rid hm c r s = (v, s') ->
  db s' = db s /\ seen_case_numbers s' = seen_case_numbers s /\ v_case_number v = c.
Proof.
  unfold read_request, resolve_merge_target. cbv zeta.
  repeat match goal with
         | |- context [match ?x with _ => _ end] =>
             lazymatch x with
             | context [match _ with _ => _ end] => fail
             | _ => destruct x
             end
         end.
  all: intros [= <- <-]; repeat split; reflexivity.
Qed.

Lemma or_none_truthy t : truthy t = true -> or_none t = Some t.
Proof. unfold or_none. by intros ->. Qed.

Lemma elem_of_print m s : m ∈ stdout (print m s).
Proof. cbn. apply elem_of_app. right. apply list_elem_of_singleton. reflexivity. Qed.

Lemma elem_of_print_later m m' s : m ∈ stdout s -> m ∈ stdout (print m' s).
Proof. cbn. intros H. apply elem_of_app. by left. Qed.

Lemma truthy_closed : truthy_opt (Some "closed") = true.
Proof. reflexivity. Qed.
Lemma truthy_duplicate : truthy_opt (Some "duplicate") = true.
Proof. reflexivity. Qed.

(** The merge block on a row that names a target. *)
Lemma read_request_target rid hm c r s v s' t :
  get_field r hm merge_target_keys = t -> truthy t = true ->
  read_request rid hm c r s = (v, s') ->
  v_status v = Some "closed"
  /\ v_archive_reason v = Some "duplicate"
  /\ v_merged_into_source_record_id v = Some t
  /\ match rid !! t with
     | Some cn =>
         v_merged_into_case_number v = Some cn /\ db_lookups s' = db_lookups s
     | None =>
         db_lookups s' = (db_lookups s ++ [t])%list
         /\ if truthy_opt (lookup_case_number_by_source_record_id (db s) t)
            then v_merged_into_case_number v
                 = lookup_case_number_by_source_record_id (db s) t
            else v_merged_into_case_number v = None
                 /\ WarnMergeTargetNotFound t c ∈ stdout s'
                 /\ merged_case_unresolved (counters s')
                    = S (merged_case_unresolved (counters s))
     end.
Proof.
  intros Ht Htruthy. unfold read_request, resolve_merge_target. cbv zeta.
  rewrite Ht, (or_none_truthy _ Htruthy).
  destruct (rid !! t) as [cn|];
    [|destruct (truthy_opt (lookup_case_number_by_source_record_id _ t)) eqn:Hdb].
  all: cbv beta iota.
  all: rewrite truthy_closed, truthy_duplicate; cbn [negb andb];
       rewrite andb_false_r.
  all: match goal with
       | |- context [if ?x then print ?m ?s else ?s] => destruct x
       end.
  all: intros [= <- <-].
  all: repeat split; try reflexivity.
  all: try (cbn; destruct (counters s); reflexivity).
  all: repeat first [apply elem_of_print | apply elem_of_print_later].
Qed.

Lemma process_row_reaches rid hm s r :
  reaches_upserts hm s r ->
  process_row env rid hm s r
  = (let '(v, s1) :=
       read_request rid hm (case_number_of hm r) r (see (case_number_of hm r) s) in
     write_row env hm r v s1).
Proof.
  intros [[Hb Hc] Hs]. unfold process_row. rewrite Hb, Hc. cbn [negb].
  fold (case_number_of hm r). by rewrite bool_decide_eq_false_2.
Qed.






Lemma upsert_request_returns d c srid pl pe st pr prl nt ar mc mr :
  columns_exist (table_columns env "requests")
    ["case_number"; "source_record_id"; "primary_place_id";
     "primary_contact_person_id"; "status"; "priority"; "priority_label"; "notes"]
  && (negb (has_col (table_columns env "requests") "archived_at")
      || has_col (table_columns env "requests") "archive_reason") = true ->
  exists i ins d', upsert_request env d c srid pl pe st pr prl nt ar mc mr = Ok (d', Some i, ins).
Proof.
  intros Hc. unfold upsert_request, fresh_id. rewrite Hc. cbv zeta. cbn [negb].
  destruct (requests d !! c); eauto.
Qed.




Lemma truthy_neq t : t <> "" -> truthy t = true.
Proof. unfold truthy. intros H. by apply negb_true_iff, String.eqb_neq. Qed.

(** Processing a row that reaches the upserts: the values read, and the
    request row stored under its case number. *)
Lemma process_row_stored rid hm s r s' :
  reaches_upserts hm s r ->
  process_row env rid hm s r = Ok s' ->
  exists v s1 rq,
    read_request rid hm (case_number_of hm r) r (see (case_number_of hm r) s)
      = (v, s1)
    /\ same_trace s1 s'
    /\ requests (db s') !! case_number_of hm r = Some rq
    /\ status rq
       = coalesce (opt_or_none (v_status v))
           (requests (db s) !! case_number_of hm r ≫= status)
    /\ archive_reason rq
       = (if has_col (table_columns env "requests") "archive_reason"
          then coalesce (opt_or_none (v_archive_reason v))
                 (requests (db s) !! case_number_of hm r ≫= archive_reason)
          else requests (db s) !! case_number_of hm r ≫= archive_reason)
    /\ merged_into_case_number rq
       = (if has_col (table_columns env "requests") "merged_into_case_number"
          then coalesce (opt_or_none (v_merged_into_case_number v))
                 (requests (db s) !! case_number_of hm r ≫= merged_into_case_number)
          else requests (db s) !! case_number_of hm r ≫= merged_into_case_number)
    /\ merged_into_source_record_id rq
       = (if has_col (table_columns env "requests") "merged_into_source_record_id"
          then coalesce (opt_or_none (v_merged_into_source_record_id v))
                 (requests (db s) !! case_number_of hm r
                    ≫= merged_into_source_record_id)
          else requests (db s) !! case_number_of hm r ≫= merged_into_source_record_id).
Proof.
  intros Hreach H. rewrite (process_row_reaches _ _ _ _ Hreach) in H.
  destruct (read_request _ _ _ _ _) as [v s1] eqn:Hread.
  destruct (read_request_frame _ _ _ _ _ _ _ Hread) as (Hdb & _ & Hc).
  apply write_row_requests in H as (d1 & d2 & pl & pe & i & ins & H1 & Hup & H2 & Ht).
  apply upsert_request_spec in Hup
    as (rq & Hrq & _ & _ & _ & _ & Hst & _ & _ & _ & Har & Hmc & Hmr & _).
  exists v, s1, rq. split; [reflexivity|]. split; [exact Ht|].
  rewrite Hc, H1, Hdb in *. cbn [db see] in *.
  split; [by rewrite H2, Hrq, lookup_insert_eq|].
  by repeat split.
Qed.

(** Claim C1.  A row that reaches the upserts and names a merge target
    is written with status [closed] and archive reason [duplicate],
    whatever its Case Status text says and whether the target is found
    in the pre-scan map, in the database or nowhere: these are the
    values [main] hands to [upsert_request], and those of the request
    stored under the row's case number (the archive reason where the
    table has the column). *)
Theorem merge_target_forces_closed_duplicate rid hm s r s' t :
  reaches_upserts hm s r ->
  get_field r hm merge_target_keys = t -> t <> "" ->
  process_row env rid hm s r = Ok s' ->
  (let v := fst (read_request rid hm (case_number_of hm r) r
                   (see (case_number_of hm r) s)) in
   v_status v = Some "closed" /\ v_archive_reason v = Some "duplicate")
  /\ exists rq,
       requests (db s') !! case_number_of hm r = Some rq
       /\ status rq = Some "closed"
       /\ (has_col (table_columns env "requests") "archive_reason" = true ->
           archive_reason rq = Some "duplicate").
Proof.
  intros Hreach Ht Hne H.
  destruct (process_row_stored _ _ _ _ _ Hreach H)
    as (v & s1 & rq & Hread & _ & Hrq & Hst & Har & _).
  destruct (read_request_target _ _ _ _ _ _ _ _ Ht (truthy_neq _ Hne) Hread)
    as (Hvs & Hva & _).
  rewrite Hread. cbn [fst]. split; [by split|].
  exists rq. split; [exact Hrq|]. rewrite Hst, Har, Hvs, Hva. split; [reflexivity|].
  by intros ->.
Qed.


Lemma process_row_seen rid hm s r s' :
  process_row env rid hm s r = Ok s' ->
  forall c, c ∈ seen_case_numbers s'
            <-> c ∈ seen_case_numbers s
                \/ (has_case_number hm r /\ c = case_number_of hm r).
Proof.
  unfold process_row, has_case_number. fold (case_number_of hm r).
  destruct (is_blank_row r) eqn:Hb.
  { intros [= <-] c. cbn. split; [by left|]. by intros [?|[[? ?] ?]]. }
  destruct (truthy (get_field r hm case_number_keys)) eqn:Hc; cbn [negb].
  2:{ intros [= <-] c. cbn. split; [by left|]. by intros [?|[[? ?] ?]]. }
  case_bool_decide as Hseen.
  { intros [= <-] c. cbn. split; [by left|]. intros [?|[_ ->]]; done. }
  destruct (read_request _ _ _ _ _) as [v s1] eqn:Hread.
  destruct (read_request_frame _ _ _ _ _ _ _ Hread) as (_ & Hs1 & _).
  intros H. apply write_row_requests in H
    as (? & ? & ? & ? & ? & ? & _ & _ & _ & (_ & _ & Hs')).
  intros c. rewrite Hs', Hs1. cbn. rewrite elem_of_union, elem_of_singleton.
  split; [intros [->|?]; [right|left]; done|]. intros [?|[_ ->]]; [by right|by left].
Qed.

Lemma process_rows_seen rid hm rs : forall s s',
  process_rows env rid hm s rs = Ok s' ->
  forall c, c ∈ seen_case_numbers s'
            <-> c ∈ seen_case_numbers s
                \/ exists r0, r0 ∈ rs /\ has_case_number hm r0
                              /\ c = case_number_of hm r0.
Proof.
  induction rs as [|r rs IH]; intros s s' H c.
  - injection H as <-. split; [by left|]. intros [?|(r0 & Hin & _)]; [done|].
    by apply not_elem_of_nil in Hin.
  - cbn [process_rows] in H. apply bind_Ok in H as (s1 & Hrow & Hrest).
    rewrite (IH _ _ Hrest c), (process_row_seen _ _ _ _ _ Hrow c).
    split.
    + intros [[?|[? ?]]|(r0 & Hin & ? & ?)]; [by left|right..].
      * exists r. split; [apply elem_of_cons; by left|done].
      * exists r0. split; [apply elem_of_cons; by right|done].
    + intros [?|(r0 & Hin & ? & ?)]; [by left; left|].
      apply elem_of_cons in Hin as [->|Hin]; [left; right; done|].
      right. by exists r0.
Qed.

Lemma process_rows_app rid hm l1 : forall l2 s s',
  process_rows env rid hm s (l1 ++ l2)%list = Ok s' ->
  exists s1, process_rows env rid hm s l1 = Ok s1
             /\ process_rows env rid hm s1 l2 = Ok s'.
Proof.
  induction l1 as [|r l1 IH]; intros l2 s s' H; [by exists s|].
  cbn [app process_rows] in *. apply bind_Ok in H as (s0 & Hrow & Hrest).
  destruct (IH _ _ _ Hrest) as (s1 & H1 & H2). exists s1. by rewrite Hrow.
Qed.

Lemma first_row_with_case_number hm c (pre : list row) r0 :
  r0 ∈ pre -> has_case_number hm r0 -> case_number_of hm r0 = c ->
  exists pre0 first rest,
    pre = (pre0 ++ first :: rest)%list
    /\ has_case_number hm first /\ case_number_of hm first = c
    /\ forall r, r ∈ pre0 -> has_case_number hm r -> case_number_of hm r <> c.
Proof.
  induction pre as [|r pre IH]; intros Hin Hr0 Hc; [by apply elem_of_nil in Hin|].
  destruct (is_blank_row r) eqn:Hb;
    [|destruct (truthy (get_field r hm case_number_keys)) eqn:Ht;
      [destruct (decide (case_number_of hm r = c)) as [He|Hne]|]].
  2:{ exists [], r, pre. do 3 (split; [done|]).
      intros x Hx. by apply elem_of_nil in Hx. }
  all: assert (Hnot : has_case_number hm r -> case_number_of hm r <> c)
         by (intros [? ?]; congruence).
  all: apply elem_of_cons in Hin as [->|Hin]; [by destruct (Hnot Hr0)|].
  all: destruct (IH Hin Hr0 Hc) as (pre0 & first & rest & -> & Hf & Hfc & Hbefore).
  all: exists (r :: pre0), first, rest; do 3 (split; [done|]).
  all: intros x Hx; apply elem_of_cons in Hx as [->|Hx]; [exact Hnot|by apply Hbefore].
Qed.

(** Claim C10.  Within one file, a row whose case number an earlier
    non-blank row carries is skipped before any write: the database, the
    output and the lookups are as before the row, and
    [skipped_dupe_case_in_file] is one more; the first row of the file
    with that case number is the one that reaches the upserts. *)
Theorem duplicate_case_number_rows_are_skipped rid hm d pre r s1 r0 :
  process_rows env rid hm (start d) pre = Ok s1 ->
  has_case_number hm r ->
  r0 ∈ pre -> has_case_number hm r0 ->
  case_number_of hm r0 = case_number_of hm r ->
  (exists s2,
     process_row env rid hm s1 r = Ok s2
     /\ db s2 = db s1
     /\ stdout s2 = stdout s1
     /\ db_lookups s2 = db_lookups s1
     /\ skipped_dupe_case_in_file (counters s2)
        = S (skipped_dupe_case_in_file (counters s1))
     /\ requests_inserted (counters s2) = requests_inserted (counters s1)
     /\ requests_updated (counters s2) = requests_updated (counters s1))
  /\ (exists pre0 first rest s0,
        pre = (pre0 ++ first :: rest)%list
        /\ case_number_of hm first = case_number_of hm r
        /\ process_rows env rid hm (start d) pre0 = Ok s0
        /\ reaches_upserts hm s0 first).
Proof.
  intros Hpre Hr Hin Hr0 Heq.
  pose proof (process_rows_seen _ _ _ _ _ Hpre) as Hseen. split.
  - assert (Hs : case_number_of hm r ∈ seen_case_numbers s1).
    { apply Hseen. right. by exists r0. }
    exists (count inc_skipped_dupe_case_in_file s1).
    split; [|cbn; destruct (counters s1); by repeat split].
    destruct Hr as [Hb Hc]. unfold process_row. rewrite Hb, Hc. cbn [negb].
    fold (case_number_of hm r). by rewrite bool_decide_eq_true_2.
  - destruct (first_row_with_case_number hm _ pre r0 Hin Hr0 Heq)
      as (pre0 & first & rest & -> & Hf & Hfc & Hbefore).
    apply process_rows_app in Hpre as (s0 & Hs0 & _).
    exists pre0, first, rest, s0. do 3 (split; [done|]). split; [done|].
    intros Hs. apply (process_rows_seen _ _ _ _ _ Hs0) in Hs
      as [Hs|(x & Hx & Hxc & Hxe)].
    + by apply not_elem_of_empty in Hs.
    + apply (Hbefore x Hx Hxc). congruence.
Qed.












End Facts.

End TrappingFacts.

(** ** The match candidates *)

Module PeopleMatchFacts.
Import PyStr PeopleMatch.
Local Open Scope Q_scope.

Lemma Qmax_cases a b : (b <= a /\ PeopleMatch.Qmax a b = a) \/ (a < b /\ PeopleMatch.Qmax a b = b).
Proof.
  unfold PeopleMatch.Qmax. destruct (Qle_bool b a) eqn:H.
  - left. split; [by apply Qle_bool_iff|reflexivity].
  - right. split; [|reflexivity]. apply Qnot_le_lt. intros Hle.
    apply Qle_bool_iff in Hle. congruence.
Qed.

Lemma ratio_nonneg (d m : nat) : (0 < m)%nat -> 0 <= inject_Z (Z.of_nat d) / inject_Z (Z.of_nat m).
Proof.
  intros Hm. apply Qle_shift_div_l.
  - change 0 with (inject_Z 0). rewrite <- Zlt_Qlt. lia.
  - rewrite Qmult_0_l. change 0 with (inject_Z 0). rewrite <- Zle_Qle. lia.
Qed.

Lemma name_similarity_bounds a b : 0 <= name_similarity a b <= 1.
Proof.
  unfold name_similarity. cbv zeta.
  destruct (negb _ || negb _); [lra|].
  destruct (Nat.eqb_spec (Nat.max (String.length (normalize_name a))
                                  (String.length (normalize_name b))) 0) as [|Hm]; [lra|].
  set (d := levenshtein_distance _ _). set (m := Nat.max _ _) in *.
  pose proof (ratio_nonneg d m ltac:(lia)) as Hr.
  destruct (Qmax_cases 0 (1 - inject_Z (Z.of_nat d) / inject_Z (Z.of_nat m)))
    as [[? ->]|[? ->]]; lra.
Qed.

Lemma round_half_even_floor q :
  (Qfloor q <= round_half_even q <= Qfloor q + 1)%Z.
Proof.
  unfold round_half_even. cbv zeta.
  destruct (Qcompare _ _); [destruct (Z.even _)|..]; lia.
Qed.

Lemma round_half_even_ge q n : inject_Z n <= q -> (n <= round_half_even q)%Z.
Proof.
  intros H. apply Qfloor_resp_le in H. rewrite Qfloor_Z in H.
  pose proof (round_half_even_floor q). lia.
Qed.

Lemma round_half_even_le q n : q <= inject_Z n -> (round_half_even q <= n)%Z.
Proof.
  intros H. destruct (Qlt_le_dec q (inject_Z n)) as [Hlt|Hge].
  - assert (Qfloor q < n)%Z.
    { apply Z.lt_nge. intros Hn. rewrite Zle_Qle in Hn.
      pose proof (Qfloor_le q). lra. }
    pose proof (round_half_even_floor q). lia.
  - assert (Heq : q == inject_Z n) by lra.
    unfold round_half_even. cbv zeta.
    assert (Hf : Qfloor q = n) by (rewrite Heq; apply Qfloor_Z).
    rewrite Hf.
    assert (Hc : Qcompare (q - inject_Z n) (1 # 2) = Lt).
    { change (q - inject_Z n < 1 # 2). lra. }
    rewrite Hc. lia.
Qed.

Lemma round3_eq q : round3 q == inject_Z (round_half_even (q * 1000)) * (1 # 1000).
Proof. reflexivity. Qed.

(** Rounding to thousandths never crosses a multiple of 1/1000. *)
Lemma round3_ge q t (n : Z) : inject_Z n == t * 1000 -> t <= q -> t <= round3 q.
Proof.
  intros Ht H. rewrite round3_eq.
  assert (Hn : inject_Z n <= q * 1000) by lra.
  apply round_half_even_ge in Hn. rewrite Zle_Qle in Hn. lra.
Qed.

Lemma round3_le q t (n : Z) : inject_Z n == t * 1000 -> q <= t -> round3 q <= t.
Proof.
  intros Ht H. rewrite round3_eq.
  assert (Hn : q * 1000 <= inject_Z n) by lra.
  apply round_half_even_le in Hn. rewrite Zle_Qle in Hn. lra.
Qed.

Ltac split_Qmax :=
  repeat match goal with
         | |- context [PeopleMatch.Qmax ?a ?b] =>
             let H := fresh "Hmax" in
             destruct (Qmax_cases a b) as [[H ->]|[H ->]]
         end.

Ltac signal_cases s p :=
  unfold match_signals; cbv zeta;
  pose proof (name_similarity_bounds (display_name s) (person_display_name p));
  destruct (exact_phone s p), (exact_email s p);
  destruct (Qle_bool 0.7 (name_similarity (display_name s) (person_display_name p)))
    eqn:?;
  try destruct (area_code s p); cbv beta iota; cbn [fst snd app].


(** Whenever a signal fired the confidence is at least 0.71, so the
    floor of 0.40 only ever removes pairs with no signal. *)
Lemma match_signals_floor s p :
  fst (match_signals s p) <> [] -> 0.71 <= snd (match_signals s p).
Proof.
  signal_cases s p; try (intros Hm; by destruct Hm); intros _;
    try match goal with H : Qle_bool 0.7 _ = true |- _ => apply Qle_bool_iff in H end;
    split_Qmax; lra.
Qed.

Lemma calculate_match_Some s p c :
  calculate_match s p = Some c ->
  fst (match_signals s p) <> []
  /\ confidence c = round3 (snd (match_signals s p))
  /\ tier (evidence c) = tier_of (snd (match_signals s p))
  /\ matched_on (evidence c) = fst (match_signals s p).
Proof.
  unfold calculate_match. destruct (match_signals s p) as [m q]. cbn [fst snd].
  destruct (bool_decide (m = []) || negb (Qle_bool 0.40 q)) eqn:Hskip; [discriminate|].
  intros [= <-]. apply orb_false_iff in Hskip as [Hm _].
  apply bool_decide_eq_false in Hm. by repeat split.
Qed.

Lemma calculate_match_returns s p :
  fst (match_signals s p) <> [] -> exists c, calculate_match s p = Some c.
Proof.
  intros Hm. pose proof (match_signals_floor s p Hm) as Hfloor.
  unfold calculate_match. destruct (match_signals s p) as [m q]. cbn [fst snd] in *.
  rewrite bool_decide_eq_false_2 by done.
  assert (Hq : Qle_bool 0.40 q = true) by (apply Qle_bool_iff; lra).
  rewrite Hq. cbn [negb orb]. eauto.
Qed.

Lemma calculate_match_None s p :
  snd (match_signals s p) < 0.40 -> calculate_match s p = None.
Proof.
  intros Hlow. unfold calculate_match. destruct (match_signals s p) as [m q].
  cbn [snd] in Hlow.
  assert (Hq : Qle_bool 0.40 q = false).
  { destruct (Qle_bool 0.40 q) eqn:H; [|done]. apply Qle_bool_iff in H. lra. }
  rewrite Hq. cbn [negb]. by rewrite orb_true_r.
Qed.


Lemma Qle_bool_false a b : Qle_bool a b = false <-> b < a.
Proof.
  split.
  - intros H. apply Qnot_le_lt. intros Hle. apply Qle_bool_iff in Hle. congruence.
  - intros H. destruct (Qle_bool a b) eqn:Hb; [|done]. apply Qle_bool_iff in Hb. lra.
Qed.




(** The thresholds at the sample values. *)
Lemma tier_of_examples :
  tier_of 0.96 = 0%nat /\ tier_of 0.82 = 1%nat /\ tier_of 0.6 = 2%nat
  /\ tier_of 0.3 = 3%nat.
Proof. by repeat split. Qed.


(** The candidates generated for a source record are candidates of
    [calculate_match], at most [max_candidates] of them. *)
Lemma elem_of_insert_by_confidence x c l :
  x ∈ insert_by_confidence c l <-> x = c \/ x ∈ l.
Proof.
  induction l as [|y l IH]; cbn [insert_by_confidence].
  - rewrite list_elem_of_singleton, elem_of_nil. tauto.
  - destruct (Qle_bool (confidence c) (confidence y));
      rewrite !elem_of_cons, ?IH; tauto.
Qed.

Lemma elem_of_sort_by_confidence x l :
  x ∈ sort_by_confidence l <-> x ∈ l.
Proof.
  unfold sort_by_confidence.
  assert (H : forall acc,
             x ∈ fold_left (fun acc c => insert_by_confidence c acc) l acc
             <-> x ∈ l \/ x ∈ acc).
  { induction l as [|c l IH]; intros acc; cbn [fold_left].
    - rewrite elem_of_nil. tauto.
    - rewrite IH, elem_of_insert_by_confidence, elem_of_cons. tauto. }
  rewrite H, elem_of_nil. tauto.
Qed.

Lemma generated_candidates_are_matches source people n c :
  c ∈ generate_candidates_for_source source people n ->
  exists person, person ∈ people /\ calculate_match source person = Some c.
Proof.
  unfold generate_candidates_for_source. intros H.
  apply subseteq_take in H. apply (proj1 (elem_of_sort_by_confidence _ _)) in H.
  by apply (proj1 (list_elem_of_omap _ _ _)) in H.
Qed.

Lemma generated_candidates_length source people n :
  (length (generate_candidates_for_source source people n) <= n)%nat.
Proof. unfold generate_candidates_for_source. rewrite length_take. lia. Qed.

(** The address of the source record plays no part in the match. *)
Lemma address_is_not_consulted s p a :
  calculate_match
    {| source_system := source_system s; source_record_id := source_record_id s;
       display_name := display_name s; email := email s; phone := phone s;
       phone_normalized := phone_normalized s; address_display := a |} p
  = calculate_match s p.
Proof. reflexivity. Qed.

Section UpsertFacts.

Variable rejects : MatchCandidate -> bool.

(** Claim C5.  Generating again a candidate whose triple is stored
    leaves it with the greater of the stored and the new confidence (a
    lower new one changes nothing, a higher one is written), and with
    the new evidence; the review status is kept. *)
Theorem regenerated_candidate_keeps_greater_confidence conn c old :
  failed conn = false -> rejects c = false ->
  person_match_candidates conn
    !! (c_source_system c, c_source_record_id c, candidate_person_id c) = Some old ->
  exists new,
    upsert_candidates rejects conn [c] false
    = ({| person_match_candidates :=
            <[(c_source_system c, c_source_record_id c, candidate_person_id c) := new]>
              (person_match_candidates conn);
          failed := false |}, 0%nat, 1%nat)
    /\ row_confidence new == Qminmax.Qmax (row_confidence old) (confidence c)
    /\ (confidence c < row_confidence old -> row_confidence new = row_confidence old)
    /\ (row_confidence old < confidence c -> row_confidence new = confidence c)
    /\ row_evidence new = evidence c
    /\ row_status new = row_status old.
Proof.
  intros Hok Hrej Hold. eexists. split.
  { unfold upsert_candidates, upsert_loop, execute_upsert.
    rewrite Hok, Hrej, Hold. reflexivity. }
  cbn [row_confidence row_evidence row_status]. unfold GREATEST.
  destruct (Qle_bool (row_confidence old) (confidence c)) eqn:Hle.
  - apply Qle_bool_iff in Hle. repeat split; try reflexivity.
    + symmetry. by apply Q.max_r.
    + intros ?. lra.
  - apply Qle_bool_false in Hle. repeat split; try reflexivity.
    + symmetry. apply Q.max_l. lra.
    + intros ?. lra.
Qed.

End UpsertFacts.

End PeopleMatchFacts.

(** ** The staleness pass *)

Module ClinichqFacts.
Import PyStr Clinichq.

Lemma date_leb_spec a b :
  date_leb a b = true
  <-> (year a < year b
       \/ (year a = year b
           /\ (month a < month b \/ (month a = month b /\ day a <= day b))))%Z.
Proof. unfold date_leb. lia. Qed.

Lemma date_leb_total a b : date_leb a b = true \/ date_leb b a = true.
Proof. rewrite !date_leb_spec. lia. Qed.

Lemma date_leb_trans a b c :
  date_leb a b = true -> date_leb b c = true -> date_leb a c = true.
Proof. rewrite !date_leb_spec. lia. Qed.

Lemma outside_window_not_candidate run_id cs ce a d :
  appt_date a = Some d ->
  date_ltb d cs = true \/ date_ltb ce d = true ->
  stale_candidate run_id cs ce a = false.
Proof.
  intros Hd Hout. unfold stale_candidate. rewrite Hd.
  assert (Hw : date_leb cs d && date_leb d ce = false).
  { unfold date_ltb in Hout. destruct Hout as [H|H]; apply negb_true_iff in H;
      rewrite H; [reflexivity|apply andb_false_r]. }
  rewrite Hw. by rewrite andb_false_r.
Qed.

(** Claim C4.  An appointment whose date lies outside
    [coverage_start, coverage_end] is the same record after the staleness
    pass, [is_current] and [stale_at] included, whoever saw it last and
    however old it is. *)
Theorem appointments_outside_window_untouched (now : N)
    (t : gmap (string * string) appointment) run_id cs ce key a d :
  t !! key = Some a ->
  appt_date a = Some d ->
  date_ltb d cs = true \/ date_ltb ce d = true ->
  fst (mark_stale_in_window now t run_id cs ce) !! key = Some a
  /\ forall has_windowed_columns,
       fst (staleness_pass now has_windowed_columns (Some cs, Some ce) run_id t)
         !! key = Some a.
Proof.
  intros Ht Hd Hout.
  assert (H : fst (mark_stale_in_window now t run_id cs ce) !! key = Some a).
  { unfold mark_stale_in_window. cbn [fst]. rewrite lookup_fmap, Ht. cbn.
    by rewrite (outside_window_not_candidate _ _ _ _ _ Hd Hout). }
  split; [exact H|]. intros [|]; [exact H|exact Ht].
Qed.

(** Inside the window the pass does expire what the run did not see. *)
Lemma unseen_appointment_in_window_is_staled (now : N)
    (t : gmap (string * string) appointment) run_id cs ce key a :
  t !! key = Some a ->
  stale_candidate run_id cs ce a = true ->
  fst (mark_stale_in_window now t run_id cs ce) !! key = Some (set_stale now a).
Proof.
  intros Ht Hc. unfold mark_stale_in_window. cbn [fst].
  rewrite lookup_fmap, Ht. cbn. by rewrite Hc.
Qed.

End ClinichqFacts.

(** ** The content hash *)

Module HashFacts.
Import PyStr Csv.

Lemma first_present_ext (r1 r2 : row) keys :
  (forall k, k ∈ keys -> r1 !! k = r2 !! k) ->
  AirtableAppt.first_present r1 keys = AirtableAppt.first_present r2 keys.
Proof.
  induction keys as [|k keys IH]; intros H; [reflexivity|].
  cbn [AirtableAppt.first_present].
  rewrite (H k) by (apply elem_of_cons; by left).
  rewrite IH; [reflexivity|]. intros k' Hk'. apply H, elem_of_cons. by right.
Qed.


Section Digest.

Variable sha256_hexdigest : string -> string.


End Digest.
End HashFacts.

(** ** The properties at the sample data *)

Module Instances.
Import PyStr Csv Examples.

Ltac decide_by_computation :=
  match goal with |- ?P => apply (bool_decide_unpack P); vm_compute; exact I end.

Section TrappingInstances.
Import Trapping TrappingFacts.
Local Open Scope Q_scope.


(** Row 1 of [forward_file], status text "In Progress", target R9. *)
Lemma merge_target_forces_closed_duplicate_witness :
  (let v := fst (read_request rid_map header_map (case_number_of header_map row_1)
                   row_1 (see (case_number_of header_map row_1) s0)) in
   v_status v = Some "closed" /\ v_archive_reason v = Some "duplicate")
  /\ exists rq,
       requests (db (state_of (process_row env0 rid_map header_map s0 row_1)))
         !! case_number_of header_map row_1 = Some rq
       /\ status rq = Some "closed"
       /\ (has_col (table_columns env0 "requests") "archive_reason" = true ->
           archive_reason rq = Some "duplicate").
Proof.
  apply (merge_target_forces_closed_duplicate env0 rid_map header_map s0 row_1 _ "R9").
  - split; [split; vm_compute; reflexivity|]. decide_by_computation.
  - vm_compute. reflexivity.
  - discriminate.
  - vm_compute. reflexivity.
Defined.


(** [row_1_again] after the two rows of [forward_file]. *)
Lemma duplicate_case_number_rows_are_skipped_witness :
  (exists s3,
     process_row env0 rid_map header_map s2 row_1_again = Ok s3
     /\ db s3 = db s2
     /\ stdout s3 = stdout s2
     /\ db_lookups s3 = db_lookups s2
     /\ skipped_dupe_case_in_file (counters s3)
        = S (skipped_dupe_case_in_file (counters s2))
     /\ requests_inserted (counters s3) = requests_inserted (counters s2)
     /\ requests_updated (counters s3) = requests_updated (counters s2))
  /\ (exists pre0 first rest s1,
        [row_1; row_9] = (pre0 ++ first :: rest)%list
        /\ case_number_of header_map first = case_number_of header_map row_1_again
        /\ process_rows env0 rid_map header_map (start empty_database) pre0 = Ok s1
        /\ reaches_upserts header_map s1 first).
Proof.
  apply (duplicate_case_number_rows_are_skipped env0 rid_map header_map empty_database
           [row_1; row_9] row_1_again s2 row_1).
  - vm_compute. reflexivity.
  - split; vm_compute; reflexivity.
  - apply elem_of_cons. left. reflexivity.
  - split; vm_compute; reflexivity.
  - vm_compute. reflexivity.
Defined.





End TrappingInstances.

Section MatchInstances.
Import PeopleMatch PeopleMatchFacts.
Local Open Scope Q_scope.





(** 0.77 generated over a stored 0.94. *)
Lemma regenerated_candidate_keeps_greater_confidence_witness :
  exists new,
    upsert_candidates (fun _ => false) connection_0 [weaker_candidate] false
    = ({| person_match_candidates :=
            <[("clinichq", "18", "p-2") := new]> (person_match_candidates connection_0);
          failed := false |}, 0%nat, 1%nat)
    /\ row_confidence new == Qminmax.Qmax 0.94 0.77
    /\ row_confidence new = 0.94
    /\ row_evidence new = some_evidence
    /\ row_status new = "open".
Proof.
  destruct (regenerated_candidate_keeps_greater_confidence (fun _ => false)
              connection_0 weaker_candidate stored_candidate)
    as (new & Hrun & Hmax & Hlower & _ & Hev & Hst);
    [reflexivity|reflexivity|vm_compute; reflexivity|].
  exists new. split; [exact Hrun|]. split; [exact Hmax|].
  split; [apply Hlower; vm_compute; reflexivity|]. by split.
Defined.

End MatchInstances.

Section ClinichqInstances.
Import Clinichq ClinichqFacts.

(** An appointment of January 2024 and a run covering August 2025. *)
Lemma appointments_outside_window_untouched_witness :
  fst (mark_stale_in_window 1700000000 stored_appointments "run-2" august_start august_end)
    !! ("clinichq", "123") = Some old_appointment
  /\ forall has_windowed_columns,
       fst (staleness_pass 1700000000 has_windowed_columns
              (Some august_start, Some august_end) "run-2" stored_appointments)
         !! ("clinichq", "123") = Some old_appointment.
Proof.
  apply (appointments_outside_window_untouched 1700000000 stored_appointments "run-2"
           august_start august_end ("clinichq", "123") old_appointment
           {| year := 2024; month := 1; day := 5 |}).
  - vm_compute. reflexivity.
  - reflexivity.
  - left. vm_compute. reflexivity.
Defined.

End ClinichqInstances.

Section HashInstances.
Import HashFacts.



End HashInstances.
End Instances.

(** * Further properties *)

(** ** Texts read from a row *)

Module TextFacts.
Import PyStr.

Lemma drop_while_idem p l : drop_while p (drop_while p l) = drop_while p l.
Proof.
  induction l as [|a l IH]; [reflexivity|]. cbn [drop_while].
  destruct (p a) eqn:Ha; [exact IH|]. cbn [drop_while]. by rewrite Ha.
Qed.

Lemma drop_while_snoc p l a :
  p a = false -> drop_while p (l ++ [a]) = drop_while p l ++ [a].
Proof.
  intros Ha. induction l as [|b l IH]; cbn [drop_while app].
  - by rewrite Ha.
  - destruct (p b); [exact IH|reflexivity].
Qed.

Lemma drop_while_head p l :
  drop_while p l = [] \/ exists a l', drop_while p l = a :: l' /\ p a = false.
Proof.
  induction l as [|a l IH]; [by left|]. cbn [drop_while].
  destruct (p a) eqn:Ha; [exact IH|]. right. by exists a, l.
Qed.

Lemma chars_text l : chars (text l) = l.
Proof. apply list_ascii_of_string_of_list_ascii. Qed.

Lemma text_chars s : text (chars s) = s.
Proof. apply string_of_list_ascii_of_string. Qed.

(** What [strip_class] leaves has no character of the class at either end. *)
Lemma stripped_ends p s :
  chars (strip_class p s) = []
  \/ exists a x,
       chars (strip_class p s) = a :: rev x
       /\ p a = false /\ drop_while p (x ++ [a]) = x ++ [a].
Proof.
  unfold strip_class. rewrite chars_text.
  destruct (drop_while_head p (chars s)) as [->|(a & m & -> & Ha)]; [by left|].
  right. cbn [rev]. rewrite (drop_while_snoc _ _ _ Ha), rev_app_distr. cbn [rev app].
  exists a, (drop_while p (rev m)). split; [reflexivity|]. split; [exact Ha|].
  by rewrite (drop_while_snoc _ _ _ Ha), drop_while_idem.
Qed.

Lemma strip_class_idempotent p s :
  strip_class p (strip_class p s) = strip_class p s.
Proof.
  destruct (stripped_ends p s) as [H|(a & x & H & Ha & Hxa)].
  - unfold strip_class at 1. rewrite H. cbn.
    by rewrite <- (text_chars (strip_class p s)), H.
  - unfold strip_class at 1. rewrite H. cbn [drop_while]. rewrite Ha.
    cbn [rev]. rewrite rev_involutive, Hxa, rev_app_distr. cbn [rev app].
    by rewrite <- (text_chars (strip_class p s)), H.
Qed.

Lemma truthy_true s : truthy s = true <-> s <> "".
Proof. unfold truthy. rewrite negb_true_iff. apply String.eqb_neq. Qed.

Lemma truthy_false s : truthy s = false <-> s = "".
Proof. unfold truthy. rewrite negb_false_iff. apply String.eqb_eq. Qed.

Lemma filter_idem {A} (f : A -> bool) l : List.filter f (List.filter f l) = List.filter f l.
Proof.
  induction l as [|a l IH]; [reflexivity|]. cbn [List.filter].
  destruct (f a) eqn:Ha; [|exact IH]. cbn [List.filter]. by rewrite Ha, IH.
Qed.

Lemma delete_class_idempotent p s :
  delete_class p (delete_class p s) = delete_class p s.
Proof. unfold delete_class. by rewrite chars_text, filter_idem. Qed.

Lemma chars_delete_class p s a :
  In a (chars (delete_class p s)) -> p a = false.
Proof.
  unfold delete_class. rewrite chars_text. intros H.
  apply filter_In in H as [_ H]. by apply negb_true_iff.
Qed.

Lemma length_chars s : length (chars s) = String.length s.
Proof.
  unfold chars. induction s as [|a s IH]; [reflexivity|].
  cbn [list_ascii_of_string List.length String.length]. by f_equal.
Qed.

End TextFacts.
(** ** More of the trapping-request import *)

Module TrappingMore.
Import PyStr Csv Trapping TrappingFacts TextFacts.

Lemma cell_text_stripped (r : row) k : strip (cell_text r k) = cell_text r k.
Proof.
  unfold cell_text. destruct (r !! k); [apply strip_class_idempotent|reflexivity].
Qed.

(** Property X1. [get_field] returns its text already stripped, whichever
    header it is found under: the [case_number.strip()] of [main] changes
    nothing, and no value reaches an upsert with spaces around it. *)
Theorem get_field_is_stripped (r : row) (hm : gmap string string) keys :
  strip (get_field r hm keys) = get_field r hm keys.
Proof.
  induction keys as [|k keys IH]; [reflexivity|]. cbn [get_field].
  destruct (truthy (cell_text r k)); [apply cell_text_stripped|].
  destruct (hm !! k) as [orig|]; cbn [truthy String.eqb negb]; [|exact IH].
  destruct (truthy (cell_text r orig)); [apply cell_text_stripped|exact IH].
Qed.

Lemma blank_row_cells (r : row) k : is_blank_row r = true -> cell_text r k = "".
Proof.
  unfold is_blank_row, cell_text. intros H.
  destruct (r !! k) as [v|] eqn:Hk; [|reflexivity].
  rewrite forallb_forall in H. apply String.eqb_eq.
  apply (H (k, v)), list_elem_of_In, elem_of_map_to_list, Hk.
Qed.

(** Property X2. A row that [is_blank_row] skips has no field at all: every
    [get_field] on it gives the empty text, whatever the header map. *)
Theorem blank_row_reads_empty (r : row) (hm : gmap string string) keys :
  is_blank_row r = true -> get_field r hm keys = "".
Proof.
  intros H. apply get_field_blank. intros k _. split; [by apply blank_row_cells|].
  intros orig _. by apply blank_row_cells.
Qed.

(** A line shorter than the header leaves [None] in the cells it lacks,
    and [str(None)] is the text [None]: the field reads as that text,
    and the row is not blank. *)
Lemma missing_cell_reads_as_None (r : row) (hm : gmap string string) k keys :
  r !! k = Some None ->
  get_field r hm (k :: keys) = "None" /\ is_blank_row r = false.
Proof.
  intros Hk.
  assert (Hc : cell_text r k = "None").
  { unfold cell_text. destruct (r !! k) as [v|] eqn:E; [|discriminate Hk].
    injection Hk as ->. reflexivity. }
  split.
  - cbn [get_field]. by rewrite Hc.
  - destruct (is_blank_row r) eqn:Hb; [|reflexivity].
    apply (blank_row_cells r k) in Hb. congruence.
Qed.

Lemma header_fold_sound fns : forall (m : gmap string string) k orig,
  fold_left (fun mapping o => <[strip o := o]> mapping) fns m !! k = Some orig ->
  (orig ∈ fns /\ strip orig = k) \/ m !! k = Some orig.
Proof.
  induction fns as [|a fns IH]; intros m k orig H; [by right|].
  cbn [fold_left] in H. apply IH in H as [[Hin Hk]|H].
  - left. split; [apply elem_of_cons; by right|done].
  - destruct (decide (strip a = k)) as [<-|Hne].
    + rewrite lookup_insert_eq in H. injection H as <-. left.
      split; [apply elem_of_cons; by left|done].
    + rewrite lookup_insert_ne in H by done. by right.
Qed.

Lemma header_fold_keeps fns : forall (m : gmap string string) k,
  (exists o, m !! k = Some o /\ strip o = k) ->
  exists o, fold_left (fun mapping o => <[strip o := o]> mapping) fns m !! k = Some o
            /\ strip o = k.
Proof.
  induction fns as [|a fns IH]; intros m k H; [exact H|].
  cbn [fold_left]. apply IH.
  destruct (decide (strip a = k)) as [<-|Hne].
  - exists a. by rewrite lookup_insert_eq.
  - by rewrite lookup_insert_ne.
Qed.

Lemma header_fold_complete fns : forall (m : gmap string string) orig,
  orig ∈ fns ->
  exists o, fold_left (fun mapping o => <[strip o := o]> mapping) fns m !! strip orig
            = Some o /\ strip o = strip orig.
Proof.
  induction fns as [|a fns IH]; intros m orig Hin; [by apply elem_of_nil in Hin|].
  cbn [fold_left]. apply elem_of_cons in Hin as [->|Hin]; [|by apply IH].
  apply header_fold_keeps. exists a. by rewrite lookup_insert_eq.
Qed.

(** Property X3. The header map sends a trimmed header name to a header of
    the file that trims to it, and has an entry for every header of the
    file. *)
Theorem header_map_round_trip (fieldnames : list string) :
  (forall k orig,
     normalize_csv_headers fieldnames !! k = Some orig ->
     orig ∈ fieldnames /\ strip orig = k)
  /\ (forall orig,
        orig ∈ fieldnames ->
        exists o, normalize_csv_headers fieldnames !! strip orig = Some o
                  /\ o ∈ fieldnames /\ strip o = strip orig).
Proof.
  unfold normalize_csv_headers. split.
  - intros k orig H. apply header_fold_sound in H as [H|H]; [exact H|].
    by rewrite lookup_empty in H.
  - intros orig Hin. destruct (header_fold_complete fieldnames ∅ orig Hin) as (o & Ho & Hs).
    exists o. split; [exact Ho|]. split; [|exact Hs].
    apply header_fold_sound in Ho as [[? _]|Ho]; [done|by rewrite lookup_empty in Ho].
Qed.

(** *** The closed sets of statuses and archive reasons *)

Ltac in_list := apply list_elem_of_In; cbn; tauto.

Lemma mem_elem_of s l : mem s l = true -> s ∈ l.
Proof.
  unfold mem. intros H. apply existsb_exists in H as (x & Hin & Heq).
  apply String.eqb_eq in Heq as <-. by apply list_elem_of_In.
Qed.

Lemma status_mapping_allowed k v : status_mapping !! k = Some v -> v ∈ allowed_status.
Proof.
  intros H.
  assert (Hall : map_Forall (fun _ v => v ∈ allowed_status) status_mapping).
  { apply (bool_decide_unpack _). vm_compute. exact I. }
  exact (Hall k v H).
Qed.

Lemma coerce_request_status_allowed raw v :
  coerce_request_status raw = Some v -> v ∈ allowed_status.
Proof.
  unfold coerce_request_status. cbv zeta.
  destruct (negb (truthy (strip raw))); [discriminate|].
  destruct (status_mapping !! _) as [v'|] eqn:Hm.
  - intros [= <-]. eapply status_mapping_allowed, Hm.
  - destruct (mem _ allowed_status) eqn:Hmem; [|discriminate].
    intros [= <-]. by apply mem_elem_of.
Qed.

Lemma coerce_archive_reason_cases raw a :
  coerce_archive_reason raw = Some a ->
  a ∈ ["duplicate"; "denied"; "referred_elsewhere"].
Proof.
  unfold coerce_archive_reason. cbv zeta.
  repeat match goal with
         | |- context [if ?b then _ else _] => destruct b
         end; intros [= <-]; in_list.
Qed.


Lemma allowed_status_truthy st : st ∈ allowed_status -> truthy st = true.
Proof.
  unfold allowed_status. intros H.
  repeat (apply elem_of_cons in H as [->|H]; [reflexivity|]).
  by apply elem_of_nil in H.
Qed.

#[local] Opaque get_field.

(** The status and the archive reason [main] works out for a row, in
    terms of the two coercions of its status text. *)
Lemma read_request_status rid hm c r s v s' :
  read_request rid hm c r s = (v, s') ->
  let raw := get_field r hm ["Case Status"; "Status"; "status"] in
  if truthy (get_field r hm merge_target_keys)
  then v_status v = Some "closed" /\ v_archive_reason v = Some "duplicate"
  else
    v_archive_reason v = coerce_archive_reason raw
    /\ v_status v
       = match coerce_request_status raw, coerce_archive_reason raw with
         | Some st, _ => Some st
         | None, Some a =>
             if String.eqb a "referred_elsewhere" then Some "resolved" else Some "closed"
         | None, None => None
         end
    /\ (truthy raw = true -> v_status v = None ->
        WarnUnmappedStatus raw c ∈ stdout s').
Proof.
  unfold read_request, resolve_merge_target, or_none. cbv zeta.
  set (raw := get_field r hm ["Case Status"; "Status"; "status"]).
  destruct (truthy (get_field r hm merge_target_keys)) eqn:Ht.
  - destruct (rid !! _);
      [|destruct (truthy_opt (lookup_case_number_by_source_record_id _ _))].
    all: cbv beta iota.
    all: rewrite truthy_closed, truthy_duplicate; cbn [negb andb].
    all: intros [= <- <-]; by split.
  - cbv beta iota.
    pose proof (coerce_request_status_allowed raw) as Hst.
    pose proof (coerce_archive_reason_cases raw) as Har.
    destruct (coerce_request_status raw) as [st|];
      destruct (coerce_archive_reason raw) as [a|].
    1,2: cbn [truthy_opt]; rewrite (allowed_status_truthy st (Hst st eq_refl)).
    1,2: cbn [negb]; rewrite ?andb_false_r; cbn [truthy_opt].
    1,2: rewrite (allowed_status_truthy st (Hst st eq_refl)); cbn [negb];
         rewrite andb_false_r.
    1,2: intros [= <- <-]; cbn [v_status v_archive_reason];
         repeat split; intros; discriminate.
    + specialize (Har a eq_refl).
      repeat (apply elem_of_cons in Har as [->|Har]); [..|by apply elem_of_nil in Har].
      all: cbn [truthy_opt truthy String.eqb Ascii.eqb Bool.eqb negb andb mem existsb orb].
      all: rewrite andb_false_r.
      all: intros [= <- <-]; cbn [v_status v_archive_reason];
           repeat split; intros; discriminate.
    + cbn [truthy_opt negb andb]. rewrite andb_true_r.
      destruct (truthy raw) eqn:Hraw.
      all: intros [= <- <-]; cbn [v_status v_archive_reason].
      all: repeat split; try discriminate.
      intros _ _.
      match goal with
      | |- context [if ?x then print ?m ?s else ?s] => destruct x
      end; repeat first [apply elem_of_print | apply elem_of_print_later].
Qed.

(** Property X4. Whatever the row says, the status [main] hands to
    [upsert_request] is a value of the [request_status] enum or [None], and
    the archive reason is one of the three reasons or [None]. *)
Theorem status_and_reason_stay_in_their_enums rid hm c r s v s' :
  read_request rid hm c r s = (v, s') ->
  (forall st, v_status v = Some st -> st ∈ allowed_status)
  /\ (forall a, v_archive_reason v = Some a ->
                a ∈ ["duplicate"; "denied"; "referred_elsewhere"]).
Proof.
  intros H. apply read_request_status in H. cbv zeta in H.
  destruct (truthy (get_field r hm merge_target_keys)).
  - destruct H as [-> ->]. split; intros ? [= <-]; in_list.
  - destruct H as (-> & -> & _).
    set (raw := get_field r hm ["Case Status"; "Status"; "status"]).
    split; [|apply coerce_archive_reason_cases].
    pose proof (coerce_request_status_allowed raw) as Hst.
    destruct (coerce_request_status raw) as [st|]; [exact Hst|].
    destruct (coerce_archive_reason raw) as [a|]; [|discriminate].
    destruct (String.eqb a "referred_elsewhere"); intros ? [= <-]; in_list.
Qed.

Lemma strip_empty_lower raw : strip raw = "" -> lower (strip raw) = "".
Proof. by intros ->. Qed.

(** The two coercions of one status text agree: where the text names
    an archive reason, the status it maps to, if any, is the terminal
    status of that reason. *)
Lemma archive_reason_status raw a :
  coerce_archive_reason raw = Some a ->
  coerce_request_status raw = None
  \/ coerce_request_status raw
     = Some (if String.eqb a "referred_elsewhere" then "resolved" else "closed").
Proof.
  unfold coerce_archive_reason, coerce_request_status. cbv zeta.
  destruct (truthy (strip raw)) eqn:Hraw; cbn [negb]; [|by left].
  destruct (negb (truthy (lower (strip raw)))); [discriminate|].
  set (s0 := strip (collapse_ws (lower (strip raw)))).
  destruct (mem s0 ["duplicate request"; "duplicate"; "dup"]) eqn:H1;
    [|destruct (mem s0 ["denied"]) eqn:H2;
      [|destruct (mem s0 ["referred elsewhere"; "referred"; "refer elsewhere"]) eqn:H3;
        [|discriminate]]].
  all: intros [= <-].
  all: match goal with
       | H : mem _ _ = true |- _ => apply mem_elem_of in H
       end.
  all: repeat match goal with
         | H : _ ∈ _ :: _ |- _ => apply elem_of_cons in H as [->|H]
         | H : _ ∈ [] |- _ => by apply elem_of_nil in H
         end.
  all: vm_compute; auto.
Qed.

(** Property X5. A row that gets an archive reason is written with a
    terminal status: [resolved] for [referred_elsewhere], [closed] for
    [duplicate] and [denied], also where the status text itself maps to no
    status (as "dup" or "referred"). *)
Theorem archive_reason_implies_terminal_status rid hm c r s v s' a :
  read_request rid hm c r s = (v, s') ->
  v_archive_reason v = Some a ->
  v_status v
  = Some (if String.eqb a "referred_elsewhere" then "resolved" else "closed").
Proof.
  intros H Ha. apply read_request_status in H. cbv zeta in H.
  destruct (truthy (get_field r hm merge_target_keys)).
  - destruct H as [-> Hd]. rewrite Hd in Ha. by injection Ha as <-.
  - destruct H as (Hr & -> & _). rewrite Hr in Ha.
    destruct (archive_reason_status _ _ Ha) as [->| ->]; [|reflexivity].
    rewrite Ha. by destruct (String.eqb a "referred_elsewhere").
Qed.

Lemma lookup_case_number_sound d rid c :
  lookup_case_number_by_source_record_id d rid = Some c ->
  rid <> "" /\ exists rq, requests d !! c = Some rq /\ source_record_id rq = Some rid.
Proof.
  unfold lookup_case_number_by_source_record_id.
  destruct (truthy rid) eqn:Ht; cbn [negb]; [|discriminate].
  destruct (List.find _ _) as [[k rq]|] eqn:Hf; [|discriminate].
  intros [= <-]. apply find_some in Hf as [Hin Hrid].
  split; [by apply truthy_true|]. exists rq. split.
  - by apply elem_of_map_to_list, list_elem_of_In.
  - by apply bool_decide_eq_true in Hrid.
Qed.

(** Property X6. The lookup by source record id answers with the case number
    of a request that carries this record id, and answers [None] only for
    the empty id or when no stored request carries it. *)
Theorem lookup_case_number_finds_a_matching_request d rid :
  match lookup_case_number_by_source_record_id d rid with
  | Some c =>
      rid <> ""
      /\ exists rq, requests d !! c = Some rq /\ source_record_id rq = Some rid
  | None =>
      rid = ""
      \/ forall c rq, requests d !! c = Some rq -> source_record_id rq <> Some rid
  end.
Proof.
  destruct (lookup_case_number_by_source_record_id d rid) as [c|] eqn:H.
  - by apply lookup_case_number_sound.
  - unfold lookup_case_number_by_source_record_id in H.
    destruct (truthy rid) eqn:Ht; cbn [negb] in H; [|left; by apply truthy_false].
    right. intros c rq Hc Hrid.
    destruct (List.find _ _) as [[k x]|] eqn:Hf; [discriminate|].
    assert (Hno : bool_decide (source_record_id (snd (c, rq)) = Some rid) = false).
    { apply (find_none _ _ Hf (c, rq)). by apply list_elem_of_In, elem_of_map_to_list. }
    by apply bool_decide_eq_false in Hno.
Qed.

Section Rows.

Variable env : environment.

(** Property X7. A merge target that the file does not hold and a stored
    request carries is resolved by one database lookup, to the case number
    of such a request. *)
Theorem merge_target_resolved_from_database rid hm s r s' t c' :
  reaches_upserts hm s r ->
  get_field r hm merge_target_keys = t -> t <> "" ->
  rid !! t = None ->
  lookup_case_number_by_source_record_id (db s) t = Some c' -> c' <> "" ->
  process_row env rid hm s r = Ok s' ->
  db_lookups s' = (db_lookups s ++ [t])%list
  /\ (exists target,
        requests (db s) !! c' = Some target /\ source_record_id target = Some t)
  /\ exists rq,
       requests (db s') !! case_number_of hm r = Some rq
       /\ (has_col (table_columns env "requests") "merged_into_case_number" = true ->
           merged_into_case_number rq = Some c').
Proof.
  intros Hreach Ht Hne Hrid Hlk Hc' H.
  destruct (process_row_stored env _ _ _ _ _ Hreach H)
    as (v & s1 & rq & Hread & (_ & Hlk1 & _) & Hrq & _ & _ & Hmc & _).
  destruct (read_request_target _ _ _ _ _ _ _ _ Ht (truthy_neq _ Hne) Hread)
    as (_ & _ & _ & Hres).
  rewrite Hrid in Hres. cbn [db see] in Hres. rewrite Hlk in Hres.
  cbn [truthy_opt] in Hres. rewrite (truthy_neq _ Hc') in Hres.
  destruct Hres as [Hl Hv]. split; [by rewrite Hlk1, Hl|].
  split; [by apply lookup_case_number_sound in Hlk as [_ ?]|].
  exists rq. split; [exact Hrq|]. intros Hcol. rewrite Hmc, Hcol, Hv. cbn [opt_or_none].
  by rewrite (or_none_truthy _ (truthy_neq _ Hc')).
Qed.

(** Property X8. A status text that maps to no status and names no archive
    reason is reported, and the row is written all the same: the request
    keeps the status it had, [NULL] if it is new. *)
Theorem unmapped_status_is_reported rid hm s r s' raw :
  reaches_upserts hm s r ->
  get_field r hm merge_target_keys = "" ->
  get_field r hm ["Case Status"; "Status"; "status"] = raw -> raw <> "" ->
  coerce_request_status raw = None -> coerce_archive_reason raw = None ->
  process_row env rid hm s r = Ok s' ->
  WarnUnmappedStatus raw (case_number_of hm r) ∈ stdout s'
  /\ exists rq,
       requests (db s') !! case_number_of hm r = Some rq
       /\ status rq = requests (db s) !! case_number_of hm r ≫= status.
Proof.
  intros Hreach Ht Hraw Hne Hst Har H.
  destruct (process_row_stored env _ _ _ _ _ Hreach H)
    as (v & s1 & rq & Hread & (Hout & _ & _) & Hrq & Hstatus & _).
  apply read_request_status in Hread. cbv zeta in Hread.
  rewrite Ht, Hraw, Hst, Har in Hread. cbn [truthy String.eqb negb] in Hread.
  destruct Hread as (_ & Hv & Hwarn). split.
  - rewrite Hout. apply Hwarn; [by apply truthy_neq|exact Hv].
  - exists rq. split; [exact Hrq|]. by rewrite Hstatus, Hv.
Qed.

End Rows.

(** *** The counters of a run *)

Section Measure.

Variable env : environment.

(** A quantity [m] of the counters that the six insert and update
    counters of the side tables do not enter. *)
Context {A : Type} (m : Counters -> A).
Hypothesis m_addresses : forall c, m (inc_addresses_inserted c) = m c.
Hypothesis m_places : forall c, m (inc_places_inserted c) = m c.
Hypothesis m_people : forall c, m (inc_people_inserted c) = m c.
Hypothesis m_parties : forall c, m (inc_request_parties_inserted c) = m c.
Hypothesis m_notes_inserted : forall c, m (inc_notes_inserted c) = m c.
Hypothesis m_notes_updated : forall c, m (inc_notes_updated c) = m c.

Lemma count_if_measure b f s :
  (forall c, m (f c) = m c) -> m (counters (count_if b f s)) = m (counters s).
Proof. intros Hf. destruct b; [apply Hf|reflexivity]. Qed.

Lemma with_db_counters s d : counters (with_db s d) = counters s.
Proof. reflexivity. Qed.

Ltac measure :=
  repeat first [rewrite with_db_counters | rewrite count_if_measure by assumption].

Lemma write_notes_measure rq cn kind body s s' :
  (if truthy body then
     '(d, inserted, updated) ← upsert_request_note env (db s) rq cn kind body;
     Ok (count_if (negb inserted && updated) inc_notes_updated
           (count_if inserted inc_notes_inserted (with_db s d)))
   else Ok s) = Ok s' ->
  m (counters s') = m (counters s).
Proof.
  destruct (truthy body); [|by intros [= <-]].
  intros H. apply bind_Ok in H as ([[d ins] upd] & _ & H). injection H as <-.
  by measure.
Qed.

Lemma write_row_measure hm r v s s' :
  write_row env hm r v s = Ok s' ->
  exists (ins : bool) (c0 : Counters),
    m c0 = m (counters s)
    /\ m (counters s')
       = m ((if ins then inc_requests_inserted else fun c => c)
              ((if negb ins then inc_requests_updated else fun c => c) c0)).
Proof.
  unfold write_row. cbv zeta. intros H.
  apply bind_Ok in H as ([[lat lng] fmt] & _ & H).
  apply bind_Ok in H as ([[d1 a] ai] & _ & H).
  apply bind_Ok in H as ([[d2 p] pi] & _ & H).
  apply bind_Ok in H as ([[d3 q] qi] & _ & H).
  apply bind_Ok in H as ([[d4 i] ins] & _ & H).
  apply bind_Ok in H as (s5 & Hparty & H).
  match type of Hparty with
  | context [count_if ins inc_requests_inserted
               (count_if (negb ins) inc_requests_updated (with_db ?s3 d4))] =>
      exists ins, (counters s3); set (s4 := count_if ins _ _) in *;
      assert (H3 : m (counters s3) = m (counters s))
        by (by measure);
      assert (H4 : m (counters s4)
                   = m ((if ins then inc_requests_inserted else fun c => c)
                          ((if negb ins then inc_requests_updated else fun c => c)
                             (counters s3))))
        by (subst s4; by destruct ins)
  end.
  split; [exact H3|]. rewrite <- H4. clearbody s4. clear H3 H4.
  assert (H5 : m (counters s5) = m (counters s4)).
  { destruct i as [rq|], q as [ps|]; try (by injection Hparty as <-).
    apply bind_Ok in Hparty as ([d5 linked] & _ & Hparty).
    injection Hparty as <-. by measure. }
  rewrite <- H5.
  destruct i as [rq|]; [|by injection H as <-].
  apply bind_Ok in H as (s6 & Hn1 & Hn2).
  apply write_notes_measure in Hn1, Hn2. congruence.
Qed.

End Measure.

Lemma read_request_counters rid hm c r s v s' :
  read_request rid hm c r s = (v, s') ->
  let k := if truthy (get_field r hm merge_target_keys) then 1 else 0 in
  skipped_blank_rows (counters s') = skipped_blank_rows (counters s)
  /\ skipped_missing_case_number (counters s')
     = skipped_missing_case_number (counters s)
  /\ skipped_dupe_case_in_file (counters s') = skipped_dupe_case_in_file (counters s)
  /\ requests_inserted (counters s') = requests_inserted (counters s)
  /\ requests_updated (counters s') = requests_updated (counters s)
  /\ merged_links_set (counters s') = merged_links_set (counters s) + k
  /\ merged_case_resolved (counters s') + merged_case_unresolved (counters s')
     = merged_case_resolved (counters s) + merged_case_unresolved (counters s) + k.
Proof.
  unfold read_request, resolve_merge_target, or_none. cbv zeta.
  destruct (truthy (get_field r hm merge_target_keys)).
  all: repeat match goal with
         | |- context [match ?x with _ => _ end] =>
             lazymatch x with
             | context [match _ with _ => _ end] => fail
             | _ => destruct x
             end
         end.
  all: intros [= <- <-]; cbn; destruct (counters s); cbn; repeat split; lia.
Qed.

Section Tally.

Variable env : environment.

Ltac by_cases_of_counters := intros []; reflexivity.

(** One row moves exactly one of the counters that say what became of
    a row. *)
Lemma process_row_counts_the_row rid hm s r s' :
  process_row env rid hm s r = Ok s' ->
  skipped_blank_rows (counters s') + skipped_missing_case_number (counters s')
  + skipped_dupe_case_in_file (counters s')
  + requests_inserted (counters s') + requests_updated (counters s')
  = S (skipped_blank_rows (counters s) + skipped_missing_case_number (counters s)
       + skipped_dupe_case_in_file (counters s)
       + requests_inserted (counters s) + requests_updated (counters s)).
Proof.
  unfold process_row.
  destruct (is_blank_row r);
    [intros [= <-]; cbn; destruct (counters s); cbn; lia|].
  destruct (truthy (get_field r hm case_number_keys)); cbn [negb];
    [|intros [= <-]; cbn; destruct (counters s); cbn; lia].
  case_bool_decide as Hseen; [intros [= <-]; cbn; destruct (counters s); cbn; lia|].
  destruct (read_request _ _ _ _ _) as [v s1] eqn:Hread.
  apply read_request_counters in Hread as (H1 & H2 & H3 & H4 & H5 & _).
  cbn [counters see] in *. intros H.
  apply (write_row_measure env
           (fun c => skipped_blank_rows c + skipped_missing_case_number c
                     + skipped_dupe_case_in_file c
                     + requests_inserted c + requests_updated c))
    in H as (ins & c0 & H0 & H); try by_cases_of_counters.
  rewrite H, <- H1, <- H2, <- H3, <- H4, <- H5, <- H0.
  destruct ins, c0; cbn; lia.
Qed.

Lemma process_rows_count_the_rows rid hm rs : forall s s',
  process_rows env rid hm s rs = Ok s' ->
  skipped_blank_rows (counters s') + skipped_missing_case_number (counters s')
  + skipped_dupe_case_in_file (counters s')
  + requests_inserted (counters s') + requests_updated (counters s')
  = skipped_blank_rows (counters s) + skipped_missing_case_number (counters s)
    + skipped_dupe_case_in_file (counters s)
    + requests_inserted (counters s) + requests_updated (counters s)
    + length rs.
Proof.
  induction rs as [|r rs IH]; intros s s' H.
  - injection H as <-. cbn [length]. lia.
  - cbn [process_rows] in H. apply bind_Ok in H as (s1 & Hrow & Hrest).
    apply IH in Hrest. apply process_row_counts_the_row in Hrow.
    cbn [length]. lia.
Qed.

(** Property X9. The summary of a committed run adds up: every row of the
    file is counted once, as blank, as lacking a case number, as a repeated
    case number, or as a request inserted or updated. *)
Theorem every_row_is_counted_once f d s :
  main env f d = Committed s ->
  skipped_blank_rows (counters s) + skipped_missing_case_number (counters s)
  + skipped_dupe_case_in_file (counters s)
  + requests_inserted (counters s) + requests_updated (counters s)
  = length (rows f).
Proof.
  unfold main. destruct (fieldnames f); [discriminate|].
  destruct (process_rows _ _ _ _ _) as [s1|] eqn:H; [|discriminate].
  intros [= <-]. by apply process_rows_count_the_rows in H.
Qed.

Lemma process_row_merge_counters rid hm s r s' :
  process_row env rid hm s r = Ok s' ->
  merged_links_set (counters s)
  = merged_case_resolved (counters s) + merged_case_unresolved (counters s) ->
  merged_links_set (counters s')
  = merged_case_resolved (counters s') + merged_case_unresolved (counters s').
Proof.
  unfold process_row.
  destruct (is_blank_row r);
    [intros [= <-]; cbn; destruct (counters s); cbn; lia|].
  destruct (truthy (get_field r hm case_number_keys)); cbn [negb];
    [|intros [= <-]; cbn; destruct (counters s); cbn; lia].
  case_bool_decide as Hseen; [intros [= <-]; cbn; destruct (counters s); cbn; lia|].
  destruct (read_request _ _ _ _ _) as [v s1] eqn:Hread.
  apply read_request_counters in Hread as (_ & _ & _ & _ & _ & H1 & H2).
  cbn [counters see] in *. intros H Hinv.
  apply (write_row_measure env
           (fun c => (merged_links_set c,
                      merged_case_resolved c + merged_case_unresolved c)))
    in H as (ins & c0 & H0 & H); try by_cases_of_counters.
  assert (Hs' : (merged_links_set (counters s'),
                 merged_case_resolved (counters s')
                 + merged_case_unresolved (counters s'))
                = (merged_links_set (counters s1),
                   merged_case_resolved (counters s1)
                   + merged_case_unresolved (counters s1))).
  { rewrite H, <- H0. by destruct ins, c0. }
  injection Hs' as -> ->. lia.
Qed.

Lemma process_rows_merge_counters rid hm rs : forall s s',
  process_rows env rid hm s rs = Ok s' ->
  merged_links_set (counters s)
  = merged_case_resolved (counters s) + merged_case_unresolved (counters s) ->
  merged_links_set (counters s')
  = merged_case_resolved (counters s') + merged_case_unresolved (counters s').
Proof.
  induction rs as [|r rs IH]; intros s s' H Hinv.
  - by injection H as <-.
  - cbn [process_rows] in H. apply bind_Ok in H as (s1 & Hrow & Hrest).
    eapply IH; [exact Hrest|]. eapply process_row_merge_counters; eassumption.
Qed.

(** Property X10. Every row that names a merge target is counted as resolved
    or as unresolved, never as both or neither. *)
Theorem merge_links_are_resolved_or_unresolved f d s :
  main env f d = Committed s ->
  merged_links_set (counters s)
  = merged_case_resolved (counters s) + merged_case_unresolved (counters s).
Proof.
  unfold main. destruct (fieldnames f); [discriminate|].
  destruct (process_rows _ _ _ _ _) as [s1|] eqn:H; [|discriminate].
  intros [= <-]. by apply process_rows_merge_counters in H.
Qed.

End Tally.

Section Growth.

Variable env : environment.

Lemma process_row_distinct rid hm s r s' :
  process_row env rid hm s r = Ok s' ->
  requests_inserted (counters s) + requests_updated (counters s)
  = size (seen_case_numbers s) ->
  requests_inserted (counters s') + requests_updated (counters s')
  = size (seen_case_numbers s').
Proof.
  unfold process_row.
  destruct (is_blank_row r);
    [intros [= <-]; cbn; destruct (counters s); cbn; lia|].
  destruct (truthy (get_field r hm case_number_keys)); cbn [negb];
    [|intros [= <-]; cbn; destruct (counters s); cbn; lia].
  case_bool_decide as Hseen; [intros [= <-]; cbn; destruct (counters s); cbn; lia|].
  destruct (read_request _ _ _ _ _) as [v s1] eqn:Hread.
  destruct (read_request_frame _ _ _ _ _ _ _ Hread) as (_ & Hs1 & _).
  apply read_request_counters in Hread as (_ & _ & _ & H4 & H5 & _).
  cbn [counters see seen_case_numbers] in *. intros H Hinv.
  pose proof H as Hw.
  apply write_row_requests in Hw as (? & ? & ? & ? & ? & ? & _ & _ & _ & (_ & _ & Hs')).
  apply (write_row_measure env (fun c => requests_inserted c + requests_updated c))
    in H as (ins & c0 & H0 & H); try (intros []; reflexivity).
  rewrite Hs', Hs1, size_union by (by apply disjoint_singleton_l).
  rewrite size_singleton.
  rewrite H, <- Hinv, <- H4, <- H5, <- H0. destruct ins, c0; cbn; lia.
Qed.

Lemma process_rows_distinct rid hm rs : forall s s',
  process_rows env rid hm s rs = Ok s' ->
  requests_inserted (counters s) + requests_updated (counters s)
  = size (seen_case_numbers s) ->
  requests_inserted (counters s') + requests_updated (counters s')
  = size (seen_case_numbers s').
Proof.
  induction rs as [|r rs IH]; intros s s' H Hinv.
  - by injection H as <-.
  - cbn [process_rows] in H. apply bind_Ok in H as (s1 & Hrow & Hrest).
    eapply IH; [exact Hrest|]. eapply process_row_distinct; eassumption.
Qed.

(** Property X11. A committed run has written one request for each distinct
    case number of the file: the requests inserted and updated are as many
    as the case numbers seen, and those are the case numbers of the rows
    that have one. *)
Theorem one_request_per_distinct_case_number f d s :
  main env f d = Committed s ->
  requests_inserted (counters s) + requests_updated (counters s)
  = size (seen_case_numbers s)
  /\ forall c,
       c ∈ seen_case_numbers s
       <-> exists r, r ∈ rows f
                     /\ has_case_number (normalize_csv_headers (fieldnames f)) r
                     /\ c = case_number_of (normalize_csv_headers (fieldnames f)) r.
Proof.
  unfold main. destruct (fieldnames f) as [|h hs] eqn:Hf; [discriminate|].
  destruct (process_rows _ _ _ _ _) as [s1|] eqn:H; [|discriminate].
  intros [= <-]. split.
  - by apply process_rows_distinct in H.
  - intros c. rewrite (process_rows_seen env _ _ _ _ _ H c). cbn [start seen_case_numbers].
    split; [intros [Hc|Hc]; [by apply not_elem_of_empty in Hc|exact Hc]|by right].
Qed.

End Growth.

(** *** Rows are added and updated, never removed *)

Section Kept.
Import Invariants.

Variable env : environment.

Lemma keeps_rows_refl d : keeps_rows d d.
Proof. unfold keeps_rows. repeat split; eauto. Qed.

Lemma keeps_rows_trans d1 d2 d3 :
  keeps_rows d1 d2 -> keeps_rows d2 d3 -> keeps_rows d1 d3.
Proof.
  intros (Ha & Hp & Hq & Hr & Hl & Hn) (Ha' & Hp' & Hq' & Hr' & Hl' & Hn').
  unfold keeps_rows. repeat split.
  - intros k x Hk. destruct (Ha k x Hk) as (y & Hy & Hid).
    destruct (Ha' k y Hy) as (z & Hz & Hid'). exists z. split; [done|congruence].
  - intros k x Hk. destruct (Hp k x Hk) as (y & Hy & Hid).
    destruct (Hp' k y Hy) as (z & Hz & Hid'). exists z. split; [done|congruence].
  - intros k x Hk. destruct (Hq k x Hk) as (y & Hy & Hid).
    destruct (Hq' k y Hy) as (z & Hz & Hid'). exists z. split; [done|congruence].
  - intros k x Hk. destruct (Hr k x Hk) as (y & Hy & Hid).
    destruct (Hr' k y Hy) as (z & Hz & Hid'). exists z. split; [done|congruence].
  - by transitivity (request_parties d2).
  - intros k x Hk. destruct (Hn k x Hk) as (y & Hy & Hid & Hc).
    destruct (Hn' k y Hy) as (z & Hz & Hid' & Hc'). exists z.
    split; [done|]. split; congruence.
Qed.

Ltac kept :=
  lazymatch goal with
  | |- _ ⊆ _ => first [reflexivity | apply union_subseteq_r]
  | |- forall k x, _ -> _ =>
      let k := fresh "k" in
      let x := fresh "x" in
      let Hk := fresh "Hk" in
      intros k x Hk;
      first
        [ by eauto
        | lazymatch goal with
          | |- context [<[?key := _]> _ !! k] =>
              destruct (decide (k = key)) as [->|];
              [ rewrite lookup_insert_eq; eexists; split; [reflexivity|];
                cbn; repeat split; congruence
              | rewrite lookup_insert_ne by done; eauto ]
          end ]
  end.

Ltac keeps :=
  first
    [ apply keeps_rows_refl
    | unfold keeps_rows;
      cbn [addresses places people requests request_parties request_notes
           with_addresses with_places with_people with_requests
           with_request_parties with_request_notes];
      repeat split; kept ].

Lemma upsert_address_keeps d a lat lng f d' i b :
  upsert_address env d a lat lng f = Ok (d', i, b) -> keeps_rows d d'.
Proof. unfold upsert_address, fresh_id. cbv zeta. intros H. walk H; keeps. Qed.

Lemma upsert_place_keeps d a n r d' i b :
  upsert_place env d a n r = Ok (d', i, b) -> keeps_rows d d'.
Proof. unfold upsert_place, fresh_id. cbv zeta. intros H. walk H; keeps. Qed.

Lemma upsert_person_keeps d a n r p d' i b :
  upsert_person env d a n r p = Ok (d', i, b) -> keeps_rows d d'.
Proof. unfold upsert_person, fresh_id. cbv zeta. intros H. walk H; keeps. Qed.

Lemma upsert_request_keeps d c srid pl pe st pr prl nt ar mc mr d' i ins :
  upsert_request env d c srid pl pe st pr prl nt ar mc mr = Ok (d', i, ins) ->
  keeps_rows d d'.
Proof. unfold upsert_request, fresh_id. cbv zeta. intros H. walk H; keeps. Qed.

Lemma upsert_request_party_keeps d a n r d' b :
  upsert_request_party env d a n r = Ok (d', b) -> keeps_rows d d'.
Proof. unfold upsert_request_party. cbv zeta. intros H. walk H; keeps. Qed.

Lemma upsert_request_note_keeps d a c k body d' b b' :
  upsert_request_note env d a c k body = Ok (d', b, b') -> keeps_rows d d'.
Proof. unfold upsert_request_note. cbv zeta. intros H. walk H; keeps. Qed.

Lemma write_notes_keeps rq cn kind body s s' :
  (if truthy body then
     '(d, inserted, updated) ← upsert_request_note env (db s) rq cn kind body;
     Ok (count_if (negb inserted && updated) inc_notes_updated
           (count_if inserted inc_notes_inserted (with_db s d)))
   else Ok s) = Ok s' ->
  keeps_rows (db s) (db s').
Proof.
  destruct (truthy body); [|intros [= <-]; apply keeps_rows_refl].
  intros H. apply bind_Ok in H as ([[d ins] upd] & Hn & H). injection H as <-.
  rewrite !count_if_db, with_db_db. eapply upsert_request_note_keeps, Hn.
Qed.

Lemma write_row_keeps hm r v s s' :
  write_row env hm r v s = Ok s' -> keeps_rows (db s) (db s').
Proof.
  unfold write_row. cbv zeta. intros H.
  apply bind_Ok in H as ([[lat lng] fmt] & _ & H).
  apply bind_Ok in H as ([[d1 a] ai] & Ha & H).
  apply bind_Ok in H as ([[d2 p] pi] & Hp & H).
  apply bind_Ok in H as ([[d3 q] qi] & Hq & H).
  apply bind_Ok in H as ([[d4 i] ins] & Hr & H).
  apply bind_Ok in H as (s5 & Hparty & H).
  rewrite !count_if_db, !with_db_db in *.
  apply upsert_address_keeps in Ha. apply upsert_place_keeps in Hp.
  apply upsert_person_keeps in Hq. apply upsert_request_keeps in Hr.
  assert (H4 : keeps_rows (db s) d4) by eauto using keeps_rows_trans.
  set (s4 := count_if ins _ _) in *.
  assert (Hs4 : db s4 = d4) by (subst s4; by rewrite !count_if_db, with_db_db).
  clearbody s4.
  assert (H5 : keeps_rows (db s) (db s5)).
  { destruct i as [rq|], q as [ps|]; try (injection Hparty as <-; by rewrite Hs4).
    apply bind_Ok in Hparty as ([d5 linked] & Hl & Hparty).
    injection Hparty as <-. rewrite count_if_db, with_db_db.
    apply upsert_request_party_keeps in Hl. rewrite ?Hs4 in Hl.
    eauto using keeps_rows_trans. }
  destruct i as [rq|]; [|by injection H as <-].
  apply bind_Ok in H as (s6 & Hn1 & Hn2).
  apply write_notes_keeps in Hn1, Hn2. eauto using keeps_rows_trans.
Qed.

Lemma process_row_keeps rid hm s r s' :
  process_row env rid hm s r = Ok s' -> keeps_rows (db s) (db s').
Proof.
  unfold process_row.
  destruct (is_blank_row r); [intros [= <-]; apply keeps_rows_refl|].
  destruct (truthy (get_field r hm case_number_keys)); cbn [negb];
    [|intros [= <-]; apply keeps_rows_refl].
  case_bool_decide as Hseen; [intros [= <-]; apply keeps_rows_refl|].
  destruct (read_request _ _ _ _ _) as [v s1] eqn:Hread.
  destruct (read_request_frame _ _ _ _ _ _ _ Hread) as (Hdb & _ & _).
  intros H. apply write_row_keeps in H. by rewrite Hdb in H.
Qed.

Lemma process_rows_keep rid hm rs : forall s s',
  process_rows env rid hm s rs = Ok s' -> keeps_rows (db s) (db s').
Proof.
  induction rs as [|r rs IH]; intros s s' H.
  - injection H as <-. apply keeps_rows_refl.
  - cbn [process_rows] in H. apply bind_Ok in H as (s1 & Hrow & Hrest).
    eapply keeps_rows_trans; [eapply process_row_keeps, Hrow|by apply IH].
Qed.

(** Property X12. The import only adds and updates. However a run ends, the
    database it leaves holds every address, place, person, request and note
    that was there, under the same key and with the same id, and every link
    between a request and a person. *)
Theorem run_keeps_every_row f d :
  match main env f d with
  | Exit2 => True
  | Aborted _ d' => d' = d
  | Committed s => keeps_rows d (db s)
  end.
Proof.
  unfold main. destruct (fieldnames f); [exact I|].
  destruct (process_rows _ _ _ _ _) as [s1|] eqn:H; [|reflexivity].
  by apply process_rows_keep in H.
Qed.

End Kept.

(** *** Writing the same values again *)

Lemma coalesce_again {A} (x y : option A) : coalesce x (coalesce x y) = coalesce x y.
Proof. by destruct x. Qed.

Lemma upsert_request_checked env d c srid pl pe st pr prl nt ar mc mr x :
  upsert_request env d c srid pl pe st pr prl nt ar mc mr = Ok x ->
  columns_exist (table_columns env "requests")
    ["case_number"; "source_record_id"; "primary_place_id";
     "primary_contact_person_id"; "status"; "priority"; "priority_label"; "notes"]
  && (negb (has_col (table_columns env "requests") "archived_at")
      || has_col (table_columns env "requests") "archive_reason") = true.
Proof.
  unfold upsert_request. cbv zeta. intros H. head_case H; [discriminate|].
  by apply negb_false_iff.
Qed.

(** [upsert_request] on a case number that is stored: the row is
    replaced, nothing is inserted, the id is the stored one. *)
Lemma upsert_request_stored env d c srid pl pe st pr prl nt ar mc mr old d' i ins :
  requests d !! c = Some old ->
  upsert_request env d c srid pl pe st pr prl nt ar mc mr = Ok (d', i, ins) ->
  exists rq,
    d' = with_requests d (<[c := rq]> (requests d))
    /\ request_id rq = request_id old /\ i = Some (request_id old) /\ ins = false.
Proof.
  intros Hold. unfold upsert_request. cbv zeta. rewrite Hold.
  intros H. head_case H; [discriminate|]. leaf H. eexists. by repeat split.
Qed.

Section Again.

Variable env : environment.

(** Property X13. Writing a request a second time with the same values
    changes nothing, also in a later run (another [now]) on the same schema:
    the database is the one the first write left, and the call reports the
    same id and no insertion. *)
Theorem upsert_request_is_idempotent env' d c srid pl pe st pr prl nt ar mc mr d1 i ins :
  table_columns env' "requests" = table_columns env "requests" ->
  upsert_request env d c srid pl pe st pr prl nt ar mc mr = Ok (d1, i, ins) ->
  upsert_request env' d1 c srid pl pe st pr prl nt ar mc mr = Ok (d1, i, false).
Proof.
  intros Hcols H1.
  pose proof (upsert_request_checked _ _ _ _ _ _ _ _ _ _ _ _ _ _ H1) as Hcheck.
  pose proof (upsert_request_spec env _ _ _ _ _ _ _ _ _ _ _ _ _ _ _ H1) as Hspec1.
  cbv zeta in Hspec1.
  destruct Hspec1 as (rq1 & Hd1 & Hi & F1 & F2 & F3 & F4 & F5 & F6 & F7 & F8 & F9 & F10 & F11).
  assert (Hrq1 : requests d1 !! c = Some rq1) by (by rewrite Hd1, lookup_insert_eq).
  rewrite <- Hcols in Hcheck.
  destruct (upsert_request_returns env' d1 c srid pl pe st pr prl nt ar mc mr Hcheck)
    as (i2 & ins2 & d2 & H2).
  rewrite H2.
  destruct (upsert_request_stored _ _ _ _ _ _ _ _ _ _ _ _ _ _ _ _ _ Hrq1 H2)
    as (rq2 & Hd2 & Hid & Hi2 & ->).
  pose proof (upsert_request_spec env' _ _ _ _ _ _ _ _ _ _ _ _ _ _ _ H2) as Hspec2.
  cbv zeta in Hspec2.
  destruct Hspec2 as (rq & Hrq & _ & G1 & G2 & G3 & G4 & G5 & G6 & G7 & G8 & G9 & G10 & G11).
  assert (rq = rq2) as ->.
  { assert (Hl : requests d2 !! c = Some rq) by (by rewrite Hrq, lookup_insert_eq).
    rewrite Hd2 in Hl. cbn [requests with_requests] in Hl.
    rewrite lookup_insert_eq in Hl. by injection Hl. }
  rewrite Hrq1 in G1, G2, G3, G4, G5, G6, G7, G8, G9, G10, G11.
  cbn [mbind option_bind] in G1, G2, G3, G4, G5, G6, G7, G8, G9, G10, G11.
  rewrite Hcols in G8, G9, G10, G11.
  assert (rq2 = rq1) as ->.
  { destruct rq2, rq1. cbn in *. subst.
    rewrite !coalesce_again.
    repeat match goal with
           | |- context [has_col ?cs ?n] => destruct (has_col cs n)
           end; rewrite ?coalesce_again; try reflexivity.
    all: destruct (requests d !! c ≫= archived_at), (truthy_opt ar); reflexivity. }
  rewrite Hi, Hi2. f_equal. f_equal. f_equal. rewrite Hd2, Hd1, insert_insert_eq.
  rewrite <- Hd1. by destruct d1.
Qed.



End Again.

(** *** Phone numbers *)

Lemma delete_class_kept p s :
  List.Forall (fun a => p a = false) (chars s) -> delete_class p s = s.
Proof.
  intros H. unfold delete_class.
  rewrite <- (text_chars s) at 2. f_equal.
  induction (chars s) as [|a l IH]; [reflexivity|].
  apply List.Forall_cons_iff in H as [Ha Hl]. cbn [List.filter]. rewrite Ha. cbn [negb].
  by rewrite IH.
Qed.

Lemma delete_class_clean p s :
  List.Forall (fun a => p a = false) (chars (delete_class p s)).
Proof.
  apply List.Forall_forall. intros a Ha. by apply chars_delete_class in Ha.
Qed.

(** The two ways [normalize_phone] ends. *)
Lemma normalize_phone_cases s :
  (exists rest,
     delete_class (fun a => negb (is_digit a)) s = String "1" rest
     /\ String.length rest = 10%nat /\ normalize_phone s = rest)
  \/ ((forall rest,
         delete_class (fun a => negb (is_digit a)) s = String "1" rest ->
         String.length rest <> 10%nat)
      /\ normalize_phone s = delete_class (fun a => negb (is_digit a)) s).
Proof.
  unfold normalize_phone. cbv zeta.
  destruct (delete_class (fun a => negb (is_digit a)) s) as [|a rest];
    [right; by split|].
  destruct (ascii_dec a "1") as [->|Hne].
  - cbn [String.length]. destruct (String.length rest =? 10)%nat eqn:Hlen.
    + left. exists rest. apply Nat.eqb_eq in Hlen. by rewrite Hlen.
    + right. apply Nat.eqb_neq in Hlen. split.
      * by intros ? [= <-].
      * assert (Hl : (S (String.length rest) =? 11)%nat = false)
          by (apply Nat.eqb_neq; lia).
        by rewrite Hl.
  - right. split; [intros ? [= ? ?]; done|].
    destruct a as [[] [] [] [] [] [] [] []]; try reflexivity. by destruct Hne.
Qed.

(** Property X15. [normalize_phone] keeps digits only, and what it returns
    is in normal form: normalizing it again changes nothing. Eleven digits
    that start with 1 lose the 1. *)
Theorem normalize_phone_is_digits_and_idempotent s :
  List.Forall (fun a => is_digit a = true) (chars (normalize_phone s))
  /\ normalize_phone (normalize_phone s) = normalize_phone s
  /\ (forall rest,
        delete_class (fun a => negb (is_digit a)) s = String "1" rest ->
        String.length rest = 10%nat ->
        normalize_phone s = rest).
Proof.
  pose proof (delete_class_clean (fun a => negb (is_digit a)) s) as Hclean.
  assert (Hout : List.Forall (fun a => negb (is_digit a) = false)
                   (chars (normalize_phone s))).
  { destruct (normalize_phone_cases s) as [(rest & Hd & _ & ->)|[_ ->]]; [|exact Hclean].
    rewrite Hd in Hclean. unfold chars in *. cbn [list_ascii_of_string] in Hclean.
    by apply List.Forall_cons_iff in Hclean as [_ ?]. }
  split; [|split].
  - eapply List.Forall_impl; [|exact Hout]. intros a Ha. by apply negb_false_iff in Ha.
  - pose proof (delete_class_kept _ _ Hout) as Hkept.
    destruct (normalize_phone_cases (normalize_phone s))
      as [(rest' & Hd' & Hlen' & _)|[_ ->]]; [|exact Hkept].
    exfalso. rewrite Hkept in Hd'.
    destruct (normalize_phone_cases s) as [(rest & _ & Hlen & Hn)|[Hno Hn]].
    + rewrite Hn in Hd'. rewrite Hd' in Hlen. cbn [String.length] in Hlen. lia.
    + rewrite Hn in Hd'. by apply (Hno rest').
  - intros rest Hd Hlen.
    destruct (normalize_phone_cases s) as [(rest' & Hd' & _ & ->)|[Hno _]].
    + rewrite Hd in Hd'. by injection Hd'.
    + by destruct (Hno rest Hd).
Qed.

End TrappingMore.

(** ** More of the match candidates *)

Module PeopleMatchMore.
Import PyStr PeopleMatch PeopleMatchFacts PeopleMatchMain.
Local Open Scope Q_scope.

Lemma round3_1 : round3 1 == 1.
Proof. reflexivity. Qed.

Lemma round3_098 : round3 0.98 == 0.98.
Proof. reflexivity. Qed.

Lemma existsb_mem x l : In x l -> existsb (String.eqb x) l = true.
Proof.
  intros H. apply existsb_exists. exists x. split; [exact H|apply String.eqb_refl].
Qed.

Lemma calculate_match_flags s p c :
  calculate_match s p = Some c ->
  phone_match (evidence c)
  = existsb (String.eqb "phone_normalized") (fst (match_signals s p))
  /\ email_match (evidence c)
     = existsb (String.eqb "email") (fst (match_signals s p)).
Proof.
  unfold calculate_match. destruct (match_signals s p) as [m q].
  destruct (bool_decide (m = []) || negb (Qle_bool 0.40 q)); [discriminate|].
  intros [= <-]. split; reflexivity.
Qed.

(** The signals of a pair with an exact phone match. *)
Lemma exact_phone_signals s p :
  exact_phone s p = true ->
  snd (match_signals s p) = 1 /\ In "phone_normalized"%string (fst (match_signals s p)).
Proof.
  intros Hp. unfold match_signals. cbv zeta. rewrite Hp.
  pose proof (name_similarity_bounds (display_name s) (person_display_name p)) as [H0 H1].
  destruct (exact_email s p);
    destruct (Qle_bool 0.7 (name_similarity (display_name s) (person_display_name p)));
    try destruct (area_code s p); cbv beta iota; cbn [fst snd app].
  all: split; [|cbn; tauto].
  all: change (PeopleMatch.Qmax 0 1) with 1; try change (PeopleMatch.Qmax 1 0.98) with 1.
  all: try reflexivity.
  all: match goal with
       | |- PeopleMatch.Qmax 1 ?b = 1 =>
           destruct (Qmax_cases 1 b) as [[_ ->]|[Hlt _]]; [reflexivity|lra]
       end.
Qed.

(** Property X16. An exact match of the normalized phones, of ten digits or
    more, gives a candidate with confidence 1.0 in tier 0, whatever the
    names and the emails are. *)
Theorem exact_phone_match_is_certain s p :
  exact_phone s p = true ->
  exists c,
    calculate_match s p = Some c
    /\ confidence c == 1
    /\ tier (evidence c) = 0%nat
    /\ phone_match (evidence c) = true.
Proof.
  intros Hp. destruct (exact_phone_signals s p Hp) as [Hq Hin].
  destruct (calculate_match_returns s p) as [c Hc].
  { intros Hnil. rewrite Hnil in Hin. destruct Hin. }
  exists c. split; [exact Hc|].
  pose proof Hc as Hc'. apply calculate_match_Some in Hc' as (_ & Hconf & Htier & Hm).
  rewrite Hconf, Htier, Hq. split; [reflexivity|]. split; [reflexivity|].
  apply calculate_match_flags in Hc as [-> _]. by apply existsb_mem.
Qed.

Lemma exact_email_signals s p :
  exact_phone s p = false -> exact_email s p = true ->
  snd (match_signals s p) = 0.98 /\ In "email"%string (fst (match_signals s p)).
Proof.
  intros Hp He. unfold match_signals. cbv zeta. rewrite Hp, He.
  pose proof (name_similarity_bounds (display_name s) (person_display_name p)) as [H0 H1].
  destruct (Qle_bool 0.7 (name_similarity (display_name s) (person_display_name p)));
    try destruct (area_code s p); cbv beta iota; cbn [fst snd app].
  all: split; [|cbn; tauto].
  all: change (PeopleMatch.Qmax 0 0.98) with 0.98.
  all: try reflexivity.
  all: match goal with
       | |- PeopleMatch.Qmax 0.98 ?b = 0.98 =>
           destruct (Qmax_cases 0.98 b) as [[_ ->]|[Hlt _]]; [reflexivity|lra]
       end.
Qed.

(** Property X17. An exact email match without an exact phone match gives a
    candidate with confidence 0.98 in tier 0: no name similarity raises it. *)
Theorem exact_email_match_scores_098 s p :
  exact_phone s p = false -> exact_email s p = true ->
  exists c,
    calculate_match s p = Some c
    /\ confidence c == 0.98
    /\ tier (evidence c) = 0%nat
    /\ email_match (evidence c) = true
    /\ phone_match (evidence c) = false.
Proof.
  intros Hp He. destruct (exact_email_signals s p Hp He) as [Hq Hin].
  destruct (calculate_match_returns s p) as [c Hc].
  { intros Hnil. rewrite Hnil in Hin. destruct Hin. }
  exists c. split; [exact Hc|].
  pose proof Hc as Hc'. apply calculate_match_Some in Hc' as (_ & Hconf & Htier & _).
  rewrite Hconf, Htier, Hq. split; [reflexivity|]. split; [reflexivity|].
  apply calculate_match_flags in Hc as [-> ->]. split; [by apply existsb_mem|].
  unfold match_signals. cbv zeta. rewrite Hp, He.
  destruct (Qle_bool 0.7 _); try destruct (area_code s p); reflexivity.
Qed.


(** Property X19. A pair is a candidate exactly when one of the three
    signals fires: an exact phone match, an exact email match, or a name
    similarity of 0.70 or more. The floor of 0.40 removes no pair that has a
    signal. *)
Theorem candidate_iff_a_signal s p :
  calculate_match s p = None
  <-> exact_phone s p = false /\ exact_email s p = false
      /\ name_similarity (display_name s) (person_display_name p) < 0.7.
Proof.
  split.
  - intros Hnone.
    assert (Hm : fst (match_signals s p) = []).
    { destruct (fst (match_signals s p)) eqn:Hf; [reflexivity|].
      destruct (calculate_match_returns s p) as [c Hc]; [by rewrite Hf|congruence]. }
    revert Hm. unfold match_signals. cbv zeta.
    destruct (exact_phone s p), (exact_email s p);
      destruct (Qle_bool 0.7 _) eqn:Hs; try destruct (area_code s p);
      cbv beta iota; cbn [fst app]; try discriminate.
    all: intros _; by apply Qle_bool_false in Hs.
  - intros (Hp & He & Hs). unfold calculate_match, match_signals. cbv zeta.
    rewrite Hp, He. apply Qle_bool_false in Hs. by rewrite Hs.
Qed.


(** *** The candidates kept for a source record *)

Lemma insert_by_confidence_sorted c l :
  StronglySorted outranks l -> StronglySorted outranks (insert_by_confidence c l).
Proof.
  induction 1 as [|x l Hl IH Hx]; cbn [insert_by_confidence].
  - repeat constructor.
  - destruct (Qle_bool (confidence c) (confidence x)) eqn:Hle.
    + apply Qle_bool_iff in Hle. constructor; [exact IH|].
      apply Forall_forall. intros y Hy.
      apply (proj1 (elem_of_insert_by_confidence _ _ _)) in Hy as [->|Hy]; [exact Hle|].
      rewrite Forall_forall in Hx. by apply Hx.
    + apply Qle_bool_false in Hle. constructor; [by constructor|].
      constructor; [unfold outranks; lra|].
      eapply Forall_impl; [exact Hx|]. unfold outranks. intros y Hy. lra.
Qed.

Lemma sort_by_confidence_sorted l : StronglySorted outranks (sort_by_confidence l).
Proof.
  unfold sort_by_confidence.
  assert (H : forall acc, StronglySorted outranks acc ->
                StronglySorted outranks
                  (fold_left (fun acc c => insert_by_confidence c acc) l acc)).
  { induction l as [|c l IH]; intros acc Hacc; [exact Hacc|].
    cbn [fold_left]. by apply IH, insert_by_confidence_sorted. }
  apply H. constructor.
Qed.

Lemma length_insert_by_confidence c l :
  length (insert_by_confidence c l) = S (length l).
Proof.
  induction l as [|x l IH]; [reflexivity|]. cbn [insert_by_confidence].
  destruct (Qle_bool _ _); cbn [length]; by rewrite ?IH.
Qed.

Lemma length_sort_by_confidence l : length (sort_by_confidence l) = length l.
Proof.
  unfold sort_by_confidence.
  assert (H : forall acc,
                length (fold_left (fun acc c => insert_by_confidence c acc) l acc)
                = (length l + length acc)%nat).
  { induction l as [|c l IH]; intros acc; [reflexivity|].
    cbn [fold_left length]. rewrite IH, length_insert_by_confidence. lia. }
  rewrite H. cbn [length]. lia.
Qed.

Lemma sorted_lookup (l : list MatchCandidate) :
  StronglySorted outranks l ->
  forall i j a b, l !! i = Some a -> l !! j = Some b -> (i < j)%nat -> outranks a b.
Proof.
  induction 1 as [|x l Hl IH Hx]; intros i j a b Hi Hj Hlt.
  - by rewrite lookup_nil in Hi.
  - destruct j as [|j]; [lia|]. cbn in Hj. destruct i as [|i].
    + injection Hi as <-. rewrite Forall_forall in Hx.
      apply Hx, list_elem_of_lookup. by exists j.
    + cbn in Hi. apply (IH i j); [done..|lia].
Qed.

(** Property X20. The candidates generated for a source record are the best
    matches among the canonical people: all the matches if there are at most
    [max_candidates], that many otherwise; in decreasing order of
    confidence; and no match left out has a greater confidence than one that
    is kept. *)
Theorem generated_candidates_are_the_best source people n :
  let l := generate_candidates_for_source source people n in
  length l = Nat.min n (length (omap (calculate_match source) people))
  /\ (forall c, c ∈ l ->
        exists person, person ∈ people /\ calculate_match source person = Some c)
  /\ (forall i j ci cj,
        l !! i = Some ci -> l !! j = Some cj -> (i < j)%nat ->
        confidence cj <= confidence ci)
  /\ (forall person c',
        person ∈ people -> calculate_match source person = Some c' -> c' ∉ l ->
        forall c, c ∈ l -> confidence c' <= confidence c).
Proof.
  cbv zeta. unfold generate_candidates_for_source.
  set (cs := omap (fun person => calculate_match source person) people).
  pose proof (sort_by_confidence_sorted cs) as Hsorted.
  split; [by rewrite length_take, length_sort_by_confidence|].
  split; [apply generated_candidates_are_matches|].
  split.
  - intros i j ci cj Hi Hj Hlt.
    apply lookup_take_Some in Hi as [Hi _], Hj as [Hj _].
    exact (sorted_lookup _ Hsorted i j ci cj Hi Hj Hlt).
  - intros person c' Hperson Hc' Hout c Hc.
    assert (Hin : c' ∈ sort_by_confidence cs).
    { apply elem_of_sort_by_confidence, list_elem_of_omap. by exists person. }
    apply list_elem_of_lookup in Hin as [j Hj], Hc as [i Hi].
    apply lookup_take_Some in Hi as [Hi Hin].
    assert (Hge : (n <= j)%nat).
    { destruct (le_lt_dec n j) as [|Hlt]; [done|]. exfalso. apply Hout.
      apply list_elem_of_lookup. exists j. by apply lookup_take_Some. }
    apply (sorted_lookup _ Hsorted i j c c' Hi Hj). lia.
Qed.

(** *** The statistics of a run *)

Lemma counted_tier_of_match s p c :
  calculate_match s p = Some c -> (counted_tier c <= 2)%nat.
Proof.
  intros H. apply calculate_match_Some in H as (Hm & Hconf & _).
  pose proof (match_signals_floor s p Hm) as Hfloor.
  assert (Hhalf : 0.50 <= confidence c).
  { rewrite Hconf. apply (round3_ge _ 0.50 500); [reflexivity|lra]. }
  apply Qle_bool_iff in Hhalf. unfold counted_tier. rewrite Hhalf.
  destruct (Qle_bool 0.95 _); [lia|]. destruct (Qle_bool 0.80 _); lia.
Qed.

Lemma count_candidate_tallied acc c :
  (counted_tier c <= 2)%nat -> tallied acc -> tallied (count_candidate acc c)
  /\ sources_processed (snd (count_candidate acc c)) = sources_processed (snd acc)
  /\ candidates_generated (snd (count_candidate acc c))
     = S (candidates_generated (snd acc)).
Proof.
  destruct acc as [all [sp cg ci cs t0 t1 t2]]. unfold tallied, count_candidate.
  cbn [fst snd candidates_generated tier0_count tier1_count tier2_count
       candidates_inserted candidates_skipped sources_processed].
  intros Ht (Hl & Hsum & Hi & Hs). rewrite length_app. cbn [length].
  destruct (counted_tier c) as [|[|[|k]]]; [..|lia];
    cbn [fst snd candidates_generated tier0_count tier1_count tier2_count
         candidates_inserted candidates_skipped sources_processed];
    repeat split; lia.
Qed.

Lemma count_candidates_tallied cs : forall acc,
  Forall (fun c => (counted_tier c <= 2)%nat) cs -> tallied acc ->
  tallied (fold_left count_candidate cs acc)
  /\ sources_processed (snd (fold_left count_candidate cs acc))
     = sources_processed (snd acc)
  /\ candidates_generated (snd (fold_left count_candidate cs acc))
     = (candidates_generated (snd acc) + length cs)%nat.
Proof.
  induction cs as [|c cs IH]; intros acc Hcs Hacc.
  - cbn [fold_left length]. repeat split; [apply Hacc..|lia].
  - cbn [fold_left length]. apply Forall_cons in Hcs as [Hc Hcs].
    destruct (count_candidate_tallied acc c Hc Hacc) as (Ht & Hsp & Hcg).
    destruct (IH _ Hcs Ht) as (Ht' & Hsp' & Hcg').
    split; [exact Ht'|]. split; [congruence|]. lia.
Qed.

Lemma generated_candidates_counted source people n :
  Forall (fun c => (counted_tier c <= 2)%nat)
    (generate_candidates_for_source source people n).
Proof.
  apply Forall_forall. intros c Hc.
  apply generated_candidates_are_matches in Hc as (person & _ & Hc).
  eapply counted_tier_of_match, Hc.
Qed.

Lemma process_source_tallied people acc source :
  tallied acc ->
  (candidates_generated (snd acc) <= MAX_CANDIDATES_PER_SOURCE * sources_processed (snd acc))%nat ->
  tallied (process_source people acc source)
  /\ (candidates_generated (snd (process_source people acc source))
      <= MAX_CANDIDATES_PER_SOURCE
         * sources_processed (snd (process_source people acc source)))%nat
  /\ sources_processed (snd (process_source people acc source))
     = (sources_processed (snd acc)
        + if (String.length (display_name source) <? MIN_NAME_LENGTH)%nat
          then 0 else 1)%nat.
Proof.
  intros Hacc Hmax. unfold process_source.
  destruct (String.length (display_name source) <? MIN_NAME_LENGTH)%nat;
    [repeat split; (apply Hacc || lia)|].
  destruct acc as [all [sp cg ci cs t0 t1 t2]].
  pose proof (generated_candidates_length source people MAX_CANDIDATES_PER_SOURCE) as Hlen.
  destruct (count_candidates_tallied
              (generate_candidates_for_source source people MAX_CANDIDATES_PER_SOURCE)
              (all, mkStats (S sp) cg ci cs t0 t1 t2)
              (generated_candidates_counted _ _ _) Hacc) as (Ht & Hsp & Hcg).
  split; [exact Ht|]. rewrite Hsp, Hcg.
  cbn [fst snd candidates_generated sources_processed] in *. split; lia.
Qed.

Lemma process_sources_tallied people sources : forall acc,
  tallied acc ->
  (candidates_generated (snd acc) <= MAX_CANDIDATES_PER_SOURCE * sources_processed (snd acc))%nat ->
  let acc' := fold_left (process_source people) sources acc in
  tallied acc'
  /\ (candidates_generated (snd acc')
      <= MAX_CANDIDATES_PER_SOURCE * sources_processed (snd acc'))%nat
  /\ sources_processed (snd acc')
     = (sources_processed (snd acc)
        + length (List.filter
                    (fun s => negb (String.length (display_name s) <? MIN_NAME_LENGTH)%nat)
                    sources))%nat.
Proof.
  induction sources as [|source sources IH]; intros acc Hacc Hmax; cbv zeta.
  - cbn [fold_left List.filter length]. repeat split; (apply Hacc || lia).
  - cbn [fold_left List.filter].
    destruct (process_source_tallied people acc source Hacc Hmax) as (Ht & Hm & Hsp).
    destruct (IH _ Ht Hm) as (Ht' & Hm' & Hsp'). cbv zeta in *.
    split; [exact Ht'|]. split; [exact Hm'|]. rewrite Hsp', Hsp.
    destruct (String.length (display_name source) <? MIN_NAME_LENGTH)%nat;
      cbn [negb length]; lia.
Qed.

Section Batch.

Variable rejects : MatchCandidate -> bool.

Lemma upsert_loop_counts cs : forall conn inserted skipped conn' i' s',
  upsert_loop rejects conn cs inserted skipped = (conn', i', s') ->
  (i' + s' = inserted + skipped + length cs)%nat.
Proof.
  induction cs as [|c cs IH]; intros conn inserted skipped conn' i' s' H.
  - injection H as <- <- <-. cbn [length]. lia.
  - cbn [upsert_loop length] in *.
    destruct (execute_upsert rejects conn c) as [[conn1 [|]]|e];
      apply IH in H; lia.
Qed.

(** Property X21. The statistics of one source system add up: every
    candidate generated is counted in one of the three tiers and is either
    inserted or skipped; at most five candidates come from a source record;
    the source records processed are those whose name has two characters or
    more; and a dry run leaves the connection as it was. *)
Theorem source_system_statistics_add_up conn people sources dry_run :
  let st := snd (process_source_system rejects conn people sources dry_run) in
  (tier0_count st + tier1_count st + tier2_count st = candidates_generated st)%nat
  /\ (candidates_inserted st + candidates_skipped st = candidates_generated st)%nat
  /\ (candidates_generated st <= MAX_CANDIDATES_PER_SOURCE * sources_processed st)%nat
  /\ sources_processed st
     = length (List.filter
                 (fun s => negb (String.length (display_name s) <? MIN_NAME_LENGTH)%nat)
                 sources)
  /\ (dry_run = true ->
      fst (process_source_system rejects conn people sources dry_run) = conn).
Proof.
  cbv zeta. unfold process_source_system.
  destruct (process_sources_tallied people sources ([], no_stats))
    as ((Hl & Hsum & _ & _) & Hmax & Hsp).
  { by repeat split. }
  { cbn. lia. }
  cbv zeta in *.
  destruct (fold_left (process_source people) sources ([], no_stats))
    as [all [sp cg ci cs t0 t1 t2]].
  cbn [fst snd candidates_generated tier0_count tier1_count tier2_count
       sources_processed] in *.
  destruct (upsert_candidates rejects conn all dry_run) as [[conn' ins] skp] eqn:Hup.
  cbn [fst snd candidates_generated tier0_count tier1_count tier2_count
       sources_processed candidates_inserted candidates_skipped].
  split; [exact Hsum|]. split; [|split; [exact Hmax|split; [exact Hsp|]]].
  - unfold upsert_candidates in Hup. destruct dry_run.
    + injection Hup as <- <- <-. lia.
    + apply upsert_loop_counts in Hup. lia.
  - intros ->. unfold upsert_candidates in Hup. by injection Hup as <- _ _.
Qed.

Lemma GREATEST_ge a b : a <= GREATEST a b.
Proof.
  unfold GREATEST. destruct (Qle_bool a b) eqn:H; [by apply Qle_bool_iff|lra].
Qed.

Lemma execute_upsert_keeps conn c conn' b key old :
  execute_upsert rejects conn c = Ok (conn', b) ->
  person_match_candidates conn !! key = Some old ->
  exists new,
    person_match_candidates conn' !! key = Some new
    /\ row_confidence old <= row_confidence new
    /\ row_status new = row_status old.
Proof.
  unfold execute_upsert. cbv zeta. destruct (failed conn || rejects c); [discriminate|].
  intros H Hold.
  destruct (decide (key = (c_source_system c, c_source_record_id c, candidate_person_id c)))
    as [->|Hne].
  - rewrite Hold in H. injection H as <- <-. cbn [person_match_candidates].
    rewrite lookup_insert_eq. eexists. split; [reflexivity|].
    cbn [row_confidence row_status]. split; [apply GREATEST_ge|reflexivity].
  - destruct (person_match_candidates conn !! _); injection H as <- <-;
      cbn [person_match_candidates]; rewrite lookup_insert_ne by done;
      exists old; (split; [exact Hold|split; [lra|reflexivity]]).
Qed.

Lemma upsert_loop_keeps cs : forall conn inserted skipped key old,
  person_match_candidates conn !! key = Some old ->
  exists new,
    person_match_candidates (fst (fst (upsert_loop rejects conn cs inserted skipped)))
      !! key = Some new
    /\ row_confidence old <= row_confidence new
    /\ row_status new = row_status old.
Proof.
  induction cs as [|c cs IH]; intros conn inserted skipped key old Hold.
  - exists old. cbn. split; [exact Hold|split; [lra|reflexivity]].
  - cbn [upsert_loop].
    destruct (execute_upsert rejects conn c) as [[conn1 b]|e] eqn:Hex.
    + destruct (execute_upsert_keeps _ _ _ _ _ _ Hex Hold) as (mid & Hmid & Hc & Hs).
      destruct b;
        [destruct (IH conn1 (S inserted) skipped key mid Hmid) as (new & Hnew & Hc' & Hs')
        |destruct (IH conn1 inserted (S skipped) key mid Hmid) as (new & Hnew & Hc' & Hs')];
        exists new; (split; [exact Hnew|split; [lra|congruence]]).
    + apply IH. exact Hold.
Qed.

(** Property X22. A run over a source system never lowers the confidence of
    a stored candidate, never changes its review status and never removes
    it, whatever the candidates it generates and whichever statements fail. *)
Theorem run_never_lowers_a_stored_confidence conn people sources dry_run key old :
  person_match_candidates conn !! key = Some old ->
  exists new,
    person_match_candidates
      (fst (process_source_system rejects conn people sources dry_run)) !! key
    = Some new
    /\ row_confidence old <= row_confidence new
    /\ row_status new = row_status old.
Proof.
  intros Hold. unfold process_source_system.
  destruct (fold_left (process_source people) sources ([], no_stats))
    as [all [sp cg ci cs t0 t1 t2]].
  unfold upsert_candidates. destruct dry_run.
  - exists old. cbn. split; [exact Hold|split; [lra|reflexivity]].
  - destruct (upsert_loop_keeps all conn 0%nat 0%nat key old Hold) as (new & Hnew & H).
    destruct (upsert_loop rejects conn all 0 0) as [[conn' ins] skp].
    exists new. by split.
Qed.

End Batch.

(** *** Names that are the same *)

Lemma levenshtein_row_same c1 i suf : forall j left,
  left = apart (S i) j ->
  (forall c, suf !! (i - j)%nat = Some c -> (j <= i)%nat -> c = c1) ->
  levenshtein_row c1 suf (map (apart i) (seq j (S (length suf)))) left
  = map (apart (S i)) (seq (S j) (length suf)).
Proof.
  induction suf as [|c2 suf IH]; intros j left -> Hc; [reflexivity|].
  cbn [length seq map levenshtein_row].
  assert (Hv : Nat.min (Nat.min (apart i (S j) + 1) (apart (S i) j + 1))
                 (apart i j + (if Ascii.eqb c1 c2 then 0 else 1))
               = apart (S i) (S j)).
  { unfold apart. destruct (Nat.eq_dec j i) as [->|Hne].
    - rewrite (Hc c2) by (rewrite ?Nat.sub_diag; done || lia).
      rewrite Ascii.eqb_refl. lia.
    - destruct (Ascii.eqb c1 c2); lia. }
  rewrite Hv. f_equal. apply (IH (S j)); [reflexivity|]. intros c Hl Hle. apply Hc; [|lia].
  replace (i - j)%nat with (S (i - S j)) by lia. exact Hl.
Qed.

Lemma levenshtein_rows_same (t : list ascii) suf : forall pre,
  t = pre ++ suf ->
  levenshtein_rows suf (length pre) t
    (map (apart (length pre)) (seq 0 (S (length t))))
  = map (apart (length t)) (seq 0 (S (length t))).
Proof.
  induction suf as [|c1 suf IH]; intros pre Ht.
  - cbn [levenshtein_rows]. rewrite Ht, app_nil_r. reflexivity.
  - cbn [levenshtein_rows].
    rewrite (levenshtein_row_same c1 (length pre) t 0).
    + specialize (IH (pre ++ [c1])). rewrite length_app in IH. cbn [length] in IH.
      rewrite Nat.add_1_r in IH.
      replace (S (length pre) :: map (apart (S (length pre))) (seq 1 (length t)))
        with (map (apart (S (length pre))) (seq 0 (S (length t))))
        by (cbn [seq map]; f_equal; unfold apart; lia).
      apply IH. by rewrite <- app_assoc.
    + unfold apart. lia.
    + intros c Hl _. rewrite Nat.sub_0_r, Ht in Hl.
      rewrite lookup_app_r, Nat.sub_diag in Hl by lia. by injection Hl.
Qed.

Lemma levenshtein_distance_same s : levenshtein_distance s s = 0%nat.
Proof.
  unfold levenshtein_distance. rewrite Nat.ltb_irrefl.
  destruct (String.length s =? 0)%nat eqn:Hlen; [by apply Nat.eqb_eq|].
  rewrite <- TextFacts.length_chars.
  pose proof (levenshtein_rows_same (chars s) (chars s) [] eq_refl) as H.
  cbn [length] in H.
  assert (H0 : map (apart 0) (seq 0 (S (length (chars s)))) = seq 0 (S (length (chars s)))).
  { rewrite <- (map_id (seq 0 (S (length (chars s))))) at 2. apply map_ext.
    intros j. unfold apart. lia. }
  rewrite H0 in H. rewrite H, seq_S, map_app. cbn [map]. rewrite last_last.
  unfold apart. lia.
Qed.

Lemma same_names_are_similar a b :
  normalize_name a = normalize_name b -> normalize_name a <> ""%string ->
  name_similarity a b == 1.
Proof.
  unfold name_similarity. cbv zeta.
  intros <- Hne. rewrite (proj2 (TextFacts.truthy_true _) Hne). cbn [negb orb].
  rewrite Nat.max_id, levenshtein_distance_same.
  destruct (String.length (normalize_name a) =? 0)%nat eqn:Hl.
  - apply Nat.eqb_eq in Hl. destruct (normalize_name a); [done|discriminate].
  - apply Nat.eqb_neq in Hl.
    destruct (Qmax_cases 0
                (1 - inject_Z (Z.of_nat 0)
                     / inject_Z (Z.of_nat (String.length (normalize_name a)))))
      as [[Hle ->]|[_ ->]].
    + exfalso. revert Hle. unfold Qdiv. rewrite Qmult_0_l. lra.
    + unfold Qdiv. rewrite Qmult_0_l. lra.
Qed.

(** Property X23. Two names that normalize to the same text, not empty, have
    similarity 1; a name that normalizes to the empty text has similarity 0
    with every name. *)
Theorem name_similarity_of_equal_and_of_empty_names a b :
  (normalize_name a = ""%string \/ normalize_name b = ""%string ->
   name_similarity a b = 0)
  /\ (normalize_name a = normalize_name b -> normalize_name a <> ""%string ->
      name_similarity a b == 1).
Proof.
  split.
  - unfold name_similarity. cbv zeta.
    intros [-> | ->]; [reflexivity|]. by rewrite orb_true_r.
  - apply same_names_are_similar.
Qed.

(** Property X24. The same name and the same area code, with no exact phone
    or email match: the confidence computed is the threshold 0.95 itself, so
    the candidate is stored with 0.95 and recorded in tier 0. *)
Theorem same_name_and_area_code_reaches_tier_0 s p :
  normalize_name (display_name s) = normalize_name (person_display_name p) ->
  normalize_name (display_name s) <> ""%string ->
  exact_phone s p = false -> exact_email s p = false ->
  area_code s p = true ->
  exists c,
    calculate_match s p = Some c
    /\ confidence c == 0.95
    /\ tier (evidence c) = 0%nat
    /\ matched_on (evidence c) = ["name_fuzzy"%string; "area_code"%string].
Proof.
  intros Hsame Hne Hphone Hemail Harea.
  pose proof (same_names_are_similar _ _ Hsame Hne) as Hsim.
  assert (Hle : Qle_bool 0.7 (name_similarity (display_name s) (person_display_name p))
                = true) by (apply Qle_bool_iff; lra).
  assert (Hsig : match_signals s p
                 = (["name_fuzzy"%string; "area_code"%string],
                    0.85 + name_similarity (display_name s) (person_display_name p) * 0.1)).
  { unfold match_signals. cbv zeta. rewrite Hphone, Hemail, Harea, Hle. cbn [app].
    f_equal.
    destruct (Qmax_cases 0
      (0.85 + name_similarity (display_name s) (person_display_name p) * 0.1))
      as [[? _]|[_ ->]]; [lra|reflexivity]. }
  destruct (calculate_match_returns s p) as [c Hc]; [by rewrite Hsig|].
  exists c. split; [exact Hc|].
  apply calculate_match_Some in Hc as (_ & Hconf & Htier & Hm).
  rewrite Hsig in *. cbn [fst snd] in *. rewrite Hconf, Htier.
  split; [|split; [|exact Hm]].
  - apply Qle_antisym;
      [apply (round3_le _ 0.95 950)|apply (round3_ge _ 0.95 950)];
      (reflexivity || lra).
  - unfold tier_of.
    assert (H95 : Qle_bool 0.95
                    (0.85 + name_similarity (display_name s) (person_display_name p) * 0.1)
                  = true) by (apply Qle_bool_iff; lra).
    by rewrite H95.
Qed.

End PeopleMatchMore.

(** ** More of the windowed snapshot *)

Module ClinichqMore.
Import PyStr Clinichq ClinichqFacts ClinichqSummary.

Lemma staled_is_no_candidate now run_id cs ce a :
  stale_candidate run_id cs ce
    (if stale_candidate run_id cs ce a then set_stale now a else a) = false.
Proof.
  destruct (stale_candidate run_id cs ce a) eqn:H; [|exact H].
  unfold stale_candidate. cbn [is_current set_stale]. by rewrite bool_decide_eq_false_2.
Qed.

(** Property X25. The staleness pass of a run is idempotent: run a second
    time with the same run id and window, at any later time, it selects no
    row and leaves the table as the first pass left it. *)
Theorem second_staleness_pass_changes_nothing (now now' : N)
    (t : gmap (string * string) appointment) run_id cs ce :
  mark_stale_in_window now' (fst (mark_stale_in_window now t run_id cs ce))
    run_id cs ce
  = (fst (mark_stale_in_window now t run_id cs ce), 0%nat).
Proof.
  unfold mark_stale_in_window. cbn [fst]. f_equal.
  - apply map_eq. intros k. rewrite !lookup_fmap.
    destruct (t !! k) as [a|]; [|reflexivity]. cbn [fmap option_fmap option_map].
    by rewrite staled_is_no_candidate.
  - apply map_size_empty_iff, map_eq. intros k. rewrite lookup_empty.
    apply map_lookup_filter_None. rewrite lookup_fmap.
    destruct (t !! k) as [a|]; [right|by left]. intros x [= <-]. cbn [snd].
    by rewrite staled_is_no_candidate.
Qed.

(** Property X26. Row by row, the staleness pass adds and removes nothing,
    leaves alone every row this run saw and every row that is not current,
    and turns a current row of the window that the run did not see into the
    same row marked not current, with [stale_at] the time of the pass. *)
Theorem staleness_pass_row_by_row (now : N)
    (t : gmap (string * string) appointment) run_id cs ce :
  let t' := fst (mark_stale_in_window now t run_id cs ce) in
  (forall key, t' !! key = None <-> t !! key = None)
  /\ (forall key a,
        t !! key = Some a ->
        last_seen_run_id a = Some run_id \/ is_current a <> Some true ->
        t' !! key = Some a)
  /\ (forall key a d,
        t !! key = Some a ->
        is_current a = Some true -> last_seen_run_id a <> Some run_id ->
        appt_date a = Some d -> date_leb cs d = true -> date_leb d ce = true ->
        t' !! key = Some (set_stale now a)).
Proof.
  cbv zeta. unfold mark_stale_in_window. cbn [fst]. split; [|split].
  - intros key. rewrite lookup_fmap. by destruct (t !! key).
  - intros key a Ht Hwhy. rewrite lookup_fmap, Ht. cbn.
    assert (Hc : stale_candidate run_id cs ce a = false); [|by rewrite Hc].
    unfold stale_candidate. destruct Hwhy as [Hseen|Hcur].
    + rewrite Hseen, String.eqb_refl. apply andb_false_r.
    + by rewrite bool_decide_eq_false_2.
  - intros key a d Ht Hcur Hseen Hd Hlo Hhi.
    rewrite lookup_fmap, Ht. cbn.
    assert (Hc : stale_candidate run_id cs ce a = true); [|by rewrite Hc].
    unfold stale_candidate. rewrite Hd, Hlo, Hhi, bool_decide_eq_true_2 by done.
    destruct (last_seen_run_id a) as [r|]; [|reflexivity]. cbn [andb].
    apply negb_true_iff, String.eqb_neq. congruence.
Qed.

Lemma current_rows_insert (t : gmap (string * string) appointment) k a :
  t !! k = None ->
  current_rows (<[k := a]> t)
  = ((if bool_decide (is_current a = Some true) then 1 else 0) + current_rows t)%nat.
Proof.
  intros Hk. unfold current_rows. case_bool_decide as Hc.
  - rewrite map_filter_insert_True by done.
    rewrite map_size_insert_None; [reflexivity|].
    apply map_lookup_filter_None. by left.
  - rewrite map_filter_insert_not'; [reflexivity|done|]. intros y Hy. congruence.
Qed.

(** Property X27. [rows_staled] is the number of rows that stopped being
    current: the current rows before the pass are those after it and the
    rows it counted. *)
Theorem rows_staled_is_the_drop_in_current_rows (now : N)
    (t : gmap (string * string) appointment) run_id cs ce :
  current_rows t
  = (current_rows (fst (mark_stale_in_window now t run_id cs ce))
     + snd (mark_stale_in_window now t run_id cs ce))%nat.
Proof.
  unfold mark_stale_in_window. cbn [fst snd].
  induction t as [|k a t Hk IH] using map_ind.
  - rewrite fmap_empty, map_filter_empty. unfold current_rows.
    rewrite map_filter_empty, map_size_empty. reflexivity.
  - rewrite fmap_insert, !current_rows_insert by (by rewrite ?lookup_fmap, ?Hk).
    rewrite IH.
    destruct (stale_candidate run_id cs ce a) eqn:Hc.
    + rewrite map_filter_insert_True by done.
      rewrite map_size_insert_None by (apply map_lookup_filter_None; by left).
      assert (Hcur : is_current a = Some true).
      { unfold stale_candidate in Hc. apply andb_true_iff in Hc as [Hc _].
        apply andb_true_iff in Hc as [Hc _]. by apply bool_decide_eq_true in Hc. }
      rewrite (bool_decide_eq_true_2 _ Hcur).
      rewrite bool_decide_eq_false_2 by (cbn [is_current set_stale]; discriminate).
      lia.
    + rewrite map_filter_insert_not'; [lia|cbn [snd]; by rewrite Hc|].
      intros y Hy. congruence.
Qed.

(** *** The coverage window *)

Lemma date_not_leb a b : date_leb a b = false -> date_leb b a = true.
Proof. intros H. destruct (date_leb_total a b) as [H'|H']; congruence. Qed.

Lemma date_leb_refl a : date_leb a a = true.
Proof. apply date_leb_spec. lia. Qed.

Lemma track_dates_spans ds :
  spans (fold_left track_dates ds (None, None)) ds.
Proof.
  induction ds as [|x ds IH] using rev_ind.
  - cbn. intros d Hd. by apply elem_of_nil in Hd.
  - rewrite fold_left_app. cbn [fold_left].
    destruct (fold_left track_dates ds (None, None)) as [[lo|] [hi|]];
      cbn [spans] in IH; try done.
    + destruct IH as (Hlo & Hhi & Hall). destruct x as [d|]; cbn [track_dates fst snd].
      * unfold date_ltb. pose proof (date_leb_refl d) as Hd.
        destruct (date_leb lo d) eqn:H1, (date_leb d hi) eqn:H2; cbn [negb spans].
        all: try apply date_not_leb in H1; try apply date_not_leb in H2.
        all: (split; [|split]);
          [apply elem_of_app; first [by left | right; by apply list_elem_of_singleton]..|].
        all: intros d' Hd'; apply elem_of_app in Hd' as [Hd'|Hd'];
          [destruct (Hall d' Hd') as [Ha Hb]
          |apply list_elem_of_singleton in Hd'; injection Hd' as ->].
        all: split; eauto using date_leb_trans.
      * cbn [spans]. (split; [|split]); [apply elem_of_app; by left..|].
        intros d' Hd'. apply elem_of_app in Hd' as [Hd'|Hd']; [by apply Hall|].
        by apply list_elem_of_singleton in Hd'.
    + destruct x as [d|]; cbn [track_dates fst snd spans].
      * pose proof (date_leb_refl d) as Hd.
        (split; [|split]);
          [apply elem_of_app; right; by apply list_elem_of_singleton..|].
        intros d' Hd'. apply elem_of_app in Hd' as [Hd'|Hd']; [by apply IH in Hd'|].
        apply list_elem_of_singleton in Hd'. by injection Hd' as ->.
      * intros d Hd. apply elem_of_app in Hd as [Hd|Hd]; [by apply IH in Hd|].
        by apply list_elem_of_singleton in Hd.
Qed.

(** Property X28. The bounds parsed from the file name win; a bound the name
    does not give falls back to the dates of the rows. With no bound from
    the name, the window runs from the least to the greatest date of the
    rows, both dates of rows, and holds every dated row; if no row has a
    date there is no window and the staleness pass changes nothing. *)
Theorem coverage_window_falls_back_to_the_rows from_filename row_dates a b :
  (fst from_filename = Some a ->
   fst (final_coverage_window from_filename row_dates) = Some a)
  /\ (snd from_filename = Some b ->
      snd (final_coverage_window from_filename row_dates) = Some b)
  /\ match final_coverage_window (None, None) row_dates with
     | (Some lo, Some hi) =>
         Some lo ∈ row_dates /\ Some hi ∈ row_dates
         /\ forall d, Some d ∈ row_dates -> date_leb lo d = true /\ date_leb d hi = true
     | (None, None) =>
         (forall d, Some d ∉ row_dates)
         /\ forall (now : N) has_windowed_columns run_id
                   (t : gmap (string * string) appointment),
              staleness_pass now has_windowed_columns
                (final_coverage_window (None, None) row_dates) run_id t = (t, 0%nat)
     | _ => False
     end.
Proof.
  unfold final_coverage_window.
  pose proof (track_dates_spans row_dates) as H.
  destruct (fold_left track_dates row_dates (None, None)) as [[lo|] [hi|]];
    cbn [spans fst snd] in *.
  all: split; [by intros ->|]; split; [by intros ->|]; try done.
Qed.

End ClinichqMore.

(** ** The keys of the upserts *)

Module KeyFacts.
Import PyStr Csv.

Lemma str_of_int_inj n m : str_of_int n = str_of_int m -> n = m.
Proof.
  unfold str_of_int. intros H. apply DecimalZ.to_int_inj.
  assert (Hok : forall z, NilZero.int_of_string (NilZero.string_of_int (Z.to_int z))
                          = Some (Z.to_int z)).
  { intros z. apply NilZero.isi; destruct z as [|p|p]; cbn; try discriminate;
      intros [= Hp]; by apply Unsigned.to_uint_nonnil in Hp. }
  pose proof (Hok n) as Hn. rewrite H, Hok in Hn. by injection Hn.
Qed.

Lemma str_of_positive_is_no_hash n x :
  (0 < n)%Z -> str_of_int n <> "hash:" +:+ x.
Proof.
  destruct n as [|p|p]; try lia. intros _. unfold str_of_int. cbn [Z.to_int].
  cbn [NilZero.string_of_int]. unfold NilZero.string_of_uint.
  destruct (Pos.to_uint p); cbn; discriminate.
Qed.

Section Keys.

Variable sha256_hexdigest : string -> string.

(** Property X29. A positive appointment number is the key of its row, and
    of no other row: a row has the same [source_pk] exactly when it has the
    same number, whatever the names, dates and other fields say; a row
    without a positive number gets a key that starts with "hash:". *)
Theorem appointment_number_is_the_key (r r' : Clinichq.normalized) n :
  Clinichq.n_appt_number r = Some n -> (0 < n)%Z ->
  Clinichq.compute_source_pk sha256_hexdigest r = str_of_int n
  /\ (Clinichq.compute_source_pk sha256_hexdigest r'
      = Clinichq.compute_source_pk sha256_hexdigest r
      <-> Clinichq.n_appt_number r' = Some n).
Proof.
  intros Hn Hpos.
  assert (Hr : Clinichq.compute_source_pk sha256_hexdigest r = str_of_int n).
  { unfold Clinichq.compute_source_pk. cbv zeta. rewrite Hn.
    by rewrite (proj2 (Z.ltb_lt 0 n) Hpos). }
  split; [exact Hr|]. rewrite Hr. split.
  - unfold Clinichq.compute_source_pk. cbv zeta.
    destruct (Clinichq.n_appt_number r') as [m|];
      [destruct (0 <? m)%Z eqn:Hm|].
    + intros H. by apply str_of_int_inj in H as ->.
    + intros H. symmetry in H. by apply str_of_positive_is_no_hash in H.
    + intros H. symmetry in H. by apply str_of_positive_is_no_hash in H.
  - intros Hn'. unfold Clinichq.compute_source_pk. cbv zeta. rewrite Hn'.
    by rewrite (proj2 (Z.ltb_lt 0 n) Hpos).
Qed.

(** Property X30. The key of an appointment request reads the record id and,
    without one, the submission time, the email, the phone and the address
    of the cats: rows that agree on these columns have the same [source_pk],
    whatever their notes, status and other columns; and a row with a record
    id is keyed by it. *)
Theorem request_key_reads_identity_columns_only (r1 r2 : row) :
  (forall k,
     k ∈ ["Record ID"; "record_id"; "Airtable Record ID";
          "New Submitted"; "New Submitted / Former Created Date";
          "Former Created Date"; "submitted_at"; "Email"; "email";
          "Best phone number to reach you"; "Phone"; "phone";
          "Street address where cats are located"; "cats_address";
          "Clean Address (Cats)"] ->
     r1 !! k = r2 !! k) ->
  AirtableAppt.compute_source_pk sha256_hexdigest r1
  = AirtableAppt.compute_source_pk sha256_hexdigest r2
  /\ (AirtableAppt.first_present r1 ["Record ID"; "record_id"; "Airtable Record ID"]
      <> "" ->
      AirtableAppt.compute_source_pk sha256_hexdigest r1
      = AirtableAppt.first_present r1 ["Record ID"; "record_id"; "Airtable Record ID"]).
Proof.
  intros H. split.
  - unfold AirtableAppt.compute_source_pk. cbv zeta.
    repeat match goal with
           | |- context [AirtableAppt.first_present r1 ?keys] =>
               rewrite (HashFacts.first_present_ext r1 r2 keys)
                 by (intros k Hk; apply H;
                     apply list_elem_of_In; apply list_elem_of_In in Hk;
                     cbn in *; tauto)
           end.
    reflexivity.
  - intros Hne. unfold AirtableAppt.compute_source_pk. cbv zeta.
    by rewrite (proj2 (TextFacts.truthy_true _) Hne).
Qed.

End Keys.

End KeyFacts.

(** ** The further properties at the sample data *)

Module MoreInstances.
Import PyStr Csv Examples Samples.

Ltac by_computation :=
  match goal with |- ?P => apply (bool_decide_unpack P); vm_compute; exact I end.

Section MoreTrapping.
Import Trapping TrappingFacts TrappingMore Invariants.

(** [blank_row] has no case number and no email. *)
Lemma blank_row_reads_empty_witness :
  get_field blank_row header_map ["Case Number"; "Email"] = "".
Proof.
  apply (blank_row_reads_empty blank_row header_map ["Case Number"; "Email"]).
  vm_compute. reflexivity.
Defined.

(** [unmapped_row], whose status text maps to nothing. *)
Lemma status_and_reason_stay_in_their_enums_witness :
  (forall st,
     v_status (fst (read_request ∅ header_map "CASE-060" unmapped_row s0)) = Some st ->
     st ∈ allowed_status)
  /\ (forall a,
        v_archive_reason (fst (read_request ∅ header_map "CASE-060" unmapped_row s0))
        = Some a ->
        a ∈ ["duplicate"; "denied"; "referred_elsewhere"]).
Proof.
  apply (status_and_reason_stay_in_their_enums ∅ header_map "CASE-060" unmapped_row s0
           _ (snd (read_request ∅ header_map "CASE-060" unmapped_row s0))).
  vm_compute. reflexivity.
Defined.

(** [dup_row]: the text "Dup" maps to no status and names the reason
    [duplicate]. *)
Lemma archive_reason_implies_terminal_status_witness :
  coerce_request_status "Dup" = None
  /\ v_status (fst (read_request ∅ header_map "CASE-070" dup_row s0)) = Some "closed".
Proof.
  split; [vm_compute; reflexivity|].
  apply (archive_reason_implies_terminal_status ∅ header_map "CASE-070" dup_row s0
           _ (snd (read_request ∅ header_map "CASE-070" dup_row s0)) "duplicate").
  - vm_compute. reflexivity.
  - vm_compute. reflexivity.
Defined.

(** [late_row] names R1, which no row of the file carries and the
    stored request CASE-001 does. *)
Lemma merge_target_resolved_from_database_witness :
  db_lookups (state_of (process_row env0 ∅ header_map (start stored) late_row))
  = (db_lookups (start stored) ++ ["R1"])%list
  /\ (exists target,
        requests (db (start stored)) !! "CASE-001" = Some target
        /\ source_record_id target = Some "R1")
  /\ exists rq,
       requests (db (state_of (process_row env0 ∅ header_map (start stored) late_row)))
         !! case_number_of header_map late_row = Some rq
       /\ (has_col (table_columns env0 "requests") "merged_into_case_number" = true ->
           merged_into_case_number rq = Some "CASE-001").
Proof.
  apply (merge_target_resolved_from_database env0 ∅ header_map (start stored) late_row
           _ "R1" "CASE-001").
  - split; [split; vm_compute; reflexivity|]. by_computation.
  - vm_compute. reflexivity.
  - discriminate.
  - reflexivity.
  - vm_compute. reflexivity.
  - discriminate.
  - vm_compute. reflexivity.
Defined.

(** [unmapped_row] on the empty database. *)
Lemma unmapped_status_is_reported_witness :
  WarnUnmappedStatus "Pending vet" (case_number_of header_map unmapped_row)
    ∈ stdout (state_of (process_row env0 ∅ header_map s0 unmapped_row))
  /\ exists rq,
       requests (db (state_of (process_row env0 ∅ header_map s0 unmapped_row)))
         !! case_number_of header_map unmapped_row = Some rq
       /\ status rq = requests (db s0) !! case_number_of header_map unmapped_row ≫= status.
Proof.
  apply (unmapped_status_is_reported env0 ∅ header_map s0 unmapped_row _ "Pending vet").
  - split; [split; vm_compute; reflexivity|]. by_computation.
  - vm_compute. reflexivity.
  - vm_compute. reflexivity.
  - discriminate.
  - vm_compute. reflexivity.
  - vm_compute. reflexivity.
  - vm_compute. reflexivity.
Defined.

(** The five rows of [mixed_file]. *)
Lemma every_row_is_counted_once_witness :
  skipped_blank_rows (counters mixed_run)
  + skipped_missing_case_number (counters mixed_run)
  + skipped_dupe_case_in_file (counters mixed_run)
  + requests_inserted (counters mixed_run) + requests_updated (counters mixed_run)
  = length (rows mixed_file).
Proof.
  apply (every_row_is_counted_once env0 mixed_file empty_database mixed_run).
  vm_compute. reflexivity.
Defined.

(** The one merge target of [mixed_file]. *)
Lemma merge_links_are_resolved_or_unresolved_witness :
  merged_links_set (counters mixed_run)
  = merged_case_resolved (counters mixed_run)
    + merged_case_unresolved (counters mixed_run).
Proof.
  apply (merge_links_are_resolved_or_unresolved env0 mixed_file empty_database mixed_run).
  vm_compute. reflexivity.
Defined.

(** The two case numbers of [mixed_file]. *)
Lemma one_request_per_distinct_case_number_witness :
  requests_inserted (counters mixed_run) + requests_updated (counters mixed_run)
  = size (seen_case_numbers mixed_run)
  /\ forall c,
       c ∈ seen_case_numbers mixed_run
       <-> exists r, r ∈ rows mixed_file
                     /\ has_case_number (normalize_csv_headers (fieldnames mixed_file)) r
                     /\ c = case_number_of (normalize_csv_headers (fieldnames mixed_file)) r.
Proof.
  apply (one_request_per_distinct_case_number env0 mixed_file empty_database mixed_run).
  vm_compute. reflexivity.
Defined.

(** The request of Ann written again, that day and a day later. *)
Lemma upsert_request_is_idempotent_witness :
  upsert_request env1
    (database_of (upsert_request env0 stored "CASE-001" "R1" None None (Some "closed")
                    None None "" (Some "duplicate") None None))
    "CASE-001" "R1" None None (Some "closed") None None "" (Some "duplicate") None None
  = Ok (database_of (upsert_request env0 stored "CASE-001" "R1" None None (Some "closed")
                       None None "" (Some "duplicate") None None),
        Some 2%N, false).
Proof.
  apply (upsert_request_is_idempotent env0 env1 stored "CASE-001" "R1" None None
           (Some "closed") None None "" (Some "duplicate") None None _ _ false).
  - reflexivity.
  - vm_compute. reflexivity.
Defined.


End MoreTrapping.

Section MoreMatch.
Import PeopleMatch PeopleMatchFacts PeopleMatchMain PeopleMatchMore.
Local Open Scope Q_scope.

(** [jane_source] and [lee_person]: the same phone, other names. *)
Lemma exact_phone_match_is_certain_witness :
  exists c,
    calculate_match jane_source lee_person = Some c
    /\ confidence c == 1
    /\ tier (evidence c) = 0%nat
    /\ phone_match (evidence c) = true.
Proof.
  apply (exact_phone_match_is_certain jane_source lee_person).
  vm_compute. reflexivity.
Defined.

(** [mail_source] and [mail_person]: the same email, other names. *)
Lemma exact_email_match_scores_098_witness :
  exists c,
    calculate_match mail_source mail_person = Some c
    /\ confidence c == 0.98
    /\ tier (evidence c) = 0%nat
    /\ email_match (evidence c) = true
    /\ phone_match (evidence c) = false.
Proof.
  apply (exact_email_match_scores_098 mail_source mail_person).
  - vm_compute. reflexivity.
  - vm_compute. reflexivity.
Defined.


(** The stored candidate of [connection_0], after a run that generates
    it again from [jon_source] and [john_person]. *)
Lemma run_never_lowers_a_stored_confidence_witness :
  exists new,
    person_match_candidates
      (fst (process_source_system accepts_all connection_0 [john_person] [jon_source]
              false))
      !! ("clinichq"%string, "18"%string, "p-2"%string) = Some new
    /\ row_confidence stored_candidate <= row_confidence new
    /\ row_status new = row_status stored_candidate.
Proof.
  apply (run_never_lowers_a_stored_confidence accepts_all connection_0 [john_person]
           [jon_source] false).
  vm_compute. reflexivity.
Defined.

(** [jane_source] and [jane_person]: the same name, the same area code,
    other numbers. *)
Lemma same_name_and_area_code_reaches_tier_0_witness :
  exists c,
    calculate_match jane_source jane_person = Some c
    /\ confidence c == 0.95
    /\ tier (evidence c) = 0%nat
    /\ matched_on (evidence c) = ["name_fuzzy"%string; "area_code"%string].
Proof.
  apply (same_name_and_area_code_reaches_tier_0 jane_source jane_person).
  - vm_compute. reflexivity.
  - vm_compute. discriminate.
  - vm_compute. reflexivity.
  - vm_compute. reflexivity.
  - vm_compute. reflexivity.
Defined.

End MoreMatch.

Section MoreKeys.
Import KeyFacts.

(** Two rows with the appointment number 7 and other names. *)
Lemma appointment_number_is_the_key_witness :
  Clinichq.compute_source_pk toy_digest (pipe_normalized "Ann" "Lee") = str_of_int 7
  /\ (Clinichq.compute_source_pk toy_digest (pipe_normalized "Bo" "Ray")
      = Clinichq.compute_source_pk toy_digest (pipe_normalized "Ann" "Lee")
      <-> Clinichq.n_appt_number (pipe_normalized "Bo" "Ray") = Some 7%Z).
Proof.
  apply (appointment_number_is_the_key toy_digest (pipe_normalized "Ann" "Lee")
           (pipe_normalized "Bo" "Ray") 7).
  - reflexivity.
  - reflexivity.
Defined.

(** A row and the same row with a County column. *)
Lemma request_key_reads_identity_columns_only_witness :
  AirtableAppt.compute_source_pk toy_digest pipe_row_a
  = AirtableAppt.compute_source_pk toy_digest pipe_row_a_county
  /\ (AirtableAppt.first_present pipe_row_a
        ["Record ID"; "record_id"; "Airtable Record ID"] <> "" ->
      AirtableAppt.compute_source_pk toy_digest pipe_row_a
      = AirtableAppt.first_present pipe_row_a
          ["Record ID"; "record_id"; "Airtable Record ID"]).
Proof.
  apply (request_key_reads_identity_columns_only toy_digest pipe_row_a pipe_row_a_county).
  intros k Hk.
  repeat (apply elem_of_cons in Hk as [->|Hk]; [vm_compute; reflexivity|]).
  by apply elem_of_nil in Hk.
Defined.

End MoreKeys.

End MoreInstances.
